(** * Trading automation engine: strategies, engine, scheduler, session

    A shallow embedding of the Python services
    [app/services/strategies.py], [app/services/strategy_engine.py],
    [app/services/scheduler.py] and [app/services/kis_client.py].

    Conventions of the embedding
    - Python numbers that carry prices, balances, volumes and ratios are
      exact rationals ([Q]); share counts and sizes are [Z] and [nat].
    - A Python method that mutates [self] takes the object and returns the
      new object next to its result.  A method that can raise returns
      [exc]; a mutation made before the raise is kept.
    - A [dict] read through [get(key, default)] at fixed keys is a record of
      optional fields; a [dict] used as a table is a [gmap]. *)

From Stdlib Require Import QArith Qabs Qround ZArith List Bool Lia Lqa String Ascii.
From stdpp Require Import base option list strings gmap.

Local Open Scope Q_scope.

(** ** Python runtime helpers *)

Module Py.

(** A date-time entry read with [strptime]: absent or empty, not in the
    format, or the instant it names. *)
Inductive valid_date :=
| NoDate
| BadDate
| Date (d : Z).

(** A JSON object sent by the brokerage, at the keys the code reads;
    a string read with [get(key, "")] is [""] when the key is absent. *)
Record json_body := {
  rt_cd : option string;
  msg_cd : string;
  msg1 : option string;
  error_code : string;
  error_description : string;
  body_access_token : option string;
  expires_in : option Z;
  access_token_token_expired : valid_date
}.

(** Exceptions the modelled code raises or lets through.  The built-in
    [ConnectionError] and [TimeoutError] are not the transport library's
    [httpx.ConnectError] and [httpx.TimeoutException];
    [httpx.HTTPStatusError] carries the response: its status and its body
    when that is a JSON object. *)
Inductive exn :=
| ZeroDivisionError
| IndexError
| OverflowError
| TypeError
| AttributeError
| ValueError (msg : string)
| ConnectionError
| TimeoutError
| HttpxConnectError
| HttpxTimeoutException
| HTTPStatusError (status : nat) (body : option json_body)
| Exception (msg : string).

Inductive exc (A : Type) :=
| Ok (a : A)
| Raise (e : exn).
Arguments Ok {A} a.
Arguments Raise {A} e.

Definition bind {A B} (m : exc A) (k : A -> exc B) : exc B :=
  match m with
  | Ok a => k a
  | Raise e => Raise e
  end.

Notation "'let*' x ':=' m 'in' k" := (bind m (fun x => k))
  (at level 10, x name, m at level 100, k at level 200).

Definition is_ok {A} (m : exc A) : bool :=
  match m with Ok _ => true | Raise _ => false end.

(** [a / b] on numbers. *)
Definition div (a b : Q) : exc Q :=
  if Qeq_bool b 0 then Raise ZeroDivisionError else Ok (a / b).

(** [int(x)]: truncation towards zero. *)
Definition int (x : Q) : Z := Z.quot (Qnum x) (Zpos (Qden x)).

(** [abs(x)]. *)
Definition abs (x : Q) : Q := Qabs x.

(** [sum(xs)]. *)
Definition sum (xs : list Q) : Q := fold_right Qplus 0 xs.

(** [a < b], [a <= b], [a == b] as booleans. *)
Definition ltb (a b : Q) : bool := negb (Qle_bool b a).
Definition leb (a b : Q) : bool := Qle_bool a b.
Definition eqb (a b : Q) : bool := Qeq_bool a b.

(** [xs[-n:]]: the last [n] items, the whole list when it is shorter;
    [xs[-0:]] is [xs[0:]], the whole list. *)
Definition last_n (n : nat) (xs : list Q) : list Q :=
  match n with
  | O => xs
  | _ => drop (length xs - n) xs
  end.

(** [xs[-n-1:-1]]: the [n] items before the last one. *)
Definition prev_n (n : nat) (xs : list Q) : list Q :=
  let ys := drop (length xs - S n) xs in
  take (length ys - 1) ys.

(** [xs[:n]] and [xs[n:]]. *)
Definition first_n (n : nat) (xs : list Q) : list Q := take n xs.
Definition from_n (n : nat) (xs : list Q) : list Q := drop n xs.

(** [xs[-k]] for [k >= 1]. *)
Definition nth_from_end (k : nat) (xs : list Q) : exc Q :=
  if (length xs <? k)%nat then Raise IndexError
  else match xs !! (length xs - k)%nat with
       | Some x => Ok x
       | None => Raise IndexError
       end.

(** [xs.append(x)] followed by [if len(xs) > bound: xs.pop(0)]. *)
Definition append_bounded (bound : nat) (xs : list Q) (x : Q) : list Q :=
  let ys := xs ++ [x] in
  if (bound <? length ys)%nat then drop 1 ys else ys.

(** Truth value of an optional string: [None] and [""] are false. *)
Definition truthy (s : option string) : bool :=
  match s with
  | Some EmptyString => false
  | Some _ => true
  | None => false
  end.

(** A call [f(k1=..., k2=...)] of a function that declares the parameters
    [params] and no [**kwargs]: a keyword that is not among them raises
    [TypeError] before the body runs. *)
Definition call_with_keywords (params keywords : list string) : exc unit :=
  if forallb (fun k => existsb (String.eqb k) params) keywords
  then Ok tt
  else Raise TypeError.

(** [needle in haystack] on strings. *)
Fixpoint contains (needle haystack : string) : bool :=
  if String.prefix needle haystack then true
  else match haystack with
       | EmptyString => false
       | String _ rest => contains needle rest
       end.

End Py.

Import Py.

(** ** Data model *)

(** The snapshot built by [StrategyEngine._get_market_data]. *)
Record market_data := {
  current_price : Q;
  change_price : Q;
  change_rate : Q;
  volume : Z;
  high_price : Q;
  low_price : Q;
  open_price : Q;
  prev_close : Q
}.

(** The strategy configuration dict, read at these keys only. *)
Record config := {
  cfg_short_period : option nat;
  cfg_long_period : option nat;
  cfg_rsi_period : option nat;
  cfg_oversold : option Q;
  cfg_overbought : option Q;
  cfg_period : option nat;
  cfg_momentum_threshold : option Q;
  cfg_deviation_threshold : option Q;
  cfg_allocation_ratio : option Q;
  cfg_available_balance : option Q;
  cfg_order_type : option string;
  cfg_max_sell_quantity : option Z
}.

Definition empty_config : config :=
  {| cfg_short_period := None; cfg_long_period := None;
     cfg_rsi_period := None; cfg_oversold := None; cfg_overbought := None;
     cfg_period := None; cfg_momentum_threshold := None;
     cfg_deviation_threshold := None; cfg_allocation_ratio := None;
     cfg_available_balance := None; cfg_order_type := None;
     cfg_max_sell_quantity := None |}.

Inductive action := BUY | SELL.

(** The signal dict returned by [on_buy_signal] and [on_sell_signal]. *)
Record signal := {
  sig_action : action;
  sig_stock_code : string;
  sig_quantity : Z;
  sig_price : Q;
  sig_order_type : string
}.

(** The six strategy classes of [strategies.py]. *)
Inductive variant :=
| MovingAverageCrossover
| RSI
| BollingerBands
| MACD
| Momentum
| MeanReversion.

(** Default of [config.get("allocation_ratio", ...)] in each class. *)
Definition default_allocation_ratio (v : variant) : Q :=
  match v with
  | MovingAverageCrossover => 1 # 10
  | RSI => 15 # 100
  | BollingerBands => 12 # 100
  | MACD => 12 # 100
  | Momentum => 1 # 10
  | MeanReversion => 1 # 10
  end.

(** [calculate_buy_quantity]: the same body in every class, up to the
    default ratio. *)
Definition calculate_buy_quantity (v : variant) (cfg : config)
    (stock_code : string) (available_balance current_price : Q) : exc Z :=
  let allocation_ratio :=
    default (default_allocation_ratio v) (cfg_allocation_ratio cfg) in
  let invest_amount := available_balance * allocation_ratio in
  let* ratio := Py.div invest_amount current_price in
  let quantity := Py.int ratio in
  Ok (Z.max 1 quantity).

(** [calculate_buy_price] and [calculate_sell_price]: the current price,
    in every class. *)
Definition calculate_buy_price (stock_code : string) (md : market_data) : Q :=
  current_price md.

Definition calculate_sell_price (stock_code : string) (md : market_data) : Q :=
  current_price md.

Definition Qnat (n : nat) : Q := inject_Z (Z.of_nat n).

(** ** Strategies ([strategies.py]) *)

Module MovingAverageCrossoverStrategy.

Record t := {
  short_period : nat;
  long_period : nat;
  price_history : list Q
}.

(** [__init__]. *)
Definition init (cfg : config) : t :=
  {| short_period := default 5%nat (cfg_short_period cfg);
     long_period := default 20%nat (cfg_long_period cfg);
     price_history := [] |}.

Definition set_price_history (h : list Q) (self : t) : t :=
  {| short_period := short_period self;
     long_period := long_period self;
     price_history := h |}.

(** The four averages computed by [should_buy] and [should_sell] from the
    stored history: (short_ma, long_ma, prev_short_ma, prev_long_ma). *)
Definition averages (self : t) : exc (Q * Q * Q * Q) :=
  let h := price_history self in
  let sp := short_period self in
  let lp := long_period self in
  let* short_ma := Py.div (Py.sum (Py.last_n sp h)) (Qnat sp) in
  let* long_ma := Py.div (Py.sum (Py.last_n lp h)) (Qnat lp) in
  let* prev_short_ma :=
    (if Nat.ltb sp (length h)
     then Py.div (Py.sum (Py.prev_n sp h)) (Qnat sp)
     else Ok short_ma) in
  let* prev_long_ma :=
    (if Nat.ltb lp (length h)
     then Py.div (Py.sum (Py.prev_n lp h)) (Qnat lp)
     else Ok long_ma) in
  Ok (short_ma, long_ma, prev_short_ma, prev_long_ma).

Definition should_buy (stock_code : string) (md : market_data) (self : t)
  : exc bool * t :=
  let cp := current_price md in
  if Py.leb cp 0 then (Ok false, self)
  else
    let self1 :=
      set_price_history
        (Py.append_bounded (long_period self) (price_history self) cp) self in
    if Nat.ltb (length (price_history self1)) (long_period self1)
    then (Ok false, self1)
    else
      (let* a := averages self1 in
       let '(short_ma, long_ma, prev_short_ma, prev_long_ma) := a in
       Ok (Py.ltb long_ma short_ma && Py.leb prev_short_ma prev_long_ma),
       self1).

Definition should_sell (stock_code : string) (md : market_data) (self : t)
  : exc bool * t :=
  let cp := current_price md in
  if Py.leb cp 0 then (Ok false, self)
  else if Nat.ltb (length (price_history self)) (long_period self)
  then (Ok false, self)
  else
    (let* a := averages self in
     let '(short_ma, long_ma, prev_short_ma, prev_long_ma) := a in
     Ok (Py.ltb short_ma long_ma && Py.leb prev_long_ma prev_short_ma),
     self).

End MovingAverageCrossoverStrategy.

Module RSIStrategy.

Record t := {
  period : nat;
  oversold : Q;
  overbought : Q;
  price_changes : list Q;
  _initialized_stocks : gset string;
  _price_history_by_stock : gmap string (list Q)
}.

Definition init (cfg : config) : t :=
  {| period := default 14%nat (cfg_rsi_period cfg);
     oversold := default 30 (cfg_oversold cfg);
     overbought := default 70 (cfg_overbought cfg);
     price_changes := [];
     _initialized_stocks := ∅;
     _price_history_by_stock := ∅ |}.

Definition set_history (stock_code : string) (h : list Q) (self : t) : t :=
  {| period := period self;
     oversold := oversold self;
     overbought := overbought self;
     price_changes := price_changes self;
     _initialized_stocks := _initialized_stocks self;
     _price_history_by_stock :=
       <[stock_code := h]> (_price_history_by_stock self) |}.

Definition mark_initialized (stock_code : string) (self : t) : t :=
  {| period := period self;
     oversold := oversold self;
     overbought := overbought self;
     price_changes := price_changes self;
     _initialized_stocks := {[stock_code]} ∪ _initialized_stocks self;
     _price_history_by_stock := _price_history_by_stock self |}.

(** [prices[i] - prices[i-1]] for [i] from 1. *)
Fixpoint changes (prices : list Q) : list Q :=
  match prices with
  | p0 :: rest =>
      match rest with
      | p1 :: _ => (p1 - p0) :: changes rest
      | [] => []
      end
  | [] => []
  end.

Definition gain (change : Q) : Q := if Py.ltb 0 change then change else 0.
Definition loss (change : Q) : Q :=
  if Py.ltb 0 change then 0 else Py.abs change.

Definition calculate_rsi (self : t) (prices : list Q) : exc Q :=
  if Nat.ltb (length prices) (period self + 1) then Ok 50
  else
    let gains := map gain (changes prices) in
    let losses := map loss (changes prices) in
    if Nat.ltb (length gains) (period self) then Ok 50
    else
      let* avg_gain :=
        Py.div (Py.sum (Py.last_n (period self) gains)) (Qnat (period self)) in
      let* avg_loss :=
        Py.div (Py.sum (Py.last_n (period self) losses)) (Qnat (period self)) in
      if Py.eqb avg_loss 0 then Ok 100
      else
        let* rs := Py.div avg_gain avg_loss in
        let* q := Py.div 100 (1 + rs) in
        Ok (100 - q).

(** [_initialize_price_history]; [chart] is what [get_daily_chart] gave:
    the closing prices of [output2], newest first, or the exception. *)
Definition _initialize_price_history (stock_code : string)
    (chart : exc (list Q)) (self : t) : t :=
  if decide (stock_code ∈ _initialized_stocks self) then self
  else
    match chart with
    | Raise _ => self
    | Ok closes =>
        let prices := List.filter (fun c => Py.ltb 0 c) (rev closes) in
        if Nat.leb (period self + 1) (length prices)
        then mark_initialized stock_code (set_history stock_code prices self)
        else self
    end.

Definition should_buy (stock_code : string) (md : market_data) (self : t)
  : exc bool * t :=
  let cp := current_price md in
  if Py.leb cp 0 then (Ok false, self)
  else
    let price_list :=
      Py.append_bounded (period self * 2)
        (default [] (_price_history_by_stock self !! stock_code)) cp in
    let self1 := set_history stock_code price_list self in
    if Nat.ltb (length price_list) (period self + 1) then (Ok false, self1)
    else
      (let* rsi := calculate_rsi self1 price_list in
       Ok (Py.ltb rsi (oversold self1)),
       self1).

Definition should_sell (stock_code : string) (md : market_data) (self : t)
  : exc bool * t :=
  let cp := current_price md in
  if Py.leb cp 0 then (Ok false, self)
  else
    let price_list :=
      default [] (_price_history_by_stock self !! stock_code) in
    let self1 := set_history stock_code price_list self in
    if Nat.ltb (length price_list) (period self + 1) then (Ok false, self1)
    else
      (let* rsi := calculate_rsi self1 price_list in
       Ok (Py.ltb (overbought self1) rsi),
       self1).

End RSIStrategy.

Module MomentumStrategy.

Record t := {
  period : nat;
  momentum_threshold : Q;
  price_history : list Q
}.

Definition init (cfg : config) : t :=
  {| period := default 10%nat (cfg_period cfg);
     momentum_threshold := default (5 # 100) (cfg_momentum_threshold cfg);
     price_history := [] |}.

Definition set_price_history (h : list Q) (self : t) : t :=
  {| period := period self;
     momentum_threshold := momentum_threshold self;
     price_history := h |}.

Definition calculate_momentum (self : t) (prices : list Q) : exc Q :=
  if Nat.ltb (length prices) (period self + 1) then Ok 0
  else
    let* current := Py.nth_from_end 1 prices in
    let* past_price := Py.nth_from_end (period self + 1) prices in
    if Py.eqb past_price 0 then Ok 0
    else Py.div (current - past_price) past_price.

Definition should_buy (stock_code : string) (md : market_data) (self : t)
  : exc bool * t :=
  let cp := current_price md in
  if Py.leb cp 0 then (Ok false, self)
  else
    let self1 :=
      set_price_history
        (Py.append_bounded (period self * 2) (price_history self) cp) self in
    let h := price_history self1 in
    if Nat.ltb (length h) (period self1 + 1) then (Ok false, self1)
    else
      (let* momentum := calculate_momentum self1 h in
       let volume := inject_Z (volume md) in
       let* avg_volume :=
         (match h with
          | [] => Ok 0
          | _ => Py.div (Py.sum h) (Qnat (length h))
          end) in
       Ok (Py.ltb (momentum_threshold self1) momentum
           && Py.ltb (avg_volume * (8 # 10)) volume),
       self1).

Definition should_sell (stock_code : string) (md : market_data) (self : t)
  : exc bool * t :=
  let cp := current_price md in
  if Py.leb cp 0 then (Ok false, self)
  else if Nat.ltb (length (price_history self)) (period self + 1)
  then (Ok false, self)
  else
    (let* momentum := calculate_momentum self (price_history self) in
     Ok (Py.ltb momentum (- momentum_threshold self)),
     self).

End MomentumStrategy.

Module MeanReversionStrategy.

Record t := {
  period : nat;
  deviation_threshold : Q;
  price_history : list Q
}.

Definition init (cfg : config) : t :=
  {| period := default 20%nat (cfg_period cfg);
     deviation_threshold := default (3 # 100) (cfg_deviation_threshold cfg);
     price_history := [] |}.

Definition set_price_history (h : list Q) (self : t) : t :=
  {| period := period self;
     deviation_threshold := deviation_threshold self;
     price_history := h |}.

Definition should_buy (stock_code : string) (md : market_data) (self : t)
  : exc bool * t :=
  let cp := current_price md in
  if Py.leb cp 0 then (Ok false, self)
  else
    let self1 :=
      set_price_history
        (Py.append_bounded (period self * 2) (price_history self) cp) self in
    let h := price_history self1 in
    if Nat.ltb (length h) (period self1) then (Ok false, self1)
    else
      (let* avg_price :=
         Py.div (Py.sum (Py.last_n (period self1) h)) (Qnat (period self1)) in
       let* deviation := Py.div (avg_price - cp) avg_price in
       Ok (Py.ltb (deviation_threshold self1) deviation),
       self1).

Definition should_sell (stock_code : string) (md : market_data) (self : t)
  : exc bool * t :=
  let cp := current_price md in
  if Py.leb cp 0 then (Ok false, self)
  else if Nat.ltb (length (price_history self)) (period self)
  then (Ok false, self)
  else
    (let h := price_history self in
     let* avg_price :=
       Py.div (Py.sum (Py.last_n (period self) h)) (Qnat (period self)) in
     let* deviation := Py.div (cp - avg_price) avg_price in
     Ok (Py.ltb (deviation_threshold self) deviation),
     self).

End MeanReversionStrategy.

(** ** Strategy engine ([strategy_engine.py]) *)

Module BaseStrategy.

(** The abstract methods of [BaseStrategy], over the state [S] a subclass
    adds.  [should_buy] and [should_sell] may update that state.
    [_initialize_price_history] is present only in classes that define it
    (the engine tests [hasattr]). *)
Record methods (S : Type) := {
  should_buy : string -> market_data -> S -> exc bool * S;
  should_sell : string -> market_data -> S -> exc bool * S;
  calculate_buy_quantity : config -> string -> Q -> Q -> S -> exc Z;
  calculate_buy_price : string -> market_data -> S -> exc Q;
  calculate_sell_price : string -> market_data -> S -> exc Q;
  validate_config : config -> S -> bool;
  _initialize_price_history : option (string -> exc (list Q) -> S -> S)
}.
Arguments should_buy {S} _ _ _ _.
Arguments should_sell {S} _ _ _ _.
Arguments calculate_buy_quantity {S} _ _ _ _ _ _.
Arguments calculate_buy_price {S} _ _ _ _.
Arguments calculate_sell_price {S} _ _ _ _.
Arguments validate_config {S} _ _ _.
Arguments _initialize_price_history {S} _.

(** A strategy object: the attributes [__init__] sets and the subclass. *)
Record t := {
  state : Type;
  class : methods state;
  self : state;
  name : string;
  config : config;
  is_active : bool
}.

Definition with_self (o : t) (s : state o) : t :=
  {| state := state o; class := class o; self := s;
     name := name o; config := config o; is_active := is_active o |}.

Definition with_name (n : string) (o : t) : t :=
  {| state := state o; class := class o; self := self o;
     name := n; config := config o; is_active := is_active o |}.

Definition with_is_active (b : bool) (o : t) : t :=
  {| state := state o; class := class o; self := self o;
     name := name o; config := config o; is_active := b |}.

(** A [try: ... except Exception: return None] block. *)
Definition try_none {A} (m : exc (option A)) : option A :=
  match m with
  | Ok r => r
  | Raise _ => None
  end.

Definition on_buy_signal (o : t) (stock_code : string) (md : market_data)
  : exc (option signal) * t :=
  let '(r, s1) := should_buy (class o) stock_code md (self o) in
  let o1 := with_self o s1 in
  match r with
  | Raise e => (Raise e, o1)
  | Ok false => (Ok None, o1)
  | Ok true =>
      (Ok (try_none
         (let cp := current_price md in
          if Py.leb cp 0 then Ok None
          else
            let available_balance :=
              default 0 (cfg_available_balance (config o1)) in
            let* quantity :=
              calculate_buy_quantity (class o1) (config o1) stock_code
                available_balance cp (self o1) in
            let* price :=
              calculate_buy_price (class o1) stock_code md (self o1) in
            if (quantity <=? 0)%Z then Ok None
            else
              Ok (Some {| sig_action := BUY;
                          sig_stock_code := stock_code;
                          sig_quantity := quantity;
                          sig_price := price;
                          sig_order_type :=
                            default "00"%string
                              (cfg_order_type (config o1)) |}))),
       o1)
  end.

Definition on_sell_signal (o : t) (stock_code : string) (md : market_data)
    (holding_quantity : Z) : exc (option signal) * t :=
  let '(r, s1) := should_sell (class o) stock_code md (self o) in
  let o1 := with_self o s1 in
  match r with
  | Raise e => (Raise e, o1)
  | Ok false => (Ok None, o1)
  | Ok true =>
      if (holding_quantity <=? 0)%Z then (Ok None, o1)
      else
        (Ok (try_none
           (let* price :=
              calculate_sell_price (class o1) stock_code md (self o1) in
            let quantity :=
              Z.min holding_quantity
                (default holding_quantity
                   (cfg_max_sell_quantity (config o1))) in
            Ok (Some {| sig_action := SELL;
                        sig_stock_code := stock_code;
                        sig_quantity := quantity;
                        sig_price := price;
                        sig_order_type :=
                          default "00"%string
                            (cfg_order_type (config o1)) |}))),
         o1)
  end.

End BaseStrategy.

(** What the brokerage answers during one cycle: the snapshot of
    [_get_market_data] ([None] when the call failed), the closing prices
    of [get_daily_chart], and for a ranking type the [mksc_shrn_iscd] of
    each item of the ranking's [output] (empty when there is none). *)
Record broker := {
  get_market_data : string -> option market_data;
  get_daily_chart : string -> exc (list Q);
  get_rank : string -> exc (list string)
}.

Module StrategyEngine.

Record t := {
  strategies : gmap string BaseStrategy.t;
  is_running : bool
}.

Definition init : t := {| strategies := ∅; is_running := false |}.

Definition set_strategies (m : gmap string BaseStrategy.t) (eng : t) : t :=
  {| strategies := m; is_running := is_running eng |}.

Definition register_strategy (strategy : BaseStrategy.t) (eng : t)
  : exc unit * t :=
  if negb (BaseStrategy.validate_config (BaseStrategy.class strategy)
             (BaseStrategy.config strategy) (BaseStrategy.self strategy))
  then (Raise (ValueError "invalid strategy config"), eng)
  else
    (Ok tt,
     set_strategies
       (<[BaseStrategy.name strategy := strategy]> (strategies eng)) eng).

Definition unregister_strategy (strategy_name : string) (eng : t) : t :=
  set_strategies (delete strategy_name (strategies eng)) eng.

Definition get_strategy (strategy_name : string) (eng : t)
  : option BaseStrategy.t :=
  strategies eng !! strategy_name.

(** The engine stores the object under the name it was looked up by. *)
Definition store (strategy_name : string) (o : BaseStrategy.t) (eng : t) : t :=
  set_strategies (<[strategy_name := o]> (strategies eng)) eng.

Definition execute_strategy (w : broker) (strategy_name stock_code : string)
    (eng : t) : option signal * t :=
  match get_strategy strategy_name eng with
  | None => (None, eng)
  | Some strategy =>
      if negb (BaseStrategy.is_active strategy) then (None, eng)
      else
        let o1 :=
          match BaseStrategy._initialize_price_history
                  (BaseStrategy.class strategy) with
          | Some f =>
              BaseStrategy.with_self strategy
                (f stock_code (get_daily_chart w stock_code)
                   (BaseStrategy.self strategy))
          | None => strategy
          end in
        match get_market_data w stock_code with
        | None => (None, store strategy_name o1 eng)
        | Some md =>
            let '(rb, o2) := BaseStrategy.on_buy_signal o1 stock_code md in
            match rb with
            | Raise _ => (None, store strategy_name o2 eng)
            | Ok (Some buy_signal) =>
                (Some buy_signal, store strategy_name o2 eng)
            | Ok None =>
                let '(rs, o3) :=
                  BaseStrategy.on_sell_signal o2 stock_code md 0 in
                match rs with
                | Raise _ => (None, store strategy_name o3 eng)
                | Ok sell_signal => (sell_signal, store strategy_name o3 eng)
                end
            end
        end
  end.

End StrategyEngine.

(** ** Scheduler ([scheduler.py]) *)

Module APScheduler.

Inductive trigger :=
| CronTrigger (hour minute : nat)
| IntervalTrigger (seconds : Z).

Record job := {
  id : string;
  job_trigger : trigger;
  max_instances : nat
}.

(** [AsyncIOScheduler]: its job store and whether it was started. *)
Record t := {
  jobs : list job;
  running : bool
}.

Definition new : t := {| jobs := []; running := false |}.

(** [timedelta(seconds=n)] holds fewer than 1 000 000 000 days in either
    direction and raises [OverflowError] beyond. *)
Definition timedelta_in_range (seconds : Z) : bool :=
  (-999999999 <=? seconds / 86400)%Z && (seconds / 86400 <=? 999999999)%Z.

(** [IntervalTrigger(seconds=n)].  The constructor builds
    [timedelta(seconds=n)] and the first run time, the current time plus
    that interval; each of the two raises [OverflowError] when it is out of
    range.  [in_range n] tells whether both are in range when the call is
    made; it is at most [timedelta_in_range n]. *)
Definition new_interval_trigger (in_range : Z -> bool) (seconds : Z)
  : exc trigger :=
  if in_range seconds then Ok (IntervalTrigger seconds)
  else Raise OverflowError.

(** [add_job(..., id=..., replace_existing=True, max_instances=...)]. *)
Definition add_job (j : job) (s : t) : t :=
  {| jobs :=
       List.filter (fun j' => negb (String.eqb (id j') (id j))) (jobs s)
       ++ [j];
     running := running s |}.

Definition start (s : t) : t := {| jobs := jobs s; running := true |}.

Definition shutdown (s : t) : t := {| jobs := []; running := false |}.

Definition reschedule_job (job_id : string) (tr : trigger) (s : t) : t :=
  {| jobs :=
       map (fun j => if String.eqb (id j) job_id
                     then {| id := id j; job_trigger := tr;
                             max_instances := max_instances j |}
                     else j) (jobs s);
     running := running s |}.

End APScheduler.

Inductive level := INFO | WARNING | ERROR.

(** A row of the [strategies] table, and its [auto_selection_config]. *)
Record auto_selection_config := {
  ranking_type : option string;
  limit : option nat
}.

Record Strategy := {
  row_name : string;
  strategy_type : string;
  row_is_active : bool;
  row_config : option config;
  stock_selection_mode : string;
  row_auto_selection_config : option auto_selection_config
}.

Module AutoTradingScheduler.

Record t := {
  scheduler : option APScheduler.t;
  is_running : bool;
  interval_seconds : Z;
  schedule_type : string
}.

(** [__init__]. *)
Definition init : t :=
  {| scheduler := None; is_running := false;
     interval_seconds := 60; schedule_type := "interval" |}.


Section Triggers.

(** Which intervals [IntervalTrigger] accepts when it is called. *)
Variable in_range : Z -> bool.

(** [CronTrigger(hour=9, minute=5, ...)] in the daily mode,
    [IntervalTrigger(seconds=interval_seconds)] in any other. *)
Definition new_trigger (interval : Z) (type : string)
  : exc APScheduler.trigger :=
  if String.eqb type "daily"
  then Ok (APScheduler.CronTrigger 9 5)
  else APScheduler.new_interval_trigger in_range interval.

(** [start]: the outcome of the call, the scheduler after it, and the
    levels of the log lines it wrote.  The interval, the mode and a new
    library scheduler are stored before the trigger is built. *)
Definition start (interval : Z) (type : string) (self : t)
  : exc unit * t * list level :=
  if is_running self then (Ok tt, self, [WARNING])
  else
    let self1 :=
      {| scheduler := Some APScheduler.new; is_running := is_running self;
         interval_seconds := interval; schedule_type := type |} in
    match new_trigger interval type with
    | Raise e => (Raise e, self1, [])
    | Ok trigger =>
        let sched :=
          APScheduler.start
            (APScheduler.add_job
               {| APScheduler.id := "auto_trading_job";
                  APScheduler.job_trigger := trigger;
                  APScheduler.max_instances := 1 |}
               APScheduler.new) in
        (Ok tt,
         {| scheduler := Some sched; is_running := true;
            interval_seconds := interval; schedule_type := type |},
         [INFO])
    end.

Definition stop (self : t) : exc unit * t * list level :=
  match scheduler self with
  | Some sched =>
      if is_running self
      then (Ok tt,
            {| scheduler := Some (APScheduler.shutdown sched);
               is_running := false;
               interval_seconds := interval_seconds self;
               schedule_type := schedule_type self |},
            [INFO])
      else (Ok tt, self, [WARNING])
  | None => (Ok tt, self, [WARNING])
  end.

(** [update_schedule]: the interval and the mode are stored before the
    trigger is built, the job is rescheduled after. *)
Definition update_schedule (interval : Z) (type : string) (self : t)
  : exc unit * t * list level :=
  match scheduler self with
  | Some sched =>
      if is_running self
      then
        let self1 :=
          {| scheduler := Some sched; is_running := is_running self;
             interval_seconds := interval; schedule_type := type |} in
        match new_trigger interval type with
        | Raise e => (Raise e, self1, [])
        | Ok trigger =>
            (Ok tt,
             {| scheduler :=
                  Some (APScheduler.reschedule_job "auto_trading_job"
                          trigger sched);
                is_running := is_running self;
                interval_seconds := interval;
                schedule_type := type |},
             [INFO])
        end
      else (Ok tt, self, [WARNING])
  | None => (Ok tt, self, [WARNING])
  end.

End Triggers.

(** What one pass of the cycle has so far: the [all_signals] list, the
    [place_order] calls made, in order, and the engine. *)
Record cycle := {
  all_signals : list signal;
  orders : list signal;
  engine : StrategyEngine.t
}.

Section Cycle.

(** [create_strategy] of [strategies.py], and the active watchlist codes. *)
Variable create_strategy : string -> config -> exc BaseStrategy.t.
Variable watchlist : list string.
Variable w : broker.

(** The parameters that [KISClient.get_volume_rank],
    [get_fluctuation_rank] and [get_market_cap_rank] declare
    ([kis_client.py]). *)
Definition rank_parameters (ranking_type : string) : list string :=
  if String.eqb ranking_type "market_cap"
  then ["market_code"%string]
  else ["market_code"%string; "sort_type"%string].

(** The keywords with which the cycle calls them. *)
Definition rank_keywords (ranking_type : string) : list string :=
  if String.eqb ranking_type "volume" then
    ["fid_cond_mrkt_div_code"; "fid_cond_scr_div_code"; "fid_input_iscd";
     "fid_div_cls_code"; "fid_blng_cls_code"; "fid_trgt_cls_code";
     "fid_trgt_exls_cls_code"; "fid_input_price_1"; "fid_input_price_2";
     "fid_vol_cnt"; "fid_input_date_1"]%string
  else if String.eqb ranking_type "fluctuation" then
    ["fid_cond_mrkt_div_code"; "fid_cond_scr_div_code"; "fid_input_iscd";
     "fid_rank_sort_cls_code"; "fid_input_cnt_1"; "fid_prc_cls_code";
     "fid_input_price_1"; "fid_input_price_2"; "fid_vol_cnt";
     "fid_trgt_cls_code"; "fid_trgt_exls_cls_code"; "fid_div_cls_code";
     "fid_rsfl_rate1"; "fid_rsfl_rate2"]%string
  else
    ["fid_cond_mrkt_div_code"; "fid_cond_scr_div_code"; "fid_input_iscd";
     "fid_div_cls_code"; "fid_trgt_cls_code"; "fid_trgt_exls_cls_code";
     "fid_input_price_1"; "fid_input_price_2"; "fid_vol_cnt"]%string.

(** The ranking call of the cycle: the keywords are bound to the
    parameters of the client method, then the ranking is fetched. *)
Definition rank_call (ranking_type : string) : exc (list string) :=
  let* _ := Py.call_with_keywords (rank_parameters ranking_type)
              (rank_keywords ranking_type) in
  get_rank w ranking_type.

(** The stock codes of a strategy row; [None] is a [continue]. *)
Definition select_stock_codes (strategy : Strategy) : option (list string) :=
  let mode := stock_selection_mode strategy in
  if String.eqb mode "watchlist" then Some watchlist
  else if String.eqb mode "auto" || String.eqb mode "ranking" then
    let auto_config := row_auto_selection_config strategy in
    let rtype :=
      default "volume"%string (auto_config ≫= ranking_type) in
    let lim := default 10%nat (auto_config ≫= limit) in
    if String.eqb rtype "volume" || String.eqb rtype "fluctuation"
       || String.eqb rtype "market_cap"
    then
      match rank_call rtype with
      | Raise _ => None
      | Ok [] => None
      | Ok output =>
          Some (List.filter (fun code => negb (String.eqb code ""))
                  (take lim output))
      end
    else None
  else Some [].

(** The engine with the strategy registered; [None] is a [continue]. *)
Definition ensure_registered (strategy : Strategy) (eng : StrategyEngine.t)
  : option StrategyEngine.t :=
  match StrategyEngine.get_strategy (row_name strategy) eng with
  | Some _ => Some eng
  | None =>
      match create_strategy (strategy_type strategy)
              (default empty_config (row_config strategy)) with
      | Raise _ => None
      | Ok strategy_instance =>
          let inst :=
            BaseStrategy.with_is_active true
              (BaseStrategy.with_name (row_name strategy) strategy_instance) in
          match StrategyEngine.register_strategy inst eng with
          | (Ok _, eng1) => Some eng1
          | (Raise _, _) => None
          end
      end
  end.

(** [for stock_code in stock_codes: ... all_signals.append(signal)]. *)
Fixpoint run_strategy (strategy_name : string) (stock_codes : list string)
    (c : cycle) : cycle :=
  match stock_codes with
  | [] => c
  | stock_code :: rest =>
      let '(sg, eng1) :=
        StrategyEngine.execute_strategy w strategy_name stock_code
          (engine c) in
      run_strategy strategy_name rest
        {| all_signals :=
             match sg with
             | Some s => all_signals c ++ [s]
             | None => all_signals c
             end;
           orders := orders c;
           engine := eng1 |}
  end.

(** [for signal in all_signals: ... place_order(...)]; a failed order is
    logged and the loop goes on. *)
Definition submit_orders (c : cycle) : cycle :=
  {| all_signals := all_signals c;
     orders := orders c ++ all_signals c;
     engine := engine c |}.

(** The body of [for strategy in active_strategies]. *)
Definition strategy_step (c : cycle) (strategy : Strategy) : cycle :=
  match select_stock_codes strategy with
  | None => c
  | Some [] => c
  | Some stock_codes =>
      match ensure_registered strategy (engine c) with
      | None => c
      | Some eng1 =>
          submit_orders
            (run_strategy (row_name strategy) stock_codes
               {| all_signals := all_signals c;
                  orders := orders c;
                  engine := eng1 |})
      end
  end.

(** [_execute_auto_trading]; [market_status] is [is_market_open(now)] and
    [rows] the table of strategies. *)
Definition _execute_auto_trading (market_status : bool)
    (rows : list Strategy) (eng : StrategyEngine.t) : cycle :=
  let start := {| all_signals := []; orders := []; engine := eng |} in
  if negb market_status then start
  else
    let active_strategies := List.filter row_is_active rows in
    fold_left strategy_step active_strategies start.

End Cycle.

End AutoTradingScheduler.

(** ** Brokerage client ([kis_client.py]) *)

Module KISClient.

(** The messages of the [ValueError]s raised on token issuance. *)
Definition msg_no_keys : string :=
  "KIS API 키가 설정되지 않았습니다. .env 파일에서 KIS_APP_KEY와 KIS_APP_SECRET을 확인해주세요.".
Definition msg_rate_limit_no_token : string :=
  "토큰 발급 요청 제한. 기존 토큰이 없어 1분 후 다시 시도하세요.".
Definition msg_rate_limit_no_token' : string :=
  "토큰 발급 요청 제한 (1분당 1회). 기존 토큰이 없어 1분 후 다시 시도하세요.".
Definition msg_auth_failed : string :=
  "API 키 인증 실패. KIS 디벨로퍼스에서 API 키 상태를 확인하세요.".
Definition msg_no_access_token : string :=
  "토큰 발급 응답에 access_token이 없습니다.".
(** [response.json()] on a body that is not JSON raises
    [json.JSONDecodeError], a [ValueError]. *)
Definition msg_json_decode : string := "JSONDecodeError".

(** The token file of the day when it exists and has a [token] entry. *)
Record token_record := {
  token : string;
  valid : valid_date
}.

Record t := {
  app_key : string;
  app_secret : string;
  access_token : option string;
  token_expires_at : option Z
}.

Definition set_token (tok : option string) (exp : option Z) (self : t) : t :=
  {| app_key := app_key self; app_secret := app_secret self;
     access_token := tok; token_expires_at := exp |}.

Definition _save_token_to_file (tok : string) (expires_at : Z)
  : option token_record :=
  Some {| token := tok; valid := Date expires_at |}.

Definition _load_token_from_file (now : Z) (disk : option token_record)
    (self : t) : option string * t :=
  match disk with
  | None => (None, self)
  | Some rec =>
      match valid rec with
      | NoDate => (Some (token rec), self)
      | BadDate => (None, self)
      | Date d =>
          if (now <? d)%Z
          then (Some (token rec), set_token (Some (token rec)) (Some d) self)
          else (None, self)
      end
  end.

Definition is_token_valid (now : Z) (self : t) : bool :=
  if negb (Py.truthy (access_token self)) then false
  else match token_expires_at self with
       | None => false
       | Some e => (now <? e)%Z
       end.

(** A JSON body that is not an object: a number, [true], [false] or
    [null] ([Scalar]), or a string or an array ([Sequence has_rt_cd], where
    [has_rt_cd] is the value of ["rt_cd" in body]). *)
Inductive non_object :=
| Scalar
| Sequence (has_rt_cd : bool).

(** What an HTTP call gives: an exception of the transport, or a response
    with its status and its body.  In [Response] the body is a JSON object
    ([Some]) or is not JSON at all ([None], [response.json()] raises); in
    [ResponseOther] it is JSON but not an object, so that [body.get]
    raises [AttributeError]. *)
Inductive http_outcome :=
| TransportFailure (e : exn)
| Response (status : nat) (body : option json_body)
| ResponseOther (status : nat) (body : non_object).

Definition status_of (o : http_outcome) : option nat :=
  match o with
  | TransportFailure _ => None
  | Response status _ => Some status
  | ResponseOther status _ => Some status
  end.

Definition is_rate_limit (b : json_body) : bool :=
  Py.contains "EGW00133" (error_code b)
  || Py.contains "1분당 1회" (error_description b).

(** [response.raise_for_status()] lets the 2xx codes through. *)
Definition is_success (status : nat) : bool :=
  Nat.leb 200 status && Nat.ltb status 300.

(** What a call leaves behind: its result, the client, the token file, and
    the number of requests it sent to the issuance endpoint. *)
Record outcome (A : Type) := {
  result : exc A;
  client : t;
  file : option token_record;
  issuance_requests : nat
}.
Arguments result {A} _.
Arguments client {A} _.
Arguments file {A} _.
Arguments issuance_requests {A} _.

(** [get_access_token], under the class lock.  [resp] answers the POST to
    the issuance endpoint when one is sent.  A 403 answer is inspected
    twice: before [raise_for_status] ([after_403], which returns or raises
    on the rate-limit code) and again in the handler of
    [httpx.HTTPStatusError]. *)
Definition get_access_token (now : Z) (resp : http_outcome)
    (disk : option token_record) (self : t) : outcome string :=
  let '(saved_token, self1) := _load_token_from_file now disk self in
  if Py.truthy saved_token && is_token_valid now self1
  then {| result := Ok (default ""%string saved_token); client := self1;
          file := disk; issuance_requests := 0 |}
  else if String.eqb (app_key self1) "" || String.eqb (app_secret self1) ""
  then {| result := Raise (ValueError msg_no_keys); client := self1;
          file := disk; issuance_requests := 0 |}
  else
    let out r c f :=
      {| result := r; client := c; file := f; issuance_requests := 1 |} in
    match resp with
    | TransportFailure e => out (Raise e) self1 disk
    | Response status body =>
        let after_403 : option (outcome string) :=
          if Nat.eqb status 403 then
            match body with
            | Some b =>
                if is_rate_limit b then
                  let '(saved, self2) :=
                    _load_token_from_file now disk self1 in
                  if Py.truthy saved
                  then Some (out (Ok (default ""%string saved))
                               (set_token saved (token_expires_at self2) self2)
                               disk)
                  else if Py.truthy (access_token self2)
                  then Some (out (Ok (default ""%string (access_token self2)))
                               self2 disk)
                  else Some (out (Raise (ValueError msg_rate_limit_no_token))
                               self2 disk)
                else None
            | None => Some (out (Raise (ValueError msg_json_decode)) self1 disk)
            end
          else None in
        match after_403 with
        | Some o => o
        | None =>
            if negb (is_success status) then
              if Nat.eqb status 403 then
                match body with
                | Some b =>
                    if is_rate_limit b then
                      if Py.truthy (access_token self1)
                      then out (Ok (default ""%string (access_token self1)))
                             self1 disk
                      else out (Raise (ValueError msg_rate_limit_no_token'))
                             self1 disk
                    else out (Raise (ValueError msg_auth_failed)) self1 disk
                | None => out (Raise (ValueError msg_json_decode)) self1 disk
                end
              else
                out (Raise (HTTPStatusError status body)) self1 disk
            else
              match body with
              | None => out (Raise (ValueError msg_json_decode)) self1 disk
              | Some b =>
                  let self2 :=
                    set_token (body_access_token b) (token_expires_at self1)
                      self1 in
                  if negb (Py.truthy (body_access_token b))
                  then out (Raise (ValueError msg_no_access_token)) self2 disk
                  else
                    let tok := default ""%string (body_access_token b) in
                    let expires_at :=
                      (now + default 86400 (expires_in b))%Z in
                    let self3 :=
                      set_token (Some tok) (Some expires_at) self2 in
                    let saved_until :=
                      match access_token_token_expired b with
                      | Date d => d
                      | _ => expires_at
                      end in
                    out (Ok tok) self3 (_save_token_to_file tok saved_until)
              end
        end
    | ResponseOther status _ =>
        (* [error_json.get] and [result.get] raise [AttributeError]; on a
           403 both inspections swallow it *)
        if Nat.eqb status 403
        then out (Raise (ValueError msg_auth_failed)) self1 disk
        else if negb (is_success status)
        then out (Raise (HTTPStatusError status None)) self1 disk
        else out (Raise AttributeError) self1 disk
    end.

(** [refresh_token]. *)
Definition refresh_token := get_access_token.

(** The test [ensure_token] makes on the message of a [ValueError]. *)
Definition is_rate_limit_message (msg : string) : bool :=
  Py.contains "1분당 1회" msg || Py.contains "요청 제한" msg.

(** [ensure_token]; [resp] answers the issuance if it comes to one. *)
Definition ensure_token (now : Z) (resp : http_outcome)
    (disk : option token_record) (self : t) : outcome (option string) :=
  if is_token_valid now self && Py.truthy (access_token self)
  then {| result := Ok (access_token self); client := self; file := disk;
          issuance_requests := 0 |}
  else
    let '(saved_token, self1) := _load_token_from_file now disk self in
    if Py.truthy saved_token && is_token_valid now self1
    then {| result := Ok saved_token; client := self1; file := disk;
            issuance_requests := 0 |}
    else if Py.truthy (access_token self1)
    then {| result := Ok (access_token self1); client := self1; file := disk;
            issuance_requests := 0 |}
    else
      let o := refresh_token now resp disk self1 in
      match result o with
      | Ok _ =>
          {| result := Ok (access_token (client o)); client := client o;
             file := file o; issuance_requests := issuance_requests o |}
      | Raise (ValueError msg) =>
          if is_rate_limit_message msg then
            let '(saved, self2) :=
              _load_token_from_file now (file o) (client o) in
            if Py.truthy saved
            then {| result := Ok saved;
                    client := set_token saved (token_expires_at self2) self2;
                    file := file o;
                    issuance_requests := issuance_requests o |}
            else if Py.truthy (access_token self2)
            then {| result := Ok (access_token self2); client := self2;
                    file := file o;
                    issuance_requests := issuance_requests o |}
            else {| result := Raise (ValueError msg); client := self2;
                    file := file o;
                    issuance_requests := issuance_requests o |}
          else {| result := Raise (ValueError msg); client := client o;
                  file := file o; issuance_requests := issuance_requests o |}
      | Raise e =>
          {| result := Raise e; client := client o; file := file o;
             issuance_requests := issuance_requests o |}
      end.

(** What [_request] returns: the JSON object of the answer, or a JSON
    value that is not an object. *)
Inductive payload :=
| Dict (r : json_body)
| NonDict.

(** The data a call returns: the brokerage's answer, a JSON object or
    not, or synthetic data. *)
Inductive data :=
| Real (r : json_body)
| RealOther
| Mock.

Definition kis_error_message (r : json_body) : string :=
  ("KIS API 오류: " ++ default "알 수 없는 오류" (msg1 r)
   ++ " (코드: " ++ msg_cd r ++ ")")%string.

(** One pass through the [try] of [_request], up to the retry. *)
Definition _request_attempt (o : http_outcome) : exc payload :=
  match o with
  | TransportFailure HttpxConnectError => Raise ConnectionError
  | TransportFailure HttpxTimeoutException => Raise TimeoutError
  | TransportFailure e => Raise e
  | Response status body =>
      if negb (is_success status) then Raise (HTTPStatusError status body)
      else
        match body with
        | None => Raise (ValueError msg_json_decode)
        | Some r =>
            match rt_cd r with
            | Some rt =>
                if negb (String.eqb rt "0")
                then Raise (Exception (kis_error_message r))
                else Ok (Dict r)
            | None => Ok (Dict r)
            end
        end
  | ResponseOther status body =>
      if negb (is_success status) then Raise (HTTPStatusError status None)
      else
        match body with
        | Scalar => Raise TypeError
        | Sequence true => Raise AttributeError
        | Sequence false => Ok NonDict
        end
  end.

(** [_request(..., retry)]: [first] answers the call, and after a 401
    [token_resp] answers the issuance and [second] the resubmitted call. *)
Definition _request (retry : bool) (now : Z)
    (first token_resp second : http_outcome)
    (disk : option token_record) (self : t) : outcome payload :=
  let plain o :=
    {| result := _request_attempt o; client := self; file := disk;
       issuance_requests := 0 |} in
  match status_of first with
  | Some status =>
      if negb (is_success status) && retry && Nat.eqb status 401 then
        let o := refresh_token now token_resp disk self in
        match result o with
        | Raise e =>
            {| result := Raise e; client := client o; file := file o;
               issuance_requests := issuance_requests o |}
        | Ok _ =>
            {| result := _request_attempt second; client := client o;
               file := file o; issuance_requests := issuance_requests o |}
        end
      else plain first
  | None => plain first
  end.

(** The [try] body shared by the data calls: [ensure_token], then
    [_request]. *)
Definition attempt (now : Z) (token_resp1 first token_resp2 second : http_outcome)
    (disk : option token_record) (self : t) : outcome payload :=
  let o1 := ensure_token now token_resp1 disk self in
  match result o1 with
  | Raise e =>
      {| result := Raise e; client := client o1; file := file o1;
         issuance_requests := issuance_requests o1 |}
  | Ok _ =>
      let o2 := _request true now first token_resp2 second
                  (file o1) (client o1) in
      {| result := result o2; client := client o2; file := file o2;
         issuance_requests := (issuance_requests o1 + issuance_requests o2)%nat |}
  end.

(** [get_account_balance] after [_request]: the result is read with
    [result.get] for the log, then returned; and its [except] clauses. *)
Definition account_balance_handlers (USE_MOCK_DATA : bool)
    (r : exc payload) : exc data :=
  match r with
  | Ok (Dict res) => Ok (Real res)
  | Ok NonDict => Raise AttributeError
  | Raise (HTTPStatusError status body) =>
      if Nat.eqb status 500 then
        match body with
        | Some error_response =>
            if USE_MOCK_DATA then Ok Mock
            else Raise (HTTPStatusError status body)
        | None => Raise (HTTPStatusError status body)
        end
      else Raise (HTTPStatusError status body)
  | Raise ConnectionError =>
      if USE_MOCK_DATA then Ok Mock else Raise ConnectionError
  | Raise TimeoutError =>
      if USE_MOCK_DATA then Ok Mock else Raise TimeoutError
  | Raise e => Raise e
  end.

Definition returned (p : payload) : data :=
  match p with
  | Dict res => Real res
  | NonDict => RealOther
  end.

(** The [except (ConnectionError, TimeoutError)] clause of
    [get_orderbook], [search_stock_info], [get_daily_chart],
    [get_price_trend] and the three ranking calls. *)
Definition connectivity_handler (USE_MOCK_DATA : bool)
    (r : exc payload) : exc data :=
  match r with
  | Ok p => Ok (returned p)
  | Raise ConnectionError =>
      if USE_MOCK_DATA then Ok Mock else Raise ConnectionError
  | Raise TimeoutError =>
      if USE_MOCK_DATA then Ok Mock else Raise TimeoutError
  | Raise e => Raise e
  end.

(** [get_current_price], [place_order], [cancel_order] and
    [get_order_history] have no [except] clause. *)
Definition no_handler (r : exc payload) : exc data :=
  match r with
  | Ok p => Ok (returned p)
  | Raise e => Raise e
  end.

Definition get_account_balance (USE_MOCK_DATA : bool) (now : Z)
    (token_resp1 first token_resp2 second : http_outcome)
    (disk : option token_record) (self : t) : exc data :=
  account_balance_handlers USE_MOCK_DATA
    (result (attempt now token_resp1 first token_resp2 second disk self)).

Definition get_orderbook (USE_MOCK_DATA : bool) (now : Z)
    (token_resp1 first token_resp2 second : http_outcome)
    (disk : option token_record) (self : t) : exc data :=
  connectivity_handler USE_MOCK_DATA
    (result (attempt now token_resp1 first token_resp2 second disk self)).

Definition get_current_price (now : Z)
    (token_resp1 first token_resp2 second : http_outcome)
    (disk : option token_record) (self : t) : exc data :=
  no_handler
    (result (attempt now token_resp1 first token_resp2 second disk self)).

End KISClient.

(** ** The strategy classes as engine objects *)

Definition MovingAverageCrossover_class
  : BaseStrategy.methods MovingAverageCrossoverStrategy.t :=
  {| BaseStrategy.should_buy := MovingAverageCrossoverStrategy.should_buy;
     BaseStrategy.should_sell := MovingAverageCrossoverStrategy.should_sell;
     BaseStrategy.calculate_buy_quantity := fun cfg code bal price _ =>
       calculate_buy_quantity MovingAverageCrossover cfg code bal price;
     BaseStrategy.calculate_buy_price := fun code md _ =>
       Ok (calculate_buy_price code md);
     BaseStrategy.calculate_sell_price := fun code md _ =>
       Ok (calculate_sell_price code md);
     BaseStrategy.validate_config := fun _ _ => true;
     BaseStrategy._initialize_price_history := None |}.

Definition RSI_class : BaseStrategy.methods RSIStrategy.t :=
  {| BaseStrategy.should_buy := RSIStrategy.should_buy;
     BaseStrategy.should_sell := RSIStrategy.should_sell;
     BaseStrategy.calculate_buy_quantity := fun cfg code bal price _ =>
       calculate_buy_quantity RSI cfg code bal price;
     BaseStrategy.calculate_buy_price := fun code md _ =>
       Ok (calculate_buy_price code md);
     BaseStrategy.calculate_sell_price := fun code md _ =>
       Ok (calculate_sell_price code md);
     BaseStrategy.validate_config := fun _ _ => true;
     BaseStrategy._initialize_price_history :=
       Some RSIStrategy._initialize_price_history |}.

Definition Momentum_class : BaseStrategy.methods MomentumStrategy.t :=
  {| BaseStrategy.should_buy := MomentumStrategy.should_buy;
     BaseStrategy.should_sell := MomentumStrategy.should_sell;
     BaseStrategy.calculate_buy_quantity := fun cfg code bal price _ =>
       calculate_buy_quantity Momentum cfg code bal price;
     BaseStrategy.calculate_buy_price := fun code md _ =>
       Ok (calculate_buy_price code md);
     BaseStrategy.calculate_sell_price := fun code md _ =>
       Ok (calculate_sell_price code md);
     BaseStrategy.validate_config := fun _ _ => true;
     BaseStrategy._initialize_price_history := None |}.

Definition MeanReversion_class
  : BaseStrategy.methods MeanReversionStrategy.t :=
  {| BaseStrategy.should_buy := MeanReversionStrategy.should_buy;
     BaseStrategy.should_sell := MeanReversionStrategy.should_sell;
     BaseStrategy.calculate_buy_quantity := fun cfg code bal price _ =>
       calculate_buy_quantity MeanReversion cfg code bal price;
     BaseStrategy.calculate_buy_price := fun code md _ =>
       Ok (calculate_buy_price code md);
     BaseStrategy.calculate_sell_price := fun code md _ =>
       Ok (calculate_sell_price code md);
     BaseStrategy.validate_config := fun _ _ => true;
     BaseStrategy._initialize_price_history := None |}.

(** [MeanReversionStrategy(config)] as [create_strategy] builds it. *)
Definition new_MeanReversionStrategy (cfg : config) : BaseStrategy.t :=
  {| BaseStrategy.state := MeanReversionStrategy.t;
     BaseStrategy.class := MeanReversion_class;
     BaseStrategy.self := MeanReversionStrategy.init cfg;
     BaseStrategy.name := "평균회귀 전략";
     BaseStrategy.config := cfg;
     BaseStrategy.is_active := false |}.

(** ** MACD strategy ([strategies.py]) *)

Module MACDStrategy.

Record t := {
  fast_period : nat;
  slow_period : nat;
  signal_period : nat;
  price_history : list Q;
  macd_history : list Q;
  signal_history : list Q
}.

(** [__init__], from [config.get] at [fast_period], [slow_period] and
    [signal_period]. *)
Definition init (cfg : option nat * option nat * option nat) : t :=
  let '(fast, slow, sig) := cfg in
  {| fast_period := default 12%nat fast;
     slow_period := default 26%nat slow;
     signal_period := default 9%nat sig;
     price_history := []; macd_history := []; signal_history := [] |}.

Definition set_price_history (h : list Q) (self : t) : t :=
  {| fast_period := fast_period self; slow_period := slow_period self;
     signal_period := signal_period self; price_history := h;
     macd_history := macd_history self;
     signal_history := signal_history self |}.

Definition set_macd_history (h : list Q) (self : t) : t :=
  {| fast_period := fast_period self; slow_period := slow_period self;
     signal_period := signal_period self;
     price_history := price_history self; macd_history := h;
     signal_history := signal_history self |}.

Definition set_signal_history (h : list Q) (self : t) : t :=
  {| fast_period := fast_period self; slow_period := slow_period self;
     signal_period := signal_period self;
     price_history := price_history self;
     macd_history := macd_history self; signal_history := h |}.

(** The loop [for price in ...: ema = price * multiplier + ema * (1 -
    multiplier)]. *)
Definition ema_loop (multiplier : Q) (ema : Q) (prices : list Q) : Q :=
  fold_left (fun ema price => price * multiplier + ema * (1 - multiplier))
    prices ema.

Definition calculate_ema (prices : list Q) (period : nat) : exc Q :=
  if Nat.ltb (length prices) period then
    match prices with
    | [] => Ok 0
    | _ => Py.div (Py.sum prices) (Qnat (length prices))
    end
  else
    let* multiplier := Py.div 2 (Qnat (period + 1)) in
    let* ema := Py.div (Py.sum (Py.first_n period prices)) (Qnat period) in
    Ok (ema_loop multiplier ema (Py.from_n period prices)).

(** [calculate_macd]: the pair (macd, signal), either of which may be
    [None]; the MACD value is appended to [macd_history]. *)
Definition calculate_macd (prices : list Q) (self : t)
  : exc (option Q * option Q) * t :=
  if Nat.ltb (length prices) (slow_period self) then (Ok (None, None), self)
  else
    match calculate_ema prices (fast_period self) with
    | Raise e => (Raise e, self)
    | Ok fast_ema =>
        match calculate_ema prices (slow_period self) with
        | Raise e => (Raise e, self)
        | Ok slow_ema =>
            let macd := fast_ema - slow_ema in
            let self1 :=
              set_macd_history
                (Py.append_bounded (signal_period self * 2)
                   (macd_history self) macd) self in
            if Nat.ltb (length (macd_history self1)) (signal_period self1)
            then (Ok (Some macd, None), self1)
            else
              (let* signal :=
                 calculate_ema (macd_history self1) (signal_period self1) in
               Ok (Some macd, Some signal),
               self1)
        end
    end.

Definition should_buy (stock_code : string) (md : market_data) (self : t)
  : exc bool * t :=
  let cp := current_price md in
  if Py.leb cp 0 then (Ok false, self)
  else
    let self1 :=
      set_price_history
        (Py.append_bounded (slow_period self * 2) (price_history self) cp)
        self in
    if Nat.ltb (length (price_history self1)) (slow_period self1)
    then (Ok false, self1)
    else
      let '(r, self2) := calculate_macd (price_history self1) self1 in
      match r with
      | Raise e => (Raise e, self2)
      | Ok (Some macd, Some signal) =>
          if Nat.ltb (length (macd_history self2)) 2 then (Ok false, self2)
          else
            match Py.nth_from_end 2 (macd_history self2) with
            | Raise e => (Raise e, self2)
            | Ok prev_macd =>
                let prev_signal :=
                  match signal_history self2 with
                  | [] => signal
                  | _ => List.last (signal_history self2) signal
                  end in
                let self3 :=
                  set_signal_history
                    (Py.append_bounded (signal_period self2 * 2)
                       (signal_history self2) signal) self2 in
                (Ok (Py.ltb signal macd && Py.leb prev_macd prev_signal),
                 self3)
            end
      | Ok _ => (Ok false, self2)
      end.

Definition should_sell (stock_code : string) (md : market_data) (self : t)
  : exc bool * t :=
  let cp := current_price md in
  if Py.leb cp 0 then (Ok false, self)
  else if Nat.ltb (length (price_history self)) (slow_period self)
  then (Ok false, self)
  else
    let '(r, self2) := calculate_macd (price_history self) self in
    match r with
    | Raise e => (Raise e, self2)
    | Ok (Some macd, Some signal) =>
        if Nat.ltb (length (macd_history self2)) 2 then (Ok false, self2)
        else
          match Py.nth_from_end 2 (macd_history self2) with
          | Raise e => (Raise e, self2)
          | Ok prev_macd =>
              let prev_signal :=
                match signal_history self2 with
                | [] => signal
                | _ => List.last (signal_history self2) signal
                end in
              (Ok (Py.ltb macd signal && Py.leb prev_signal prev_macd),
               self2)
          end
    | Ok _ => (Ok false, self2)
    end.

End MACDStrategy.

(** ** Universe selection ([StrategyEngine.get_auto_selected_stocks]) *)

Module Universe.








End Universe.

(** ** Scheduler commands *)

Inductive command :=
| Start (interval : Z) (type : string)
| Stop
| Update (interval : Z) (type : string).

(** A call of the API layer on the scheduler object; a raised exception
    goes to the caller, the object stays as the call left it. *)
Definition run_command (in_range : Z -> bool) (self : AutoTradingScheduler.t)
    (c : command) : AutoTradingScheduler.t :=
  match c with
  | Start interval type =>
      snd (fst (AutoTradingScheduler.start in_range interval type self))
  | Stop => snd (fst (AutoTradingScheduler.stop self))
  | Update interval type =>
      snd (fst (AutoTradingScheduler.update_schedule in_range interval type
                  self))
  end.

Definition run_commands (in_range : Z -> bool) (cs : list command)
    (self : AutoTradingScheduler.t) : AutoTradingScheduler.t :=
  fold_left (run_command in_range) cs self.

(** [get_status] without the market part: what it reports of the
    schedule. *)
Definition get_status (self : AutoTradingScheduler.t)
  : bool * option Z * option string :=
  (AutoTradingScheduler.is_running self,
   if AutoTradingScheduler.is_running self
   then Some (AutoTradingScheduler.interval_seconds self) else None,
   if AutoTradingScheduler.is_running self
   then Some (AutoTradingScheduler.schedule_type self) else None).

(** ** Account number ([KISClient._parse_account_no]) *)

Module Account.

(** Strings are byte strings; on ASCII text their length and slices are
    Python's. *)

(** [s[:n]] and [s[n:]]. *)
Fixpoint str_take (n : nat) (s : string) : string :=
  match n, s with
  | S n', String c rest => String c (str_take n' rest)
  | _, _ => EmptyString
  end.

Fixpoint str_drop (n : nat) (s : string) : string :=
  match n, s with
  | S n', String _ rest => str_drop n' rest
  | _, _ => s
  end.

(** The ASCII characters [str.strip()] removes. *)
Definition is_space (c : ascii) : bool :=
  let n := nat_of_ascii c in
  Nat.eqb n 32 || (Nat.leb 9 n && Nat.leb n 13)
  || (Nat.leb 28 n && Nat.leb n 31).

Fixpoint lstrip (s : string) : string :=
  match s with
  | String c rest => if is_space c then lstrip rest else s
  | EmptyString => EmptyString
  end.

Fixpoint rstrip (s : string) : string :=
  match s with
  | String c rest =>
      match rstrip rest with
      | EmptyString => if is_space c then EmptyString else String c EmptyString
      | rest' => String c rest'
      end
  | EmptyString => EmptyString
  end.

Definition strip (s : string) : string := rstrip (lstrip s).

Fixpoint zeros (n : nat) : string :=
  match n with
  | O => EmptyString
  | S n' => String "0" (zeros n')
  end.

(** [s.zfill(width)]: zeros go after a leading sign. *)
Definition zfill (width : nat) (s : string) : string :=
  if Nat.leb width (String.length s) then s
  else
    let pad := zeros (width - String.length s) in
    match s with
    | String c rest =>
        if Ascii.eqb c "+" || Ascii.eqb c "-"
        then String c (pad ++ rest)
        else (pad ++ s)
    | EmptyString => pad
    end%string.

Definition _parse_account_no (account_no account_product_cd : string)
  : string * string :=
  let account_no := strip account_no in
  let n := String.length account_no in
  if Nat.eqb n 10 then (str_take 8 account_no, str_drop 8 account_no)
  else if Nat.ltb n 10 then
    (str_take 8 (zfill 8 account_no), str_take 2 (zfill 2 account_product_cd))
  else (str_take 8 account_no, str_take 2 (str_drop 8 account_no)).

End Account.

(** ** Market hours ([utils/market_time.py]) *)

Module MarketTime.

(** A wall-clock time of day and a date-time in the exchange's zone: the
    proleptic ordinal of the date and the time. *)
Record time := {
  hour : nat;
  minute : nat;
  second : nat;
  microsecond : nat
}.

Record datetime := {
  ordinal : Z;
  clock : time
}.

(** [date.weekday()]: Monday is 0; ordinal 1 is a Monday. *)
Definition weekday (d : Z) : Z := ((d + 6) mod 7)%Z.

(** [a <= b] on times: lexicographic. *)
Definition time_leb (a b : time) : bool :=
  if Nat.ltb (hour a) (hour b) then true
  else if Nat.ltb (hour b) (hour a) then false
  else if Nat.ltb (minute a) (minute b) then true
  else if Nat.ltb (minute b) (minute a) then false
  else if Nat.ltb (second a) (second b) then true
  else if Nat.ltb (second b) (second a) then false
  else Nat.leb (microsecond a) (microsecond b).

Definition at_time (h m : nat) : time :=
  {| hour := h; minute := m; second := 0; microsecond := 0 |}.

Definition is_market_open (current_time : datetime) : bool :=
  if (5 <=? weekday (ordinal current_time))%Z then false
  else time_leb (at_time 9 0) (clock current_time)
       && time_leb (clock current_time) (at_time 15 30).

(** [while next_open.weekday() >= 5: next_open += timedelta(days=1)], with
    the number of turns left. *)
Fixpoint skip_weekend (turns : nat) (d : Z) : Z :=
  match turns with
  | O => d
  | S turns' =>
      if (5 <=? weekday d)%Z then skip_weekend turns' (d + 1)%Z else d
  end.

Definition get_next_market_open_time (current_time : datetime) : datetime :=
  let next_day :=
    if time_leb (at_time 9 0) (clock current_time)
    then (ordinal current_time + 1)%Z
    else ordinal current_time in
  {| ordinal := skip_weekend 7 next_day; clock := at_time 9 0 |}.

(** Order of date-times. *)
Definition datetime_ltb (a b : datetime) : bool :=
  if (ordinal a <? ordinal b)%Z then true
  else if (ordinal b <? ordinal a)%Z then false
  else negb (time_leb (clock b) (clock a)).

End MarketTime.

(** ** Token manager ([token_manager.py]) *)

Module TokenManager.

Record t := {
  _token_cache : option string;
  _token_expires_at : option Z
}.

Definition init : t := {| _token_cache := None; _token_expires_at := None |}.

(** [_is_token_valid]: five minutes before the expiry the token counts as
    due; times are in seconds. *)
Definition _is_token_valid (now : Z) (self : t) : bool :=
  if negb (Py.truthy (_token_cache self)) then false
  else match _token_expires_at self with
       | None => false
       | Some e => (now <? e - 300)%Z
       end.

(** [refresh_token]; [issued] is what [KISClient.get_access_token] gives.
    The expiry is set 23 hours ahead. *)
Definition refresh_token (now : Z) (issued : exc string) (self : t)
  : exc string * t :=
  match issued with
  | Ok token =>
      (Ok token,
       {| _token_cache := Some token;
          _token_expires_at := Some (now + 82800)%Z |})
  | Raise e => (Raise e, self)
  end.

(** [get_valid_token]: the token, the manager, and the number of calls
    made to the client. *)
Definition get_valid_token (now : Z) (issued : exc string) (self : t)
  : exc (option string) * t * nat :=
  if negb (Py.truthy (_token_cache self)) || negb (_is_token_valid now self)
  then
    match refresh_token now issued self with
    | (Ok _, self1) => (Ok (_token_cache self1), self1, 1%nat)
    | (Raise e, self1) => (Raise e, self1, 1%nat)
    end
  else (Ok (_token_cache self), self, 0%nat).

End TokenManager.

(** ** Notions used to state the properties *)


(** The allocation ratio a strategy of class [v] sizes with. *)
Definition allocation_ratio (v : variant) (cfg : config) : Q :=
  default (default_allocation_ratio v) (cfg_allocation_ratio cfg).

(** A snapshot with the given price and volume. *)
Definition snapshot (price : Q) (vol : Z) : market_data :=
  {| current_price := price; change_price := 0; change_rate := 0;
     volume := vol; high_price := price; low_price := price;
     open_price := price; prev_close := price |}.

(** A brokerage that quotes every symbol at [price]. *)
Definition quoting (price : Q) : broker :=
  {| get_market_data := fun _ => Some (snapshot price 1000);
     get_daily_chart := fun _ => Ok [];
     get_rank := fun _ => Ok [] |}.

(** Two active mean-reversion strategies on the watchlist, as the
    activation endpoint registers them: "A" averages 2 prices, "B" 5. *)
Definition config_with_period (n : nat) : config :=
  {| cfg_short_period := None; cfg_long_period := None;
     cfg_rsi_period := None; cfg_oversold := None; cfg_overbought := None;
     cfg_period := Some n; cfg_momentum_threshold := None;
     cfg_deviation_threshold := None; cfg_allocation_ratio := None;
     cfg_available_balance := None; cfg_order_type := None;
     cfg_max_sell_quantity := None |}.

Definition activated (row_name : string) (cfg : config) : BaseStrategy.t :=
  BaseStrategy.with_is_active true
    (BaseStrategy.with_name row_name (new_MeanReversionStrategy cfg)).

Definition two_strategies : StrategyEngine.t :=
  snd (StrategyEngine.register_strategy (activated "B" (config_with_period 5))
         (snd (StrategyEngine.register_strategy
                 (activated "A" (config_with_period 2))
                 StrategyEngine.init))).

Definition watchlist_row (row_name : string) (cfg : config) : Strategy :=
  {| row_name := row_name; strategy_type := "mean_reversion";
     row_is_active := true; row_config := Some cfg;
     stock_selection_mode := "watchlist";
     row_auto_selection_config := None |}.

Definition two_rows : list Strategy :=
  [watchlist_row "A" (config_with_period 2);
   watchlist_row "B" (config_with_period 5)].

(** The buy signal of strategy "A" for 005930 at 80. *)
Definition signal_A : signal :=
  {| sig_action := BUY; sig_stock_code := "005930"; sig_quantity := 1;
     sig_price := 80; sig_order_type := "00" |}.

(** How many times a signal was passed to [place_order]. *)
Definition is_signal (s s' : signal) : bool :=
  match sig_action s, sig_action s' with
  | BUY, BUY | SELL, SELL =>
      String.eqb (sig_stock_code s) (sig_stock_code s')
      && Z.eqb (sig_quantity s) (sig_quantity s')
      && Qeq_bool (sig_price s) (sig_price s')
      && String.eqb (sig_order_type s) (sig_order_type s')
  | _, _ => false
  end.

Definition submissions (s : signal) (c : AutoTradingScheduler.cycle) : nat :=
  length (List.filter (is_signal s) (AutoTradingScheduler.orders c)).

(** The results of the moving-average [should_buy] on successive
    snapshots at the given prices. *)
Fixpoint crossover_evaluations (self : MovingAverageCrossoverStrategy.t)
    (prices : list Q) : list (exc bool) :=
  match prices with
  | [] => []
  | p :: rest =>
      let '(r, self1) :=
        MovingAverageCrossoverStrategy.should_buy "005930" (snapshot p 1000)
          self in
      r :: crossover_evaluations self1 rest
  end.

Definition crossover_config (short long : nat) : config :=
  {| cfg_short_period := Some short; cfg_long_period := Some long;
     cfg_rsi_period := None; cfg_oversold := None; cfg_overbought := None;
     cfg_period := None; cfg_momentum_threshold := None;
     cfg_deviation_threshold := None; cfg_allocation_ratio := None;
     cfg_available_balance := None; cfg_order_type := None;
     cfg_max_sell_quantity := None |}.

(** The moving average over the last [n] of the prices seen so far. *)
Definition moving_average (n : nat) (seen : list Q) : Q :=
  Py.sum (Py.last_n n seen) / Qnat n.

(** Whether the fast average is above the slow one at the evaluation that
    has seen [seen]. *)
Definition fast_above_slow (short long : nat) (seen : list Q) : bool :=
  Py.ltb (moving_average long seen) (moving_average short seen).

(** The golden cross in the words of the specification: fast above slow
    now, and at or below it at the evaluation before. *)
Definition golden_cross_spec (short long : nat) (seen : list Q) : bool :=
  fast_above_slow short long seen
  && negb (fast_above_slow short long (removelast seen)).

(** The results of the momentum [should_buy] on successive snapshots, each
    a price and a volume. *)
Fixpoint momentum_evaluations (self : MomentumStrategy.t)
    (snapshots : list (Q * Z)) : list (exc bool) :=
  match snapshots with
  | [] => []
  | (p, v) :: rest =>
      let '(r, self1) :=
        MomentumStrategy.should_buy "005930" (snapshot p v) self in
      r :: momentum_evaluations self1 rest
  end.

(** The momentum buy rule in the words of the specification: the trailing
    price change exceeds the threshold and the current volume is at least
    80% of the average of the volumes seen. *)
Definition momentum_buy_spec (threshold momentum : Q) (volumes : list Z)
    (vol : Z) : bool :=
  Py.ltb threshold momentum
  && Py.leb (Py.sum (map inject_Z volumes) / Qnat (length volumes) * (8 # 10))
       (inject_Z vol).

(** The token file, when there is one, holds a non-empty token (the client
    writes it only after a successful issuance). *)
Definition token_file_ok (disk : option KISClient.token_record) : Prop :=
  match disk with
  | Some rec => KISClient.token rec <> ""%string
  | None => True
  end.

(** The persisted token is still valid: the file carries an expiry that
    lies ahead. *)
Definition disk_token_valid (now : Z) (disk : option KISClient.token_record)
  : bool :=
  match disk with
  | Some rec =>
      match KISClient.valid rec with
      | Date d => (now <? d)%Z
      | _ => false
      end
  | None => false
  end.


(** A token that is there: not absent and not empty. *)
Definition present (tok : option string) : option string :=
  match tok with
  | Some EmptyString => None
  | _ => tok
  end.


(** A rate-limit answer of the issuance endpoint: it carries the throttle
    code or the throttle message. *)
Definition throttle_answer (b : json_body) : Prop :=
  Py.contains "EGW00133" (error_code b) = true
  \/ Py.contains "1분당 1회" (error_description b) = true.

(** The request did not get an answer: the connection failed or timed
    out. *)
Definition no_answer (o : KISClient.http_outcome) : Prop :=
  o = KISClient.TransportFailure HttpxConnectError
  \/ o = KISClient.TransportFailure HttpxTimeoutException
  \/ o = KISClient.TransportFailure ConnectionError
  \/ o = KISClient.TransportFailure TimeoutError.

(** An HTTP 500 error whose body is a JSON object. *)
Definition server_error_envelope (o : KISClient.http_outcome) : Prop :=
  exists body,
    o = KISClient.Response 500 (Some body)
    \/ o = KISClient.TransportFailure (HTTPStatusError 500 (Some body)).

(** The answers a data call can come to read: that of the issuance before
    the call, that of the call, and after a 401 those of the second
    issuance and of the resubmitted call. *)
Definition consulted (token_resp1 first token_resp2 second
                        : KISClient.http_outcome)
  : list KISClient.http_outcome :=
  token_resp1 :: first
  :: match KISClient.status_of first with
     | Some 401%nat => [token_resp2; second]
     | _ => []
     end.

(** The exceptions of an issuance: a [ValueError] of the client, the
    exception of the transport, or the HTTP error of the answer. *)
Definition issuance_error (resp : KISClient.http_outcome) (e : exn) : Prop :=
  (exists msg, e = ValueError msg)
  \/ resp = KISClient.TransportFailure e
  \/ (exists status body,
        resp = KISClient.Response status body
        /\ e = HTTPStatusError status body)
  \/ (exists status k,
        resp = KISClient.ResponseOther status k
        /\ (e = HTTPStatusError status None \/ e = AttributeError)).

(** The answer [o] accounts for the exception [e] when [e] is one a
    fallback clause catches. *)
Definition accounts_for (o : KISClient.http_outcome) (e : exn) : Prop :=
  (e = ConnectionError \/ e = TimeoutError -> no_answer o)
  /\ (forall body, e = HTTPStatusError 500 (Some body) ->
      server_error_envelope o).

(** A client with its keys and the given token in memory. *)
Definition client_with (tok : option string) (exp : option Z) : KISClient.t :=
  {| KISClient.app_key := "key"; KISClient.app_secret := "secret";
     KISClient.access_token := tok; KISClient.token_expires_at := exp |}.

Definition empty_body : json_body :=
  {| rt_cd := None; msg_cd := ""; msg1 := None; error_code := "";
     error_description := ""; body_access_token := None;
     expires_in := None; access_token_token_expired := NoDate |}.

(** The answer of a successful issuance. *)
Definition issued (tok : string) : KISClient.http_outcome :=
  KISClient.Response 200
    (Some {| rt_cd := None; msg_cd := ""; msg1 := None; error_code := "";
             error_description := ""; body_access_token := Some tok;
             expires_in := Some 86400%Z;
             access_token_token_expired := NoDate |}).

(** The throttling answer of the issuance endpoint. *)
Definition throttled : json_body :=
  {| rt_cd := None; msg_cd := ""; msg1 := None; error_code := "EGW00133";
     error_description := ""; body_access_token := None;
     expires_in := None; access_token_token_expired := NoDate |}.

(** An error envelope of the brokerage. *)
Definition routing_error : json_body :=
  {| rt_cd := Some "1"%string; msg_cd := "EGW00203";
     msg1 := Some "OPS"%string; error_code := "";
     error_description := ""; body_access_token := None;
     expires_in := None; access_token_token_expired := NoDate |}.

(** The state of a strategy after it has evaluated the buy condition on a
    run of snapshots, each with its stock code. *)
Definition feed_crossover (run : list (string * market_data))
    (self : MovingAverageCrossoverStrategy.t)
  : MovingAverageCrossoverStrategy.t :=
  fold_left
    (fun s x => snd (MovingAverageCrossoverStrategy.should_buy x.1 x.2 s))
    run self.

Definition feed_momentum (run : list (string * market_data))
    (self : MomentumStrategy.t) : MomentumStrategy.t :=
  fold_left (fun s x => snd (MomentumStrategy.should_buy x.1 x.2 s)) run self.

Definition feed_mean_reversion (run : list (string * market_data))
    (self : MeanReversionStrategy.t) : MeanReversionStrategy.t :=
  fold_left (fun s x => snd (MeanReversionStrategy.should_buy x.1 x.2 s))
    run self.

(** The positive prices of a run, in order, whatever their stock code. *)
Definition positive_prices (run : list (string * market_data)) : list Q :=
  List.filter (fun p => Py.ltb 0 p) (map (fun x => current_price x.2) run).

(** The last [n] items of a list. *)
Definition newest (n : nat) (xs : list Q) : list Q :=
  drop (length xs - n) xs.







(** What every pass of the strategy loop keeps: the orders placed are the
    signals collected, and all of them are BUY signals. *)
Definition cycle_ok (c : AutoTradingScheduler.cycle) : Prop :=
  (forall s, In s (AutoTradingScheduler.orders c)
             <-> In s (AutoTradingScheduler.all_signals c))
  /\ Forall (fun s => sig_action s = BUY) (AutoTradingScheduler.all_signals c).


(** An opening instant: 09:00 on a weekday. *)
Definition opening (d : Z) : MarketTime.datetime :=
  {| MarketTime.ordinal := d; MarketTime.clock := MarketTime.at_time 9 0 |}.

(** The MACD value of a price history: fast EMA minus slow EMA. *)
Definition macd_of (self : MACDStrategy.t) (prices : list Q) : Q :=
  match MACDStrategy.calculate_ema prices (MACDStrategy.fast_period self),
        MACDStrategy.calculate_ema prices (MACDStrategy.slow_period self) with
  | Ok fast_ema, Ok slow_ema => fast_ema - slow_ema
  | _, _ => 0
  end.

(** The three periods of a MACD strategy are positive. *)
Definition macd_periods_ok (self : MACDStrategy.t) : Prop :=
  (0 < MACDStrategy.fast_period self)%nat
  /\ (0 < MACDStrategy.slow_period self)%nat
  /\ (0 < MACDStrategy.signal_period self)%nat.

(** * Properties *)

(** ** Arithmetic of the runtime helpers *)

Lemma div_ok (a b : Q) : ~ b == 0 -> Py.div a b = Ok (a / b).
Proof.
  intros Hb. unfold Py.div.
  destruct (Qeq_bool b 0) eqn:E; [|reflexivity].
  apply Qeq_bool_eq in E. contradiction.
Qed.

Lemma ltb_lt (a b : Q) : Py.ltb a b = true <-> a < b.
Proof.
  unfold Py.ltb. rewrite negb_true_iff. split.
  - intros H. apply Qnot_le_lt. intros Hle.
    apply Qle_bool_iff in Hle. congruence.
  - intros H. destruct (Qle_bool b a) eqn:E; [|reflexivity].
    apply Qle_bool_iff in E. exfalso. apply (Qlt_not_le _ _ H E).
Qed.

Lemma ltb_ge (a b : Q) : Py.ltb a b = false <-> b <= a.
Proof.
  unfold Py.ltb. rewrite negb_false_iff. apply Qle_bool_iff.
Qed.

Lemma sum_nonneg (xs : list Q) :
  Forall (fun x => 0 <= x) xs -> 0 <= Py.sum xs.
Proof.
  induction 1 as [|x xs Hx _ IH]; simpl.
  - apply Qle_refl.
  - replace 0 with (0 + 0) by reflexivity. apply Qplus_le_compat; assumption.
Qed.


Lemma last_n_Forall (P : Q -> Prop) (n : nat) (xs : list Q) :
  Forall P xs -> Forall P (Py.last_n n xs).
Proof.
  intros H. destruct n; simpl; [assumption|]. apply Forall_drop, H.
Qed.

Lemma Qnat_pos (n : nat) : (0 < n)%nat -> 0 < Qnat n.
Proof.
  intros H. unfold Qnat, Qlt. simpl. lia.
Qed.

Lemma Qnat_nonzero (n : nat) : (0 < n)%nat -> ~ Qnat n == 0.
Proof.
  intros H E. apply Qnat_pos in H. rewrite E in H.
  exact (Qlt_irrefl 0 H).
Qed.






(** ** RSI *)

Lemma gain_nonneg (c : Q) : 0 <= RSIStrategy.gain c.
Proof.
  unfold RSIStrategy.gain. destruct (Py.ltb 0 c) eqn:E.
  - apply ltb_lt in E. apply Qlt_le_weak, E.
  - apply Qle_refl.
Qed.

Lemma loss_nonneg (c : Q) : 0 <= RSIStrategy.loss c.
Proof.
  unfold RSIStrategy.loss, Py.abs. destruct (Py.ltb 0 c).
  - apply Qle_refl.
  - apply Qabs_nonneg.
Qed.



(** With a positive period the averages are taken without an exception,
    and the saturating branch and the quotient branch both stay in range. *)
Lemma rsi_in_range (self : RSIStrategy.t) (prices : list Q) :
  (0 < RSIStrategy.period self)%nat ->
  exists r, RSIStrategy.calculate_rsi self prices = Ok r /\ 0 <= r /\ r <= 100.
Proof.
  intros Hp. unfold RSIStrategy.calculate_rsi. cbv zeta.
  destruct (Nat.ltb (length prices) _); [exists 50; repeat split; lra|].
  destruct (Nat.ltb (length (map _ _)) _); [exists 50; repeat split; lra|].
  pose proof (Qnat_nonzero _ Hp) as Hnz.
  pose proof (Qnat_pos _ Hp) as Hpos.
  rewrite !div_ok by assumption. simpl.
  set (G := Py.sum (Py.last_n _ (map RSIStrategy.gain _)) / _).
  set (L := Py.sum (Py.last_n _ (map RSIStrategy.loss _)) / _).
  assert (HG : 0 <= G).
  { apply Qle_shift_div_l; [assumption|]. rewrite Qmult_0_l.
    apply sum_nonneg, last_n_Forall, Forall_map, Forall_forall.
    intros c _. apply gain_nonneg. }
  assert (HL : 0 <= L).
  { apply Qle_shift_div_l; [assumption|]. rewrite Qmult_0_l.
    apply sum_nonneg, last_n_Forall, Forall_map, Forall_forall.
    intros c _. apply loss_nonneg. }
  destruct (Py.eqb L 0) eqn:E; [exists 100; repeat split; lra|].
  apply Qeq_bool_neq in E.
  assert (HLpos : 0 < L).
  { destruct (Qlt_le_dec 0 L) as [H|H]; [exact H|].
    exfalso. apply E. apply Qle_antisym; assumption. }
  rewrite (div_ok G L) by assumption. simpl.
  assert (Hrs : 0 <= G / L).
  { apply Qle_shift_div_l; [assumption|]. lra. }
  assert (Hden : 0 < 1 + G / L) by lra.
  rewrite div_ok by (intros Hz; rewrite Hz in Hden; exact (Qlt_irrefl 0 Hden)).
  simpl. exists (100 - 100 / (1 + G / L)). split; [reflexivity|].
  assert (Hq0 : 0 <= 100 / (1 + G / L)).
  { apply Qle_shift_div_l; [assumption|]. lra. }
  assert (Hq1 : 100 / (1 + G / L) <= 100).
  { apply Qle_shift_div_r; [assumption|]. lra. }
  split; lra.
Qed.



(** ** Sizing *)





(** ** Engine *)

Lemma on_sell_signal_without_holding (o : BaseStrategy.t)
    (stock_code : string) (md : market_data) (holding_quantity : Z)
    (s : signal) :
  (holding_quantity <= 0)%Z ->
  fst (BaseStrategy.on_sell_signal o stock_code md holding_quantity)
  <> Ok (Some s).
Proof.
  intros Hh. unfold BaseStrategy.on_sell_signal.
  destruct (BaseStrategy.should_sell _ _ _ _) as [[[|]|e] s1]; simpl;
    try discriminate.
  apply Z.leb_le in Hh. rewrite Hh. simpl. discriminate.
Qed.

Lemma on_buy_signal_action (o : BaseStrategy.t) (stock_code : string)
    (md : market_data) (s : signal) :
  fst (BaseStrategy.on_buy_signal o stock_code md) = Ok (Some s) ->
  sig_action s = BUY.
Proof.
  unfold BaseStrategy.on_buy_signal.
  destruct (BaseStrategy.should_buy _ _ _ _) as [[[|]|e] s1]; simpl;
    try discriminate.
  destruct (Py.leb _ _); simpl; [discriminate|].
  destruct (BaseStrategy.calculate_buy_quantity _ _ _ _ _ _) as [q|e];
    simpl; [|discriminate].
  destruct (BaseStrategy.calculate_buy_price _ _ _ _) as [pr|e];
    simpl; [|discriminate].
  destruct (q <=? 0)%Z; simpl; [discriminate|].
  intros H. injection H as <-. reflexivity.
Qed.

(** C2 — [on_sell_signal] gives no signal when the holding quantity is 0 or
    less, [execute_strategy] calls it with 0, and so every signal
    [execute_strategy] returns, for any engine, strategy name and symbol,
    is a BUY signal. *)
Theorem execute_strategy_never_sells :
  forall (w : broker) (strategy_name stock_code : string)
         (eng : StrategyEngine.t),
    (forall (o : BaseStrategy.t) (md : market_data) (h : Z) (s : signal),
        (h <= 0)%Z ->
        fst (BaseStrategy.on_sell_signal o stock_code md h) <> Ok (Some s))
    /\ (forall s : signal,
          fst (StrategyEngine.execute_strategy w strategy_name stock_code eng)
          = Some s ->
          sig_action s = BUY).
Proof.
  intros w strategy_name stock_code eng. split.
  - intros o md h s. apply on_sell_signal_without_holding.
  - intros s. unfold StrategyEngine.execute_strategy.
    destruct (StrategyEngine.get_strategy _ _) as [strategy|];
      [|discriminate].
    destruct (negb _); [discriminate|].
    set (o1 := match BaseStrategy._initialize_price_history _ with
               | Some f => _
               | None => _
               end).
    clearbody o1.
    destruct (get_market_data w stock_code) as [md|]; [|discriminate].
    destruct (BaseStrategy.on_buy_signal o1 stock_code md)
      as [rb o2] eqn:Hbuy.
    destruct rb as [[buy_signal|]|e]; simpl; try discriminate.
    + intros H. injection H as <-.
      apply (on_buy_signal_action o1 stock_code md).
      rewrite Hbuy. reflexivity.
    + destruct (BaseStrategy.on_sell_signal o2 stock_code md 0)
        as [rs o3] eqn:Hsell.
      destruct rs as [[sell_signal|]|e]; simpl; try discriminate.
      exfalso.
      apply (on_sell_signal_without_holding o2 stock_code md 0 sell_signal);
        [lia|].
      rewrite Hsell. reflexivity.
Qed.

(** Witness of C2: strategy "A", having seen 100, buys at 80. *)
Lemma execute_strategy_buys_at_80 :
  sig_action signal_A = BUY.
Proof.
  apply (proj2 (execute_strategy_never_sells (quoting 80) "A" "005930"
                  (snd (StrategyEngine.execute_strategy (quoting 100)
                          "A" "005930" two_strategies)))).
  vm_compute. reflexivity.
Defined.

(** ** Scheduler *)

(** [run_strategy] only appends to [all_signals] and places no order. *)
Lemma run_strategy_appends (w : broker) (strategy_name : string)
    (stock_codes : list string) (c : AutoTradingScheduler.cycle) :
  let c' := AutoTradingScheduler.run_strategy w strategy_name stock_codes c in
  AutoTradingScheduler.orders c' = AutoTradingScheduler.orders c
  /\ exists new,
       AutoTradingScheduler.all_signals c'
       = AutoTradingScheduler.all_signals c ++ new.
Proof.
  revert c. induction stock_codes as [|stock_code rest IH]; intros c; simpl.
  - split; [reflexivity|]. exists []. rewrite app_nil_r. reflexivity.
  - destruct (StrategyEngine.execute_strategy w strategy_name stock_code _)
      as [sg eng1].
    match goal with
    | |- context [AutoTradingScheduler.run_strategy _ _ _ ?c1] =>
        destruct (IH c1) as [Ho [new Hs]]
    end.
    simpl in Ho, Hs. split; [exact Ho|].
    rewrite Hs. destruct sg as [s|].
    + exists (s :: new). rewrite <- app_assoc. reflexivity.
    + exists new. reflexivity.
Qed.

(** Every pass of the strategy loop that reaches the order loop submits
    the signals of the earlier passes again, with its own after them. *)
Lemma strategy_step_resubmits
    (create_strategy : string -> config -> exc BaseStrategy.t)
    (watchlist : list string) (w : broker)
    (c : AutoTradingScheduler.cycle) (strategy : Strategy) :
  let c' :=
    AutoTradingScheduler.strategy_step create_strategy watchlist w c
      strategy in
  c' = c
  \/ exists new,
       AutoTradingScheduler.all_signals c'
       = AutoTradingScheduler.all_signals c ++ new
       /\ AutoTradingScheduler.orders c'
          = AutoTradingScheduler.orders c
            ++ AutoTradingScheduler.all_signals c ++ new.
Proof.
  unfold AutoTradingScheduler.strategy_step.
  destruct (AutoTradingScheduler.select_stock_codes _ _ _)
    as [[|stock_code rest]|]; try (left; reflexivity).
  destruct (AutoTradingScheduler.ensure_registered _ _ _) as [eng1|];
    [|left; reflexivity].
  right.
  match goal with
  | |- context [AutoTradingScheduler.run_strategy ?w ?n ?l ?c1] =>
      destruct (run_strategy_appends w n l c1) as [Ho [new Hs]]
  end.
  simpl in Ho, Hs. exists new.
  unfold AutoTradingScheduler.submit_orders. simpl.
  rewrite Ho, Hs. split; reflexivity.
Qed.

(** C1 (the defect) — Two active strategies on a one-symbol watchlist.  In
    the cycle where the price falls from 100 to 80, strategy "A" signals
    once and "B" does not, and the order loop, which runs inside the loop
    over strategies on the whole [all_signals] list, passes that one
    signal to [place_order] twice. *)
Theorem cycle_submits_a_signal_twice :
  forall create_strategy : string -> config -> exc BaseStrategy.t,
    let cycle_at price eng :=
      AutoTradingScheduler._execute_auto_trading create_strategy
        ["005930"%string] (quoting price) true two_rows eng in
    let c := cycle_at 80 (AutoTradingScheduler.engine
                            (cycle_at 100 two_strategies)) in
    AutoTradingScheduler.all_signals c = [signal_A]
    /\ AutoTradingScheduler.orders c = [signal_A; signal_A]
    /\ submissions signal_A c = 2%nat.
Proof.
  intros create_strategy. vm_compute. repeat split.
Qed.






(** ** Moving-average crossover *)

Lemma append_bounded_length (bound : nat) (xs : list Q) (x : Q) :
  (length xs <= bound)%nat ->
  (length (Py.append_bounded bound xs x) <= bound)%nat.
Proof.
  intros H. unfold Py.append_bounded.
  destruct (Nat.ltb bound (length (xs ++ [x]))) eqn:E.
  - rewrite length_drop, length_app. simpl. lia.
  - apply Nat.ltb_ge in E. exact E.
Qed.

(** The history is cut to [long_period] prices, so it never holds the
    price the previous long average needs. *)
Lemma should_buy_keeps_history_bounded
    (stock_code : string) (md : market_data)
    (self : MovingAverageCrossoverStrategy.t) :
  (length (MovingAverageCrossoverStrategy.price_history self)
   <= MovingAverageCrossoverStrategy.long_period self)%nat ->
  let self1 :=
    snd (MovingAverageCrossoverStrategy.should_buy stock_code md self) in
  (length (MovingAverageCrossoverStrategy.price_history self1)
   <= MovingAverageCrossoverStrategy.long_period self1)%nat.
Proof.
  intros H. unfold MovingAverageCrossoverStrategy.should_buy.
  destruct (Py.leb _ _); simpl; [exact H|].
  destruct (Nat.ltb _ _); simpl; apply append_bounded_length, H.
Qed.

(** On such a history [prev_long_ma] is [long_ma] itself. *)
Lemma prev_long_ma_is_long_ma (self : MovingAverageCrossoverStrategy.t)
    (short_ma long_ma prev_short_ma prev_long_ma : Q) :
  (length (MovingAverageCrossoverStrategy.price_history self)
   <= MovingAverageCrossoverStrategy.long_period self)%nat ->
  MovingAverageCrossoverStrategy.averages self
  = Ok (short_ma, long_ma, prev_short_ma, prev_long_ma) ->
  prev_long_ma = long_ma.
Proof.
  intros Hlen. unfold MovingAverageCrossoverStrategy.averages.
  apply Nat.ltb_ge in Hlen. rewrite Hlen.
  destruct (Py.div _ _) as [s|e]; simpl; [|discriminate].
  destruct (Py.div _ _) as [l|e]; simpl; [|discriminate].
  destruct (if Nat.ltb _ _ then _ else _) as [ps|e]; simpl; [|discriminate].
  intros H. injection H as _ <- _ <-. reflexivity.
Qed.

(** C3 (the defect) — The buy signal fires again while the fast average
    stays above the slow one.  With periods 1 and 2 and prices 1, 2, 3, 4
    it fires at the second, third and fourth evaluations, on each of which
    the fast average is above the slow one; the specification's golden
    cross holds at none of the last two.  With the default periods 5 and
    20 and prices 1, nineteen times 100, then 10000, the fast average is
    above the slow one at the twentieth evaluation and the signal fires at
    the twenty-first. *)
Theorem crossover_fires_while_fast_stays_above :
  crossover_evaluations
    (MovingAverageCrossoverStrategy.init (crossover_config 1 2)) [1; 2; 3; 4]
  = [Ok false; Ok true; Ok true; Ok true]
  /\ fast_above_slow 1 2 [1; 2] = true
  /\ fast_above_slow 1 2 [1; 2; 3] = true
  /\ fast_above_slow 1 2 [1; 2; 3; 4] = true
  /\ golden_cross_spec 1 2 [1; 2; 3] = false
  /\ golden_cross_spec 1 2 [1; 2; 3; 4] = false
  /\ (let prices := 1 :: replicate 19 100 ++ [10000] in
      crossover_evaluations (MovingAverageCrossoverStrategy.init empty_config)
        prices
      = replicate 20 (Ok false) ++ [Ok true]
      /\ fast_above_slow 5 20 (removelast prices) = true
      /\ fast_above_slow 5 20 prices = true
      /\ golden_cross_spec 5 20 prices = false).
Proof.
  vm_compute. repeat split.
Qed.

(** ** Momentum *)

(** C4 (the defect) — [avg_volume] is the average of the price history.
    With the default period 10 and threshold 5%: after ten snapshots at
    60000 the price 70000 is a rise of one sixth, and a volume of 40000,
    equal to every volume seen, gives no buy signal; a volume of 100000
    after volumes of 1000000 gives one.  The specification's rule says the
    opposite in both cases. *)
Theorem momentum_volume_gate_uses_prices :
  let self := MomentumStrategy.init empty_config in
  let prices := replicate 10 60000 ++ [70000] in
  let steady := replicate 11 40000%Z in
  let drying := replicate 10 1000000%Z ++ [100000%Z] in
  MomentumStrategy.calculate_momentum self prices = Ok (10000 / 60000)
  /\ last (momentum_evaluations self (zip prices steady)) = Some (Ok false)
  /\ momentum_buy_spec (MomentumStrategy.momentum_threshold self)
       (10000 / 60000) steady 40000 = true
  /\ last (momentum_evaluations self (zip prices drying)) = Some (Ok true)
  /\ momentum_buy_spec (MomentumStrategy.momentum_threshold self)
       (10000 / 60000) drying 100000 = false.
Proof.
  vm_compute. repeat split.
Qed.

(** ** Session *)

Lemma truthy_nonempty (tok : string) :
  tok <> ""%string -> Py.truthy (Some tok) = true.
Proof.
  destruct tok; [congruence|reflexivity].
Qed.

Lemma is_token_valid_truthy (now : Z) (self : KISClient.t) :
  KISClient.is_token_valid now self = true ->
  Py.truthy (KISClient.access_token self) = true.
Proof.
  unfold KISClient.is_token_valid.
  destruct (Py.truthy _); [reflexivity|discriminate].
Qed.

(** A token file that is not valid leaves the client as it is. *)
Lemma load_without_valid_token (now : Z)
    (disk : option KISClient.token_record) (self : KISClient.t) :
  disk_token_valid now disk = false ->
  snd (KISClient._load_token_from_file now disk self) = self.
Proof.
  unfold disk_token_valid, KISClient._load_token_from_file.
  destruct disk as [rec|]; [|reflexivity].
  destruct (KISClient.valid rec) as [| |d]; try reflexivity.
  intros ->. reflexivity.
Qed.

(** A valid token file is loaded into memory and makes the client valid. *)
Lemma load_valid_token (now : Z) (rec : KISClient.token_record)
    (self : KISClient.t) :
  disk_token_valid now (Some rec) = true ->
  KISClient.token rec <> ""%string ->
  exists self1,
    KISClient._load_token_from_file now (Some rec) self
    = (Some (KISClient.token rec), self1)
    /\ KISClient.is_token_valid now self1 = true.
Proof.
  unfold disk_token_valid, KISClient._load_token_from_file.
  destruct (KISClient.valid rec) as [| |d]; try discriminate.
  intros Hd Htok. rewrite Hd. eexists. split; [reflexivity|].
  unfold KISClient.is_token_valid. simpl.
  destruct (KISClient.token rec); [congruence|]. simpl. exact Hd.
Qed.

(** Counterexample to C7 as stated: nothing in memory and an expired token
    on disk; a token exists on disk, and a new one is requested. *)
Lemma ensure_token_reissues_over_expired_file :
  let disk := Some {| KISClient.token := "OLD"; KISClient.valid := Date 100 |} in
  let o := KISClient.ensure_token 200 (issued "NEW") disk
             (client_with None None) in
  (exists rec, disk = Some rec /\ KISClient.token rec = "OLD"%string)
  /\ KISClient.issuance_requests o = 1%nat
  /\ KISClient.result o = Ok (Some "NEW"%string).
Proof.
  vm_compute. split; [eexists; split; reflexivity|]. split; reflexivity.
Qed.

(** C7 (amended) — For every token state whose token file, if any, holds a
    non-empty token: (1) a valid token in memory is returned and nothing
    is requested; (2) otherwise a persisted token that is still valid is
    loaded and returned and nothing is requested; (3) otherwise a token in
    memory, even expired, is returned and nothing is requested; (4) a new
    token is requested only when memory holds no token and the disk holds
    no token that is still valid (an expired or undated token on disk does
    not prevent the request). *)
Theorem ensure_token_precedence :
  forall (now : Z) (resp : KISClient.http_outcome)
         (disk : option KISClient.token_record) (self : KISClient.t),
    token_file_ok disk ->
    let o := KISClient.ensure_token now resp disk self in
    (KISClient.is_token_valid now self = true ->
     KISClient.result o = Ok (KISClient.access_token self)
     /\ KISClient.client o = self
     /\ KISClient.issuance_requests o = 0%nat)
    /\ (KISClient.is_token_valid now self = false ->
        disk_token_valid now disk = true ->
        KISClient.result o = Ok (option_map KISClient.token disk)
        /\ KISClient.issuance_requests o = 0%nat)
    /\ (KISClient.is_token_valid now self = false ->
        disk_token_valid now disk = false ->
        Py.truthy (KISClient.access_token self) = true ->
        KISClient.result o = Ok (KISClient.access_token self)
        /\ KISClient.client o = self
        /\ KISClient.issuance_requests o = 0%nat)
    /\ (KISClient.issuance_requests o <> 0%nat ->
        Py.truthy (KISClient.access_token self) = false
        /\ disk_token_valid now disk = false).
Proof.
  intros now resp disk self Hok o. subst o.
  unfold KISClient.ensure_token.
  destruct (KISClient.is_token_valid now self) eqn:Hvalid.
  - rewrite (is_token_valid_truthy _ _ Hvalid). simpl.
    repeat split; intros; try reflexivity; congruence.
  - simpl. destruct (disk_token_valid now disk) eqn:Hdisk.
    + destruct disk as [rec|]; [|discriminate].
      destruct (load_valid_token now rec self Hdisk Hok) as (self1 & -> & Hv1).
      rewrite Hv1, (truthy_nonempty _ Hok). simpl.
      repeat split; intros; try reflexivity; congruence.
    + pose proof (load_without_valid_token now disk self Hdisk) as Hsame.
      destruct (KISClient._load_token_from_file now disk self)
        as [saved self1].
      simpl in Hsame. subst self1. rewrite Hvalid, andb_false_r.
      destruct (Py.truthy (KISClient.access_token self)) eqn:Hmem.
      * simpl. repeat split; intros; try reflexivity; congruence.
      * repeat split; intros; try reflexivity; congruence.
Qed.

(** Witness of C7 (amended): a well-formed token file that is still valid
    is returned without a request. *)
Lemma ensure_token_reuses_valid_file :
  let disk := Some {| KISClient.token := "DAY"; KISClient.valid := Date 300 |} in
  KISClient.result
    (KISClient.ensure_token 200 (issued "NEW") disk (client_with None None))
  = Ok (Some "DAY"%string)
  /\ KISClient.issuance_requests
       (KISClient.ensure_token 200 (issued "NEW") disk (client_with None None))
     = 0%nat.
Proof.
  apply (proj1 (proj2 (ensure_token_precedence 200 (issued "NEW")
                         (Some {| KISClient.token := "DAY";
                                  KISClient.valid := Date 300 |})
                         (client_with None None)
                         ltac:(simpl; discriminate))));
    reflexivity.
Defined.

(** Loading the token file a second time yields the same token and leaves
    the client as the first load left it. *)
Lemma load_twice (now : Z) (disk : option KISClient.token_record)
    (self : KISClient.t) :
  KISClient._load_token_from_file now disk
    (snd (KISClient._load_token_from_file now disk self))
  = KISClient._load_token_from_file now disk self.
Proof.
  unfold KISClient._load_token_from_file.
  destruct disk as [rec|]; [|reflexivity].
  destruct (KISClient.valid rec) as [| |d]; try reflexivity.
  destruct (now <? d)%Z; reflexivity.
Qed.

(** Counterexample to C8 as stated: an expired token "OLD" is in memory
    and the token file holds an empty token with an expiry ahead; the
    first load of the file overwrites the token in memory, and the
    throttled issuance raises, a [ValueError], although a token existed. *)
Lemma throttled_issuance_raises_over_memory_token :
  let disk := Some {| KISClient.token := ""; KISClient.valid := Date 300 |} in
  let self := client_with (Some "OLD"%string) (Some 100%Z) in
  present (KISClient.access_token self) = Some "OLD"%string
  /\ throttle_answer throttled
  /\ KISClient.result
       (KISClient.get_access_token 200
          (KISClient.Response 403 (Some throttled)) disk self)
     = Raise (ValueError KISClient.msg_rate_limit_no_token).
Proof.
  split; [reflexivity|]. split; [left; reflexivity|reflexivity].
Qed.

Lemma is_rate_limit_throttle (b : json_body) :
  KISClient.is_rate_limit b = true <-> throttle_answer b.
Proof.
  unfold KISClient.is_rate_limit, throttle_answer. apply orb_true_iff.
Qed.




(** ** Request pipeline *)

(** Counterexample to C5 as stated: with the fallback enabled, an HTTP 500
    answer that carries an error envelope of the brokerage is replaced by
    synthetic data in [get_account_balance]. *)
Lemma account_balance_mocks_broker_error :
  KISClient._request_attempt (KISClient.Response 500 (Some routing_error))
  = Raise (HTTPStatusError 500 (Some routing_error))
  /\ KISClient.get_account_balance true 200 (issued "NEW")
       (KISClient.Response 500 (Some routing_error))
       (issued "NEW") (KISClient.Response 500 (Some routing_error))
       None (client_with (Some "TOKEN"%string) (Some 300%Z))
     = Ok KISClient.Mock.
Proof.
  split; reflexivity.
Qed.

Lemma get_access_token_raises (now : Z) (resp : KISClient.http_outcome)
    (disk : option KISClient.token_record) (self : KISClient.t) (e : exn) :
  KISClient.result (KISClient.get_access_token now resp disk self) = Raise e ->
  issuance_error resp e.
Proof.
  unfold KISClient.get_access_token, issuance_error.
  destruct (KISClient._load_token_from_file now disk self)
    as [saved self1].
  destruct (Py.truthy saved && _); [discriminate|].
  destruct (String.eqb _ _ || String.eqb _ _);
    [intros [= <-]; eauto|].
  destruct resp as [e0|status body|status k].
  - intros [= <-]. eauto.
  - destruct (Nat.eqb status 403).
    + destruct body as [b|]; [|intros [= <-]; eauto].
      destruct (KISClient.is_rate_limit b).
      * destruct (KISClient._load_token_from_file now disk self1)
          as [saved2 self2].
        destruct (Py.truthy saved2); [discriminate|].
        destruct (Py.truthy (KISClient.access_token self2));
          [discriminate|intros [= <-]; eauto].
      * destruct (negb (KISClient.is_success status));
          [intros [= <-]; eauto|].
        destruct (negb (Py.truthy (body_access_token b)));
          [intros [= <-]; eauto|discriminate].
    + destruct (negb (KISClient.is_success status)).
      * intros [= <-]. right. right. left. eauto.
      * destruct body as [b|]; [|intros [= <-]; eauto].
        destruct (negb (Py.truthy (body_access_token b)));
          [intros [= <-]; eauto|discriminate].
  - destruct (Nat.eqb status 403); [intros [= <-]; eauto|].
    destruct (negb (KISClient.is_success status)); intros [= <-];
      right; right; right; eauto.
Qed.

Lemma ensure_token_raises (now : Z) (resp : KISClient.http_outcome)
    (disk : option KISClient.token_record) (self : KISClient.t) (e : exn) :
  KISClient.result (KISClient.ensure_token now resp disk self) = Raise e ->
  issuance_error resp e.
Proof.
  unfold KISClient.ensure_token.
  destruct (KISClient.is_token_valid now self && _); [discriminate|].
  destruct (KISClient._load_token_from_file now disk self) as [saved self1].
  destruct (Py.truthy saved && _); [discriminate|].
  destruct (Py.truthy (KISClient.access_token self1)); [discriminate|].
  unfold KISClient.refresh_token.
  pose proof (get_access_token_raises now resp disk self1) as Hg.
  destruct (KISClient.result (KISClient.get_access_token now resp disk self1))
    as [t|e0]; [discriminate|].
  specialize (Hg e0 eq_refl).
  destruct e0; try (intros [= <-]; exact Hg).
  destruct (KISClient.is_rate_limit_message msg).
  - destruct (KISClient._load_token_from_file now _ _) as [saved2 self2].
    destruct (Py.truthy saved2); [discriminate|].
    destruct (Py.truthy (KISClient.access_token self2));
      [discriminate|intros [= <-]; exact Hg].
  - intros [= <-]. exact Hg.
Qed.

Lemma issuance_error_accounted (resp : KISClient.http_outcome) (e : exn) :
  issuance_error resp e -> accounts_for resp e.
Proof.
  unfold issuance_error, accounts_for, no_answer, server_error_envelope.
  intros [[msg ->]|[->|[(st & b & -> & ->)|(st & k & -> & [->| ->])]]].
  - split; [intros [H|H]; discriminate|intros body H; discriminate].
  - split; [intros [->| ->]; auto|]. intros body ->. eauto.
  - split; [intros [H|H]; discriminate|]. intros body [= -> ->]. eauto.
  - split; [intros [H|H]; discriminate|intros body H; discriminate].
  - split; [intros [H|H]; discriminate|intros body H; discriminate].
Qed.

(** What one pass of [_request] raises is accounted for by the answer it
    read. *)
Lemma request_attempt_accounted (o : KISClient.http_outcome) (e : exn) :
  KISClient._request_attempt o = Raise e -> accounts_for o e.
Proof.
  unfold KISClient._request_attempt, accounts_for, no_answer,
    server_error_envelope.
  destruct o as [e0|status body|status k].
  - destruct e0; intros [= <-];
      (split; [intros [H|H]; try discriminate H; auto
              |intros body' H; try discriminate H]).
    injection H as -> ->. eauto.
  - destruct (negb (KISClient.is_success status)).
    + intros [= <-]. split; [intros [H|H]; discriminate|].
      intros body' [= -> ->]. eauto.
    + destruct body as [r|];
        [|intros [= <-]; split;
          [intros [H|H]; discriminate|intros b H; discriminate]].
      destruct (rt_cd r) as [rt|]; [|discriminate].
      destruct (negb (String.eqb rt "0")); [|discriminate].
      intros [= <-]. split;
        [intros [H|H]; discriminate|intros b H; discriminate].
  - destruct (negb (KISClient.is_success status)).
    + intros [= <-]. split;
        [intros [H|H]; discriminate|intros b H; discriminate].
    + destruct k as [|[|]]; try discriminate; intros [= <-]; split;
        try (intros [H|H]; discriminate); intros b H; discriminate.
Qed.

(** A failure of the [try] body shared by the data calls is accounted for
    by one of the answers the call read. *)
Lemma attempt_raises (now : Z)
    (token_resp1 first token_resp2 second : KISClient.http_outcome)
    (disk : option KISClient.token_record) (self : KISClient.t) (e : exn) :
  KISClient.result
    (KISClient.attempt now token_resp1 first token_resp2 second disk self)
  = Raise e ->
  exists o, In o (consulted token_resp1 first token_resp2 second)
            /\ accounts_for o e.
Proof.
  unfold KISClient.attempt, consulted.
  pose proof (ensure_token_raises now token_resp1 disk self) as He.
  destruct (KISClient.result (KISClient.ensure_token now token_resp1 disk self))
    as [t|e1].
  2:{ cbn [KISClient.result]. intros [= <-]. exists token_resp1.
      split; [left; reflexivity|].
      apply issuance_error_accounted, He. reflexivity. }
  clear He. cbn [KISClient.result].
  set (o1 := KISClient.ensure_token now token_resp1 disk self).
  unfold KISClient._request.
  destruct (KISClient.status_of first) as [status|] eqn:Hst.
  2:{ cbn [KISClient.result]. intros Hr. exists first.
      split; [right; left; reflexivity|].
      apply request_attempt_accounted, Hr. }
  destruct (negb (KISClient.is_success status) && true
            && Nat.eqb status 401) eqn:Hretry.
  - apply andb_true_iff in Hretry. destruct Hretry as [_ H401].
    apply Nat.eqb_eq in H401. subst status.
    unfold KISClient.refresh_token.
    pose proof (get_access_token_raises now token_resp2
                  (KISClient.file o1) (KISClient.client o1)) as Hg.
    destruct (KISClient.result
                (KISClient.get_access_token now token_resp2
                   (KISClient.file o1) (KISClient.client o1))) as [t2|e2];
      cbn [KISClient.result].
    + intros Hr. exists second.
      split; [right; right; right; left; reflexivity|].
      apply request_attempt_accounted, Hr.
    + intros [= <-]. exists token_resp2.
      split; [right; right; left; reflexivity|].
      apply issuance_error_accounted, Hg. reflexivity.
  - cbn [KISClient.result]. intros Hr. exists first.
    split; [right; left; reflexivity|].
    apply request_attempt_accounted, Hr.
Qed.

(** When the token is at hand and the first answer is not a 401, the
    [try] body gives what one pass of [_request] gives on that answer. *)
Lemma attempt_first (now : Z)
    (token_resp1 first token_resp2 second : KISClient.http_outcome)
    (disk : option KISClient.token_record) (self : KISClient.t) :
  (exists t, KISClient.result (KISClient.ensure_token now token_resp1 disk self)
             = Ok t) ->
  KISClient.status_of first <> Some 401%nat ->
  KISClient.result
    (KISClient.attempt now token_resp1 first token_resp2 second disk self)
  = KISClient._request_attempt first.
Proof.
  intros [t Ht] Hst. unfold KISClient.attempt. rewrite Ht.
  cbn [KISClient.result]. unfold KISClient._request.
  destruct (KISClient.status_of first) as [status|]; [|reflexivity].
  destruct (Nat.eqb_spec status 401) as [->|Hne]; [congruence|].
  rewrite andb_false_r. reflexivity.
Qed.

(** An issuance that [ensure_token] requests and that is answered 403
    without the rate-limit marks makes it raise the credentials error. *)
Lemma ensure_token_rejects_credentials (now : Z) (b : json_body)
    (disk : option KISClient.token_record) (self : KISClient.t) :
  ~ throttle_answer b ->
  let o := KISClient.ensure_token now (KISClient.Response 403 (Some b))
             disk self in
  KISClient.issuance_requests o = 1%nat ->
  KISClient.result o = Raise (ValueError KISClient.msg_auth_failed).
Proof.
  intros Hb o. subst o. unfold KISClient.ensure_token.
  destruct (KISClient.is_token_valid now self && _); [discriminate|].
  destruct (KISClient._load_token_from_file now disk self) as [saved self1].
  destruct (Py.truthy saved && _); [discriminate|].
  destruct (Py.truthy (KISClient.access_token self1)); [discriminate|].
  unfold KISClient.refresh_token, KISClient.get_access_token.
  destruct (KISClient._load_token_from_file now disk self1)
    as [saved2 self2].
  destruct (Py.truthy saved2 && _); [discriminate|].
  destruct (String.eqb _ _ || String.eqb _ _); [discriminate|].
  cbn [Nat.eqb]. pose proof (is_rate_limit_throttle b) as Hrate.
  destruct (KISClient.is_rate_limit b);
    [exfalso; apply Hb, Hrate; reflexivity|].
  reflexivity.
Qed.

(** C5 (amended) — Synthetic data is returned only when the fallback is
    enabled, and only when one of the requests of the call got no answer
    (a connection error or a timeout) or, in [get_account_balance] alone,
    was answered HTTP 500 with a JSON object; a call without a fallback
    clause never returns it.  Whatever the setting: a rejection that the
    brokerage sends in an HTTP 2xx answer is raised by every call with the
    message of the brokerage; an issuance answered 403 without the
    rate-limit marks is raised as the credentials error; and an HTTP error
    answer other than 401 is raised, the 500 included in the calls other
    than [get_account_balance]. *)
Theorem mock_fallback_conditions :
  forall (USE_MOCK_DATA : bool) (now : Z)
         (token_resp1 first token_resp2 second : KISClient.http_outcome)
         (disk : option KISClient.token_record) (self : KISClient.t),
    let token := KISClient.ensure_token now token_resp1 disk self in
    let balance := KISClient.get_account_balance USE_MOCK_DATA now
                     token_resp1 first token_resp2 second disk self in
    let orderbook := KISClient.get_orderbook USE_MOCK_DATA now
                       token_resp1 first token_resp2 second disk self in
    let price := KISClient.get_current_price now
                   token_resp1 first token_resp2 second disk self in
    let answers := consulted token_resp1 first token_resp2 second in
    (balance = Ok KISClient.Mock ->
     USE_MOCK_DATA = true
     /\ exists o, In o answers /\ (no_answer o \/ server_error_envelope o))
    /\ (orderbook = Ok KISClient.Mock ->
        USE_MOCK_DATA = true /\ exists o, In o answers /\ no_answer o)
    /\ price <> Ok KISClient.Mock
    /\ (forall status r code,
          first = KISClient.Response status (Some r) ->
          KISClient.is_success status = true ->
          rt_cd r = Some code -> code <> "0"%string ->
          (exists t, KISClient.result token = Ok t) ->
          balance = Raise (Exception (KISClient.kis_error_message r))
          /\ orderbook = Raise (Exception (KISClient.kis_error_message r))
          /\ price = Raise (Exception (KISClient.kis_error_message r)))
    /\ (forall b,
          token_resp1 = KISClient.Response 403 (Some b) ->
          ~ throttle_answer b ->
          KISClient.issuance_requests token = 1%nat ->
          balance = Raise (ValueError KISClient.msg_auth_failed)
          /\ orderbook = Raise (ValueError KISClient.msg_auth_failed)
          /\ price = Raise (ValueError KISClient.msg_auth_failed))
    /\ (forall status body,
          first = KISClient.Response status body ->
          KISClient.is_success status = false -> status <> 401%nat ->
          (exists t, KISClient.result token = Ok t) ->
          orderbook = Raise (HTTPStatusError status body)
          /\ price = Raise (HTTPStatusError status body)
          /\ (status <> 500%nat ->
              balance = Raise (HTTPStatusError status body))).
Proof.
  intros USE_MOCK_DATA now token_resp1 first token_resp2 second disk self
         token balance orderbook price answers.
  subst token balance orderbook price answers.
  unfold KISClient.get_account_balance, KISClient.get_orderbook,
    KISClient.get_current_price.
  pose proof (attempt_raises now token_resp1 first token_resp2 second
                disk self) as Hraise.
  pose proof (attempt_first now token_resp1 first token_resp2 second
                disk self) as Hfirst.
  split; [|split; [|split; [|split; [|split]]]].
  - destruct (KISClient.result (KISClient.attempt _ _ _ _ _ _ _))
      as [[res|]|e]; try discriminate.
    destruct (Hraise e eq_refl) as (o & Hin & Hconn & Hsrv).
    unfold KISClient.account_balance_handlers.
    destruct e; try discriminate.
    + destruct USE_MOCK_DATA; [|discriminate]. intros _.
      split; [reflexivity|]. exists o. auto.
    + destruct USE_MOCK_DATA; [|discriminate]. intros _.
      split; [reflexivity|]. exists o. auto.
    + destruct (Nat.eqb_spec status 500) as [->|]; [|discriminate].
      destruct body as [b|]; [|discriminate].
      destruct USE_MOCK_DATA; [|discriminate]. intros _.
      split; [reflexivity|]. exists o. split; [exact Hin|]. right. eauto.
  - destruct (KISClient.result (KISClient.attempt _ _ _ _ _ _ _))
      as [[res|]|e]; try discriminate.
    destruct (Hraise e eq_refl) as (o & Hin & Hconn & Hsrv).
    unfold KISClient.connectivity_handler.
    destruct e; try discriminate;
      (destruct USE_MOCK_DATA; [|discriminate]); intros _;
      (split; [reflexivity|]); exists o; auto.
  - unfold KISClient.no_handler.
    destruct (KISClient.result (KISClient.attempt _ _ _ _ _ _ _))
      as [[res|]|e]; discriminate.
  - intros status r code -> Hs Hrt Hcode Htok.
    rewrite Hfirst; [|exact Htok|].
    2:{ simpl. intros [= ->]. discriminate. }
    unfold KISClient._request_attempt. rewrite Hs, Hrt. cbn [negb].
    destruct (String.eqb_spec code "0") as [->|_]; [congruence|].
    repeat split.
  - intros b -> Hb Hsent.
    pose proof (ensure_token_rejects_credentials now b disk self Hb Hsent)
      as He.
    unfold KISClient.attempt. rewrite He. repeat split.
  - intros status body -> Hs H401 Htok.
    rewrite Hfirst; [|exact Htok|].
    2:{ simpl. intros [= ->]. congruence. }
    unfold KISClient._request_attempt. rewrite Hs. cbn [negb].
    split; [reflexivity|]. split; [reflexivity|].
    intros H500. unfold KISClient.account_balance_handlers.
    apply Nat.eqb_neq in H500. rewrite H500. reflexivity.
Qed.

(** Witness of C5 (amended): with the fallback enabled a timeout of the
    data call is answered with synthetic data, and a rejection sent in an
    HTTP 200 answer is raised. *)
Lemma mock_fallback_on_timeout :
  (true = true
   /\ exists o,
        In o (consulted (issued "NEW")
                (KISClient.TransportFailure HttpxTimeoutException)
                (issued "NEW")
                (KISClient.TransportFailure HttpxTimeoutException))
        /\ no_answer o)
  /\ KISClient.get_orderbook true 200 (issued "NEW")
       (KISClient.Response 200 (Some routing_error)) (issued "NEW")
       (KISClient.Response 200 (Some routing_error))
       None (client_with (Some "TOKEN"%string) (Some 300%Z))
     = Raise (Exception (KISClient.kis_error_message routing_error)).
Proof.
  split.
  - apply (proj1 (proj2 (mock_fallback_conditions true 200 (issued "NEW")
                           (KISClient.TransportFailure HttpxTimeoutException)
                           (issued "NEW")
                           (KISClient.TransportFailure HttpxTimeoutException)
                           None
                           (client_with (Some "TOKEN"%string) (Some 300%Z))))).
    reflexivity.
  - apply (proj1 (proj2 (proj2 (proj2
             (mock_fallback_conditions true 200 (issued "NEW")
                (KISClient.Response 200 (Some routing_error)) (issued "NEW")
                (KISClient.Response 200 (Some routing_error))
                None (client_with (Some "TOKEN"%string) (Some 300%Z))))))
             200%nat routing_error "1"%string eq_refl eq_refl eq_refl
             ltac:(discriminate) ltac:(eexists; reflexivity)).
Defined.

(** * Further properties of the services *)

(** ** Rolling windows *)

Lemma append_bounded_newest (bound : nat) (xs : list Q) (x : Q) :
  (length xs <= bound)%nat ->
  Py.append_bounded bound xs x = newest bound (xs ++ [x]).
Proof.
  intros H. unfold Py.append_bounded, newest.
  rewrite length_app. simpl.
  destruct (Nat.ltb bound (length xs + 1)) eqn:E.
  - apply Nat.ltb_lt in E. replace (length xs + 1 - bound)%nat with 1%nat by lia.
    reflexivity.
  - apply Nat.ltb_ge in E. replace (length xs + 1 - bound)%nat with 0%nat by lia.
    reflexivity.
Qed.

Lemma newest_app (bound : nat) (xs ys : list Q) :
  newest bound (newest bound xs ++ ys) = newest bound (xs ++ ys).
Proof.
  unfold newest. rewrite !length_app, length_drop.
  destruct (Nat.le_gt_cases (length xs) bound) as [H|H].
  - replace (length xs - bound)%nat with 0%nat by lia. simpl.
    rewrite Nat.sub_0_r. reflexivity.
  - assert (Hx : xs ++ ys
                 = take (length xs - bound) xs
                   ++ (drop (length xs - bound) xs ++ ys))
      by (rewrite app_assoc, take_drop; reflexivity).
    rewrite Hx.
    rewrite (drop_app_ge (take _ xs)) by (rewrite length_take; lia).
    rewrite length_take. f_equal. lia.
Qed.

(** Appending under a bound, over and over, keeps the newest items. *)
Lemma fold_append_bounded (bound : nat) (xs h : list Q) :
  (length h <= bound)%nat ->
  fold_left (Py.append_bounded bound) xs h = newest bound (h ++ xs).
Proof.
  revert h. induction xs as [|x xs IH]; intros h Hh; simpl.
  - rewrite app_nil_r. unfold newest.
    replace (length h - bound)%nat with 0%nat by lia. reflexivity.
  - rewrite IH by (apply append_bounded_length, Hh).
    rewrite (append_bounded_newest _ _ _ Hh), newest_app, <- app_assoc.
    reflexivity.
Qed.

Lemma fold_filtered {S : Type} (step : S -> Q -> S) (keep : Q -> bool)
    (xs : list Q) (s : S) :
  fold_left (fun s x => if keep x then step s x else s) xs s
  = fold_left step (List.filter keep xs) s.
Proof.
  revert s. induction xs as [|x xs IH]; intros s; simpl; [reflexivity|].
  destruct (keep x); simpl; apply IH.
Qed.

Lemma feed_crossover_history (run : list (string * market_data))
    (self : MovingAverageCrossoverStrategy.t) :
  MovingAverageCrossoverStrategy.long_period (feed_crossover run self)
  = MovingAverageCrossoverStrategy.long_period self
  /\ MovingAverageCrossoverStrategy.price_history (feed_crossover run self)
     = fold_left
         (Py.append_bounded (MovingAverageCrossoverStrategy.long_period self))
         (positive_prices run)
         (MovingAverageCrossoverStrategy.price_history self).
Proof.
  unfold feed_crossover, positive_prices. revert self.
  induction run as [|[code md] run IH]; intros self; simpl; [auto|].
  specialize (IH (snd (MovingAverageCrossoverStrategy.should_buy code md self))).
  destruct IH as [IHl IHh]. rewrite IHl, IHh. clear IHl IHh.
  unfold MovingAverageCrossoverStrategy.should_buy, Py.ltb, Py.leb.
  destruct (Qle_bool (current_price md) 0); simpl; [auto|].
  destruct (Nat.ltb _ _); simpl; auto.
Qed.

Lemma feed_momentum_history (run : list (string * market_data))
    (self : MomentumStrategy.t) :
  MomentumStrategy.period (feed_momentum run self)
  = MomentumStrategy.period self
  /\ MomentumStrategy.price_history (feed_momentum run self)
     = fold_left (Py.append_bounded (MomentumStrategy.period self * 2))
         (positive_prices run) (MomentumStrategy.price_history self).
Proof.
  unfold feed_momentum, positive_prices. revert self.
  induction run as [|[code md] run IH]; intros self; simpl; [auto|].
  specialize (IH (snd (MomentumStrategy.should_buy code md self))).
  destruct IH as [IHl IHh]. rewrite IHl, IHh. clear IHl IHh.
  unfold MomentumStrategy.should_buy, Py.ltb, Py.leb.
  destruct (Qle_bool (current_price md) 0); simpl; [auto|].
  destruct (Nat.ltb _ _); simpl; auto.
Qed.

Lemma feed_mean_reversion_history (run : list (string * market_data))
    (self : MeanReversionStrategy.t) :
  MeanReversionStrategy.period (feed_mean_reversion run self)
  = MeanReversionStrategy.period self
  /\ MeanReversionStrategy.price_history (feed_mean_reversion run self)
     = fold_left (Py.append_bounded (MeanReversionStrategy.period self * 2))
         (positive_prices run) (MeanReversionStrategy.price_history self).
Proof.
  unfold feed_mean_reversion, positive_prices. revert self.
  induction run as [|[code md] run IH]; intros self; simpl; [auto|].
  specialize (IH (snd (MeanReversionStrategy.should_buy code md self))).
  destruct IH as [IHl IHh]. rewrite IHl, IHh. clear IHl IHh.
  unfold MeanReversionStrategy.should_buy, Py.ltb, Py.leb.
  destruct (Qle_bool (current_price md) 0); simpl; [auto|].
  destruct (Nat.ltb _ _); simpl; auto.
Qed.

(** X1 — After any run of buy evaluations on a fresh strategy, the price
    history is exactly the newest positive prices of the run, up to the
    bound of the class ([long_period] for the crossover, twice the period
    for momentum and mean reversion), whatever stock codes they were
    quoted for; a snapshot with a price of 0 or less leaves no trace. *)
Theorem rolling_window_contents :
  forall (cfg : config) (run : list (string * market_data)),
    MovingAverageCrossoverStrategy.price_history
      (feed_crossover run (MovingAverageCrossoverStrategy.init cfg))
    = newest (default 20%nat (cfg_long_period cfg)) (positive_prices run)
    /\ MomentumStrategy.price_history
         (feed_momentum run (MomentumStrategy.init cfg))
       = newest (default 10%nat (cfg_period cfg) * 2) (positive_prices run)
    /\ MeanReversionStrategy.price_history
         (feed_mean_reversion run (MeanReversionStrategy.init cfg))
       = newest (default 20%nat (cfg_period cfg) * 2) (positive_prices run).
Proof.
  intros cfg run. repeat split.
  - rewrite (proj2 (feed_crossover_history run _)). simpl.
    apply fold_append_bounded. simpl. lia.
  - rewrite (proj2 (feed_momentum_history run _)). simpl.
    apply fold_append_bounded. simpl. lia.
  - rewrite (proj2 (feed_mean_reversion_history run _)). simpl.
    apply fold_append_bounded. simpl. lia.
Qed.

(** ** Mean reversion *)







(** X3 — Mean reversion with a period of 0: every evaluation of a positive
    quote raises ZeroDivisionError, and the engine, which catches it,
    returns no signal for that strategy whatever the quote. *)
Theorem mean_reversion_period_zero :
  forall (w : broker) (strategy_name stock_code nm : string)
         (eng : StrategyEngine.t) (cfg : config)
         (self : MeanReversionStrategy.t) (md : market_data),
    MeanReversionStrategy.period self = 0%nat ->
    0 < current_price md ->
    fst (MeanReversionStrategy.should_buy stock_code md self)
    = Raise ZeroDivisionError
    /\ (StrategyEngine.get_strategy strategy_name eng
        = Some {| BaseStrategy.state := MeanReversionStrategy.t;
                  BaseStrategy.class := MeanReversion_class;
                  BaseStrategy.self := self;
                  BaseStrategy.name := nm;
                  BaseStrategy.config := cfg;
                  BaseStrategy.is_active := true |} ->
        get_market_data w stock_code = Some md ->
        fst (StrategyEngine.execute_strategy w strategy_name stock_code eng)
        = None).
Proof.
  intros w strategy_name stock_code nm eng cfg self md Hp Hcp.
  assert (Hraise : fst (MeanReversionStrategy.should_buy stock_code md self)
                   = Raise ZeroDivisionError).
  { unfold MeanReversionStrategy.should_buy.
    destruct (Py.leb (current_price md) 0) eqn:Hle.
    { apply Qle_bool_iff in Hle. exfalso. lra. }
    cbn [MeanReversionStrategy.price_history MeanReversionStrategy.period
         MeanReversionStrategy.set_price_history].
    rewrite Hp. reflexivity. }
  split; [exact Hraise|].
  intros Hget Hmd. unfold StrategyEngine.execute_strategy.
  rewrite Hget. cbn [BaseStrategy.is_active negb BaseStrategy.class
                     BaseStrategy._initialize_price_history
                     MeanReversion_class].
  rewrite Hmd. unfold BaseStrategy.on_buy_signal.
  cbn [BaseStrategy.class BaseStrategy.self BaseStrategy.should_buy
       MeanReversion_class].
  destruct (MeanReversionStrategy.should_buy stock_code md self) as [r s1].
  simpl in Hraise. subst r. reflexivity.
Qed.

(** Witness of X3. *)
Lemma mean_reversion_period_zero_raises :
  fst (MeanReversionStrategy.should_buy "005930" (snapshot 80 1000)
         (MeanReversionStrategy.init (config_with_period 0)))
  = Raise ZeroDivisionError.
Proof.
  apply (proj1 (mean_reversion_period_zero (quoting 80) "A" "005930" "A"
                  StrategyEngine.init empty_config
                  (MeanReversionStrategy.init (config_with_period 0))
                  (snapshot 80 1000) ltac:(reflexivity) ltac:(reflexivity))).
Defined.

(** ** Momentum *)

Lemma nth_from_end_ok (k : nat) (xs : list Q) :
  (0 < k)%nat -> (k <= length xs)%nat ->
  exists x, Py.nth_from_end k xs = Ok x.
Proof.
  intros Hk Hlen. unfold Py.nth_from_end.
  destruct (Nat.ltb (length xs) k) eqn:E; [apply Nat.ltb_lt in E; lia|].
  destruct (xs !! (length xs - k)%nat) as [x|] eqn:Hx; [eauto|].
  apply lookup_ge_None in Hx. lia.
Qed.



(** ** Crossover: buy and sell *)

(** X5 — When the crossover [should_buy] has answered True, [should_sell]
    on the state it left answers False for every snapshot, and leaves the
    state as it is: a golden cross and a dead cross are never reported
    for the same history. *)
Theorem crossover_buy_excludes_sell :
  forall (stock_code stock_code' : string) (md md' : market_data)
         (self self1 : MovingAverageCrossoverStrategy.t),
    MovingAverageCrossoverStrategy.should_buy stock_code md self
    = (Ok true, self1) ->
    MovingAverageCrossoverStrategy.should_sell stock_code' md' self1
    = (Ok false, self1).
Proof.
  intros stock_code stock_code' md md' self self1.
  unfold MovingAverageCrossoverStrategy.should_buy,
    MovingAverageCrossoverStrategy.should_sell.
  destruct (Py.leb (current_price md) 0); [discriminate|].
  set (s1 := MovingAverageCrossoverStrategy.set_price_history _ self).
  destruct (Nat.ltb _ _) eqn:Hlen; [discriminate|].
  intros H. injection H as Hr <-.
  destruct (Py.leb (current_price md') 0); [reflexivity|].
  rewrite Hlen.
  destruct (MovingAverageCrossoverStrategy.averages s1)
    as [[[[short_ma long_ma] prev_short] prev_long]|e]; [|discriminate].
  cbn [Py.bind] in *. injection Hr as Hr.
  apply andb_true_iff in Hr. destruct Hr as [Hgt _].
  apply ltb_lt in Hgt.
  assert (Hn : Py.ltb short_ma long_ma = false) by (apply ltb_ge; lra).
  rewrite Hn. reflexivity.
Qed.

(** Witness of X5: after the rise 1, 2 the crossover with periods 1 and 2
    buys, and does not sell. *)
Lemma crossover_buy_then_no_sell :
  MovingAverageCrossoverStrategy.should_sell "005930" (snapshot 2 1000)
    (snd (MovingAverageCrossoverStrategy.should_buy "005930" (snapshot 2 1000)
            (MovingAverageCrossoverStrategy.set_price_history [1]
               (MovingAverageCrossoverStrategy.init (crossover_config 1 2)))))
  = (Ok false,
     snd (MovingAverageCrossoverStrategy.should_buy "005930" (snapshot 2 1000)
            (MovingAverageCrossoverStrategy.set_price_history [1]
               (MovingAverageCrossoverStrategy.init (crossover_config 1 2))))).
Proof.
  apply (crossover_buy_excludes_sell "005930" "005930"
           (snapshot 2 1000) (snapshot 2 1000)
           (MovingAverageCrossoverStrategy.set_price_history [1]
              (MovingAverageCrossoverStrategy.init (crossover_config 1 2)))).
  vm_compute. reflexivity.
Defined.

(** ** RSI: histories per symbol *)

(** X6 — [_initialize_price_history] is idempotent per symbol: a symbol
    already initialized is left untouched whatever the chart, also by a
    second call after a first one that succeeded.  For a symbol not yet
    initialized, a chart with at least [period + 1] positive closes
    replaces its history by those closes, oldest first, and marks it
    initialized; an exception or too few closes leave the strategy as it
    was.  The histories of the other symbols are never touched. *)
Theorem rsi_initialization :
  forall (stock_code : string) (chart chart' : exc (list Q))
         (self : RSIStrategy.t),
    let s1 := RSIStrategy._initialize_price_history stock_code chart self in
    (stock_code ∈ RSIStrategy._initialized_stocks self -> s1 = self)
    /\ (stock_code ∈ RSIStrategy._initialized_stocks s1 ->
        RSIStrategy._initialize_price_history stock_code chart' s1 = s1)
    /\ (stock_code ∉ RSIStrategy._initialized_stocks self ->
        match chart with
        | Ok closes =>
            let prices := List.filter (fun c => Py.ltb 0 c) (rev closes) in
            if Nat.leb (RSIStrategy.period self + 1) (length prices)
            then stock_code ∈ RSIStrategy._initialized_stocks s1
                 /\ RSIStrategy._price_history_by_stock s1 !! stock_code
                    = Some prices
            else s1 = self
        | Raise _ => s1 = self
        end)
    /\ (forall other : string,
          other <> stock_code ->
          RSIStrategy._price_history_by_stock s1 !! other
          = RSIStrategy._price_history_by_stock self !! other).
Proof.
  intros stock_code chart chart' self s1.
  assert (Hidem : forall s, stock_code ∈ RSIStrategy._initialized_stocks s ->
                            RSIStrategy._initialize_price_history
                              stock_code chart' s = s).
  { intros s Hs. unfold RSIStrategy._initialize_price_history.
    rewrite decide_True by assumption. reflexivity. }
  assert (Hsame : s1 = self ->
                  forall other : string,
                    other <> stock_code ->
                    RSIStrategy._price_history_by_stock s1 !! other
                    = RSIStrategy._price_history_by_stock self !! other)
    by (intros -> other _; reflexivity).
  destruct (decide (stock_code ∈ RSIStrategy._initialized_stocks self))
    as [Hin|Hnot].
  - assert (E : s1 = self).
    { subst s1. unfold RSIStrategy._initialize_price_history.
      rewrite decide_True by assumption. reflexivity. }
    split; [auto|]. split; [apply Hidem|]. split; [intros; contradiction|auto].
  - split; [intros; contradiction|]. split; [apply Hidem|].
    destruct chart as [closes|e].
    + cbv zeta.
      destruct (Nat.leb (RSIStrategy.period self + 1)
                  (length (List.filter (fun c => Py.ltb 0 c) (rev closes))))
        eqn:Hl.
      * assert (E : s1 = RSIStrategy.mark_initialized stock_code
                         (RSIStrategy.set_history stock_code
                            (List.filter (fun c => Py.ltb 0 c) (rev closes))
                            self)).
        { subst s1. unfold RSIStrategy._initialize_price_history.
          rewrite decide_False by assumption. rewrite Hl. reflexivity. }
        rewrite E. split.
        -- intros _. split; [simpl; set_solver|simpl; apply lookup_insert_eq].
        -- intros other Hother. simpl. apply lookup_insert_ne. congruence.
      * assert (E : s1 = self).
        { subst s1. unfold RSIStrategy._initialize_price_history.
          rewrite decide_False by assumption. rewrite Hl. reflexivity. }
        split; auto.
    + assert (E : s1 = self).
      { subst s1. unfold RSIStrategy._initialize_price_history.
        rewrite decide_False by assumption. reflexivity. }
      split; auto.
Qed.

(** X7 — The RSI [should_buy] with a positive period raises nothing; it
    appends a positive quote to the history of the evaluated symbol alone,
    under the bound of twice the period, and touches neither the history
    of any other symbol nor the set of initialized symbols. *)
Theorem rsi_should_buy_per_symbol :
  forall (stock_code : string) (md : market_data) (self : RSIStrategy.t),
    (0 < RSIStrategy.period self)%nat ->
    let s1 := snd (RSIStrategy.should_buy stock_code md self) in
    (exists b, fst (RSIStrategy.should_buy stock_code md self) = Ok b)
    /\ (forall other : string,
          other <> stock_code ->
          RSIStrategy._price_history_by_stock s1 !! other
          = RSIStrategy._price_history_by_stock self !! other)
    /\ RSIStrategy._initialized_stocks s1 = RSIStrategy._initialized_stocks self
    /\ (0 < current_price md ->
        RSIStrategy._price_history_by_stock s1 !! stock_code
        = Some (Py.append_bounded (RSIStrategy.period self * 2)
                  (default [] (RSIStrategy._price_history_by_stock self
                                 !! stock_code))
                  (current_price md)))
    /\ (current_price md <= 0 -> s1 = self).
Proof.
  intros stock_code md self Hp s1. subst s1.
  unfold RSIStrategy.should_buy.
  destruct (Py.leb (current_price md) 0) eqn:Hle.
  - apply Qle_bool_iff in Hle. cbn [fst snd].
    repeat split; eauto. intros H. exfalso. lra.
  - assert (Hpos : ~ current_price md <= 0).
    { intros H. apply Qle_bool_iff in H. unfold Py.leb in Hle. congruence. }
    cbv zeta. set (pl := Py.append_bounded _ _ _).
    set (s1 := RSIStrategy.set_history stock_code pl self).
    assert (Hs1 : snd (if Nat.ltb (length pl) (RSIStrategy.period self + 1)
                       then (Ok false, s1)
                       else (let* rsi := RSIStrategy.calculate_rsi s1 pl in
                             Ok (Py.ltb rsi (RSIStrategy.oversold s1)), s1))
                  = s1)
      by (destruct (Nat.ltb _ _); reflexivity).
    rewrite Hs1. split.
    + destruct (Nat.ltb _ _); cbn [fst]; [eauto|].
      destruct (rsi_in_range s1 pl Hp) as (r & -> & _). cbn [Py.bind]. eauto.
    + split; [|split; [reflexivity|split]].
      * intros other Hother. simpl. apply lookup_insert_ne. congruence.
      * intros _. simpl. apply lookup_insert_eq.
      * intros H. contradiction.
Qed.

(** Witness of X7. *)
Lemma rsi_should_buy_first_quote :
  exists b,
    fst (RSIStrategy.should_buy "005930" (snapshot 80 1000)
           (RSIStrategy.init empty_config)) = Ok b.
Proof.
  apply (proj1 (rsi_should_buy_per_symbol "005930" (snapshot 80 1000)
                  (RSIStrategy.init empty_config) ltac:(simpl; lia))).
Defined.

(** ** Engine: registry *)

(** X8 — [register_strategy] validates first: a strategy whose
    configuration is rejected raises ValueError and leaves the engine as
    it was; an accepted one is then found under its name, and every other
    name resolves as before. *)
Theorem register_strategy_validates :
  forall (strategy : BaseStrategy.t) (eng : StrategyEngine.t),
    let valid :=
      BaseStrategy.validate_config (BaseStrategy.class strategy)
        (BaseStrategy.config strategy) (BaseStrategy.self strategy) in
    let r := StrategyEngine.register_strategy strategy eng in
    (valid = false -> (exists msg, fst r = Raise (ValueError msg)) /\ snd r = eng)
    /\ (valid = true ->
        fst r = Ok tt
        /\ StrategyEngine.get_strategy (BaseStrategy.name strategy) (snd r)
           = Some strategy
        /\ StrategyEngine.is_running (snd r) = StrategyEngine.is_running eng
        /\ forall other : string,
             other <> BaseStrategy.name strategy ->
             StrategyEngine.get_strategy other (snd r)
             = StrategyEngine.get_strategy other eng).
Proof.
  intros strategy eng valid r. subst valid r.
  unfold StrategyEngine.register_strategy.
  destruct (BaseStrategy.validate_config _ _ _); simpl.
  - split; [discriminate|]. intros _. repeat split.
    + unfold StrategyEngine.get_strategy. simpl. apply lookup_insert_eq.
    + intros other Hother. unfold StrategyEngine.get_strategy. simpl.
      apply lookup_insert_ne. congruence.
  - split; [|discriminate]. intros _. split; [eauto|reflexivity].
Qed.

(** Witness of X8: the mean-reversion class accepts every configuration. *)
Lemma register_then_get :
  StrategyEngine.get_strategy "A"
    (snd (StrategyEngine.register_strategy
            (activated "A" (config_with_period 2)) StrategyEngine.init))
  = Some (activated "A" (config_with_period 2)).
Proof.
  apply (proj2 (register_strategy_validates
                  (activated "A" (config_with_period 2))
                  StrategyEngine.init) ltac:(reflexivity)).
Defined.

(** X9 — [unregister_strategy] removes the name and nothing else; on a
    name that is not registered it changes nothing; and unregistering a
    strategy just registered under a new name gives back the registry as
    it was. *)
Theorem unregister_strategy_removes :
  forall (strategy_name : string) (strategy : BaseStrategy.t)
         (eng : StrategyEngine.t),
    StrategyEngine.get_strategy strategy_name
      (StrategyEngine.unregister_strategy strategy_name eng) = None
    /\ (forall other : string,
          other <> strategy_name ->
          StrategyEngine.get_strategy other
            (StrategyEngine.unregister_strategy strategy_name eng)
          = StrategyEngine.get_strategy other eng)
    /\ (StrategyEngine.get_strategy strategy_name eng = None ->
        StrategyEngine.unregister_strategy strategy_name eng = eng)
    /\ (StrategyEngine.get_strategy (BaseStrategy.name strategy) eng = None ->
        fst (StrategyEngine.register_strategy strategy eng) = Ok tt ->
        StrategyEngine.unregister_strategy (BaseStrategy.name strategy)
          (snd (StrategyEngine.register_strategy strategy eng))
        = eng).
Proof.
  intros strategy_name strategy eng.
  unfold StrategyEngine.unregister_strategy, StrategyEngine.get_strategy,
    StrategyEngine.set_strategies.
  repeat split.
  - simpl. apply lookup_delete_eq.
  - intros other Hother. simpl. apply lookup_delete_ne. congruence.
  - intros Hnone. rewrite delete_id by assumption. destruct eng; reflexivity.
  - intros Hnone. unfold StrategyEngine.register_strategy.
    destruct (negb _); simpl; [discriminate|]. intros _.
    rewrite delete_insert_id by assumption. destruct eng; reflexivity.
Qed.

(** Witness of X9. *)
Lemma register_then_unregister :
  StrategyEngine.unregister_strategy "A"
    (snd (StrategyEngine.register_strategy
            (activated "A" (config_with_period 2)) StrategyEngine.init))
  = StrategyEngine.init.
Proof.
  apply (proj2 (proj2 (proj2 (unregister_strategy_removes "A"
                                (activated "A" (config_with_period 2))
                                StrategyEngine.init)))
           ltac:(reflexivity) ltac:(reflexivity)).
Defined.

(** ** Engine: evaluation *)

Lemma store_other (strategy_name other : string) (o : BaseStrategy.t)
    (eng : StrategyEngine.t) :
  other <> strategy_name ->
  StrategyEngine.get_strategy other (StrategyEngine.store strategy_name o eng)
  = StrategyEngine.get_strategy other eng.
Proof.
  intros H. unfold StrategyEngine.get_strategy, StrategyEngine.store. simpl.
  apply lookup_insert_ne. congruence.
Qed.

(** X10 — [execute_strategy] on a name that is not registered, or on a
    strategy that is not active, returns no signal and leaves the engine
    as it was; in every case it leaves every other registered strategy
    and the running flag untouched. *)
Theorem execute_strategy_is_local :
  forall (w : broker) (strategy_name stock_code : string)
         (eng : StrategyEngine.t),
    let r := StrategyEngine.execute_strategy w strategy_name stock_code eng in
    (StrategyEngine.get_strategy strategy_name eng = None -> r = (None, eng))
    /\ (forall o, StrategyEngine.get_strategy strategy_name eng = Some o ->
                  BaseStrategy.is_active o = false -> r = (None, eng))
    /\ (forall other : string,
          other <> strategy_name ->
          StrategyEngine.get_strategy other (snd r)
          = StrategyEngine.get_strategy other eng)
    /\ StrategyEngine.is_running (snd r) = StrategyEngine.is_running eng.
Proof.
  intros w strategy_name stock_code eng r. subst r.
  unfold StrategyEngine.execute_strategy.
  destruct (StrategyEngine.get_strategy strategy_name eng) as [strategy|].
  2:{ repeat split; intros; congruence. }
  destruct (BaseStrategy.is_active strategy) eqn:Hact; simpl.
  2:{ repeat split; intros; congruence. }
  set (o1 := match BaseStrategy._initialize_price_history _ with
             | Some f => _
             | None => _
             end).
  clearbody o1.
  split; [discriminate|]. split; [intros o [= <-]; congruence|].
  destruct (get_market_data w stock_code) as [md|];
    [|split; [intros; apply store_other; assumption|reflexivity]].
  destruct (BaseStrategy.on_buy_signal o1 stock_code md) as [rb o2].
  destruct rb as [[buy_signal|]|e];
    try (split; [intros; apply store_other; assumption|reflexivity]).
  destruct (BaseStrategy.on_sell_signal o2 stock_code md 0) as [rs o3].
  destruct rs as [sell_signal|e];
    split; try reflexivity; intros; apply store_other; assumption.
Qed.

Lemma on_buy_signal_shape (o : BaseStrategy.t) (stock_code : string)
    (md : market_data) (s : signal) :
  fst (BaseStrategy.on_buy_signal o stock_code md) = Ok (Some s) ->
  sig_stock_code s = stock_code
  /\ (0 < sig_quantity s)%Z
  /\ sig_order_type s
     = default "00"%string (cfg_order_type (BaseStrategy.config o))
  /\ 0 < current_price md.
Proof.
  unfold BaseStrategy.on_buy_signal.
  destruct (BaseStrategy.should_buy _ _ _ _) as [[[|]|e] s1]; simpl;
    try discriminate.
  destruct (Py.leb (current_price md) 0) eqn:Hle; simpl; [discriminate|].
  destruct (BaseStrategy.calculate_buy_quantity _ _ _ _ _ _) as [q|e];
    simpl; [|discriminate].
  destruct (BaseStrategy.calculate_buy_price _ _ _ _) as [pr|e];
    simpl; [|discriminate].
  destruct (q <=? 0)%Z eqn:Hq; simpl; [discriminate|].
  intros H. injection H as <-. simpl.
  apply Z.leb_gt in Hq. apply ltb_ge in Hle || idtac.
  repeat split; try assumption.
  unfold Py.leb in Hle. apply Qnot_le_lt. intros Hc.
  apply Qle_bool_iff in Hc. congruence.
Qed.

(** X11 — Every signal [execute_strategy] returns is for the symbol that
    was asked, carries a quantity of at least 1 and the order type of the
    strategy's configuration (["00"] when it has none), comes from a
    registered, active strategy, and was produced from a snapshot with a
    positive price. *)
Theorem execute_strategy_signal_shape :
  forall (w : broker) (strategy_name stock_code : string)
         (eng : StrategyEngine.t) (s : signal),
    fst (StrategyEngine.execute_strategy w strategy_name stock_code eng)
    = Some s ->
    sig_stock_code s = stock_code
    /\ (1 <= sig_quantity s)%Z
    /\ (exists o,
          StrategyEngine.get_strategy strategy_name eng = Some o
          /\ BaseStrategy.is_active o = true
          /\ sig_order_type s
             = default "00"%string (cfg_order_type (BaseStrategy.config o)))
    /\ (exists md, get_market_data w stock_code = Some md
                   /\ 0 < current_price md).
Proof.
  intros w strategy_name stock_code eng s.
  unfold StrategyEngine.execute_strategy.
  destruct (StrategyEngine.get_strategy strategy_name eng) as [strategy|];
    [|discriminate].
  destruct (BaseStrategy.is_active strategy) eqn:Hact; simpl; [|discriminate].
  set (o1 := match BaseStrategy._initialize_price_history _ with
             | Some f => _
             | None => _
             end).
  assert (Hcfg : BaseStrategy.config o1 = BaseStrategy.config strategy).
  { subst o1. destruct (BaseStrategy._initialize_price_history _); reflexivity. }
  clearbody o1.
  destruct (get_market_data w stock_code) as [md|]; [|discriminate].
  destruct (BaseStrategy.on_buy_signal o1 stock_code md) as [rb o2] eqn:Hbuy.
  destruct rb as [[buy_signal|]|e]; simpl; try discriminate.
  - intros H. injection H as <-.
    destruct (on_buy_signal_shape o1 stock_code md buy_signal)
      as (Hc & Hq & Ht & Hp); [rewrite Hbuy; reflexivity|].
    split; [exact Hc|]. split; [lia|]. split.
    + exists strategy. rewrite <- Hcfg. auto.
    + exists md. auto.
  - destruct (BaseStrategy.on_sell_signal o2 stock_code md 0)
      as [rs o3] eqn:Hsell.
    destruct rs as [[sell_signal|]|e]; simpl; try discriminate.
    exfalso.
    apply (on_sell_signal_without_holding o2 stock_code md 0 sell_signal);
      [lia|].
    rewrite Hsell. reflexivity.
Qed.

(** Witness of X11: the signal of strategy "A" at 80. *)
Lemma signal_A_shape :
  sig_stock_code signal_A = "005930"%string /\ (1 <= sig_quantity signal_A)%Z.
Proof.
  destruct (execute_strategy_signal_shape (quoting 80) "A" "005930"
              (snd (StrategyEngine.execute_strategy (quoting 100)
                      "A" "005930" two_strategies))
              signal_A ltac:(vm_compute; reflexivity)) as (H1 & H2 & _).
  split; assumption.
Defined.

(** ** Scheduler: the cycle *)

Lemma executed_signal_is_buy (w : broker) (strategy_name stock_code : string)
    (eng : StrategyEngine.t) (s : signal) :
  fst (StrategyEngine.execute_strategy w strategy_name stock_code eng) = Some s ->
  sig_action s = BUY.
Proof.
  unfold StrategyEngine.execute_strategy.
  destruct (StrategyEngine.get_strategy _ _) as [strategy|]; [|discriminate].
  destruct (negb _); [discriminate|].
  set (o1 := match BaseStrategy._initialize_price_history _ with
             | Some f => _
             | None => _
             end).
  clearbody o1.
  destruct (get_market_data w stock_code) as [md|]; [|discriminate].
  destruct (BaseStrategy.on_buy_signal o1 stock_code md) as [rb o2] eqn:Hbuy.
  destruct rb as [[buy_signal|]|e]; simpl; try discriminate.
  - intros H. injection H as <-.
    apply (on_buy_signal_action o1 stock_code md). rewrite Hbuy. reflexivity.
  - destruct (BaseStrategy.on_sell_signal o2 stock_code md 0)
      as [rs o3] eqn:Hsell.
    destruct rs as [[sell_signal|]|e]; simpl; try discriminate.
    exfalso.
    apply (on_sell_signal_without_holding o2 stock_code md 0 sell_signal);
      [lia|].
    rewrite Hsell. reflexivity.
Qed.

Lemma run_strategy_appends_buys (w : broker) (strategy_name : string)
    (stock_codes : list string) (c : AutoTradingScheduler.cycle) :
  let c' := AutoTradingScheduler.run_strategy w strategy_name stock_codes c in
  AutoTradingScheduler.orders c' = AutoTradingScheduler.orders c
  /\ exists new,
       AutoTradingScheduler.all_signals c'
       = AutoTradingScheduler.all_signals c ++ new
       /\ Forall (fun s => sig_action s = BUY) new.
Proof.
  revert c. induction stock_codes as [|stock_code rest IH]; intros c; simpl.
  - split; [reflexivity|]. exists []. rewrite app_nil_r. auto.
  - destruct (StrategyEngine.execute_strategy w strategy_name stock_code _)
      as [sg eng1] eqn:Hex.
    match goal with
    | |- context [AutoTradingScheduler.run_strategy _ _ _ ?c1] =>
        destruct (IH c1) as [Ho [new [Hs Hb]]]
    end.
    simpl in Ho, Hs. split; [exact Ho|].
    rewrite Hs. destruct sg as [s|].
    + exists (s :: new). rewrite <- app_assoc. split; [reflexivity|].
      constructor; [|exact Hb].
      apply (executed_signal_is_buy w strategy_name stock_code
               (AutoTradingScheduler.engine c)).
      rewrite Hex. reflexivity.
    + exists new. auto.
Qed.

Lemma strategy_step_keeps_cycle_ok
    (create_strategy : string -> config -> exc BaseStrategy.t)
    (watchlist : list string) (w : broker)
    (c : AutoTradingScheduler.cycle) (strategy : Strategy) :
  cycle_ok c ->
  cycle_ok (AutoTradingScheduler.strategy_step create_strategy watchlist w c
              strategy).
Proof.
  intros [Hio Hb]. unfold AutoTradingScheduler.strategy_step.
  destruct (AutoTradingScheduler.select_stock_codes _ _ _)
    as [[|stock_code rest]|]; try (split; assumption).
  destruct (AutoTradingScheduler.ensure_registered _ _ _) as [eng1|];
    [|split; assumption].
  match goal with
  | |- context [AutoTradingScheduler.run_strategy ?w ?n ?l ?c1] =>
      destruct (run_strategy_appends_buys w n l c1) as [Ho [new [Hs Hn]]]
  end.
  simpl in Ho, Hs.
  unfold cycle_ok, AutoTradingScheduler.submit_orders. simpl.
  rewrite Ho, Hs. split.
  - intros s. rewrite !in_app_iff, Hio. tauto.
  - apply Forall_app. split; assumption.
Qed.

(** X12 — In every cycle, whatever the rows, the watchlist and the
    brokerage's answers: every order passed to [place_order] is one of
    the signals the cycle collected and every collected signal is passed
    at least once; every order is a BUY order; a cycle that collects no
    signal places no order; and with the market closed nothing is
    evaluated, collected or ordered and the engine is left as it was. *)
Theorem cycle_orders_are_collected_buy_signals :
  forall (create_strategy : string -> config -> exc BaseStrategy.t)
         (watchlist : list string) (w : broker) (market_status : bool)
         (rows : list Strategy) (eng : StrategyEngine.t),
    let c := AutoTradingScheduler._execute_auto_trading create_strategy
               watchlist w market_status rows eng in
    (forall s, In s (AutoTradingScheduler.orders c)
               <-> In s (AutoTradingScheduler.all_signals c))
    /\ Forall (fun s => sig_action s = BUY) (AutoTradingScheduler.orders c)
    /\ (AutoTradingScheduler.all_signals c = [] ->
        AutoTradingScheduler.orders c = [])
    /\ (market_status = false ->
        AutoTradingScheduler.all_signals c = []
        /\ AutoTradingScheduler.orders c = []
        /\ AutoTradingScheduler.engine c = eng).
Proof.
  intros create_strategy watchlist w market_status rows eng c.
  assert (Hok : cycle_ok c).
  { subst c. unfold AutoTradingScheduler._execute_auto_trading.
    destruct (negb market_status).
    - split; [intros s; simpl; tauto|constructor].
    - generalize (List.filter row_is_active rows). intros l.
      assert (H0 : cycle_ok {| AutoTradingScheduler.all_signals := [];
                               AutoTradingScheduler.orders := [];
                               AutoTradingScheduler.engine := eng |})
        by (split; [intros s; simpl; tauto|constructor]).
      revert H0. generalize {| AutoTradingScheduler.all_signals := [];
                               AutoTradingScheduler.orders := [];
                               AutoTradingScheduler.engine := eng |}.
      induction l as [|row l IH]; intros c0 H0; simpl; [exact H0|].
      apply IH, strategy_step_keeps_cycle_ok, H0. }
  destruct Hok as [Hio Hb]. split; [exact Hio|]. split.
  - apply Forall_forall. intros s Hs. rewrite Forall_forall in Hb.
    apply Hb, list_elem_of_In, Hio, list_elem_of_In, Hs.
  - split.
    + intros Hnil. destruct (AutoTradingScheduler.orders c) as [|s l] eqn:E;
        [reflexivity|].
      exfalso. assert (Hin : In s (s :: l)) by (left; reflexivity).
      apply Hio in Hin. rewrite Hnil in Hin. exact Hin.
    + intros ->. subst c. simpl. auto.
Qed.

(** ** Scheduler: start, stop, update *)







(** A rejected [update_schedule] on a running scheduler: the call raises,
    the job keeps its trigger, and the rejected interval is the one that
    is stored and reported. *)
Lemma rejected_update_is_reported :
  let self :=
    run_commands APScheduler.timedelta_in_range
      [Start 60 "interval"; Update 86400000000000 "interval"]
      AutoTradingScheduler.init in
  fst (fst (AutoTradingScheduler.update_schedule
              APScheduler.timedelta_in_range 86400000000000 "interval"
              (run_commands APScheduler.timedelta_in_range
                 [Start 60 "interval"] AutoTradingScheduler.init)))
  = Raise OverflowError
  /\ get_status self = (true, Some 86400000000000%Z, Some "interval"%string)
  /\ option_map (fun sched => map APScheduler.job_trigger
                                (APScheduler.jobs sched))
       (AutoTradingScheduler.scheduler self)
     = Some [APScheduler.IntervalTrigger 60].
Proof.
  vm_compute. repeat split.
Qed.

(** ** Stock selection *)

(** The ranking calls of the cycle never reach the client: each passes a
    keyword that the method does not declare. *)
Lemma rank_call_raises (w : broker) (ranking_type : string) :
  AutoTradingScheduler.rank_call w ranking_type = Raise TypeError.
Proof.
  unfold AutoTradingScheduler.rank_call, AutoTradingScheduler.rank_parameters,
    AutoTradingScheduler.rank_keywords.
  destruct (String.eqb ranking_type "market_cap");
    destruct (String.eqb ranking_type "volume");
    destruct (String.eqb ranking_type "fluctuation"); reflexivity.
Qed.

(** X15 — The stock codes the cycle evaluates for a strategy row: the
    watchlist in watchlist mode; in the auto and ranking modes the row is
    always skipped, whatever the brokerage would answer, because the
    ranking call passes keywords ([fid_cond_mrkt_div_code] and the like)
    that the client method does not declare, and the [TypeError] is
    logged; no code in any other mode. *)
Theorem select_stock_codes_bounds :
  forall (watchlist : list string) (w : broker) (strategy : Strategy),
    let r := AutoTradingScheduler.select_stock_codes watchlist w strategy in
    let mode := stock_selection_mode strategy in
    (mode = "watchlist"%string -> r = Some watchlist)
    /\ (mode = "auto"%string \/ mode = "ranking"%string -> r = None)
    /\ (mode <> "watchlist"%string -> mode <> "auto"%string ->
        mode <> "ranking"%string -> r = Some []).
Proof.
  intros watchlist w strategy r mode. subst r mode.
  unfold AutoTradingScheduler.select_stock_codes.
  rewrite rank_call_raises.
  destruct (String.eqb_spec (stock_selection_mode strategy) "watchlist")
    as [Hw|Hw].
  - rewrite Hw. split; [reflexivity|]. split; [|congruence].
    intros [H|H]; discriminate.
  - split; [congruence|].
    destruct (String.eqb_spec (stock_selection_mode strategy) "auto")
      as [Ha|Ha];
      destruct (String.eqb_spec (stock_selection_mode strategy) "ranking")
        as [Hr|Hr]; simpl; try congruence.
    + split; [|congruence]. intros _. destruct (_ || _ || _); reflexivity.
    + split; [|congruence]. intros _. destruct (_ || _ || _); reflexivity.
    + split; [intros [H|H]; congruence|]. reflexivity.
Qed.

(** Witness of X15: a row in ranking mode is skipped. *)
Lemma ranking_row_is_skipped :
  AutoTradingScheduler.select_stock_codes ["005930"%string] (quoting 80)
    {| row_name := "A"; strategy_type := "momentum"; row_is_active := true;
       row_config := None; stock_selection_mode := "ranking";
       row_auto_selection_config := None |}
  = None.
Proof.
  apply (proj1 (proj2 (select_stock_codes_bounds ["005930"%string]
                         (quoting 80)
                         {| row_name := "A"; strategy_type := "momentum";
                            row_is_active := true; row_config := None;
                            stock_selection_mode := "ranking";
                            row_auto_selection_config := None |}))).
  right. reflexivity.
Defined.

(** ** Universe selection *)




(** ** Account number *)

Lemma str_take_length (n : nat) (s : string) :
  String.length (Account.str_take n s) = Nat.min n (String.length s).
Proof.
  revert s. induction n as [|n IH]; intros [|c s]; simpl; auto.
Qed.

Lemma str_drop_length (n : nat) (s : string) :
  String.length (Account.str_drop n s) = (String.length s - n)%nat.
Proof.
  revert s. induction n as [|n IH]; intros [|c s]; simpl; auto.
Qed.

Lemma str_take_drop (n : nat) (s : string) :
  (Account.str_take n s ++ Account.str_drop n s)%string = s.
Proof.
  revert s. induction n as [|n IH]; intros [|c s]; simpl; auto.
  change (String c (Account.str_take n s ++ Account.str_drop n s)%string
          = String c s).
  f_equal. apply IH.
Qed.

Lemma str_app_length (a b : string) :
  String.length (a ++ b) = (String.length a + String.length b)%nat.
Proof.
  induction a as [|c a IH]; [reflexivity|].
  change (S (String.length (a ++ b)) = S (String.length a + String.length b)).
  f_equal. exact IH.
Qed.

Lemma zeros_length (n : nat) : String.length (Account.zeros n) = n.
Proof.
  induction n as [|n IH]; simpl; auto.
Qed.

Lemma zfill_length (width : nat) (s : string) :
  String.length (Account.zfill width s) = Nat.max width (String.length s).
Proof.
  unfold Account.zfill.
  destruct (Nat.leb width (String.length s)) eqn:E.
  - apply Nat.leb_le in E. lia.
  - apply Nat.leb_gt in E. destruct s as [|c rest].
    + rewrite zeros_length. simpl in *. lia.
    + destruct (_ || _); simpl; rewrite str_app_length, zeros_length;
        simpl in *; lia.
Qed.

(** X17 — Whatever the configured account number and product code,
    [_parse_account_no] yields a CANO of exactly 8 characters and a
    product code of exactly 2; and for an account number of 10 characters
    (after stripping) the two parts put together are that number. *)
Theorem parse_account_no_lengths :
  forall account_no account_product_cd : string,
    let r := Account._parse_account_no account_no account_product_cd in
    String.length (fst r) = 8%nat
    /\ String.length (snd r) = 2%nat
    /\ (String.length (Account.strip account_no) = 10%nat ->
        (fst r ++ snd r)%string = Account.strip account_no).
Proof.
  intros account_no account_product_cd r. subst r.
  unfold Account._parse_account_no.
  set (a := Account.strip account_no).
  destruct (Nat.eqb (String.length a) 10) eqn:E10.
  - apply Nat.eqb_eq in E10. cbn [fst snd].
    rewrite str_take_length, str_drop_length, E10.
    repeat split. intros _. apply str_take_drop.
  - apply Nat.eqb_neq in E10.
    destruct (Nat.ltb (String.length a) 10) eqn:Elt; cbn [fst snd].
    + rewrite !str_take_length, !zfill_length.
      apply Nat.ltb_lt in Elt. repeat split; try lia.
    + apply Nat.ltb_ge in Elt.
      rewrite !str_take_length, str_drop_length.
      repeat split; lia.
Qed.

(** ** Market hours *)

Lemma weekday_range (d : Z) : (0 <= MarketTime.weekday d < 7)%Z.
Proof.
  unfold MarketTime.weekday. apply Z.mod_pos_bound. lia.
Qed.

Lemma skip_weekend_lands_on_weekday (d : Z) :
  (MarketTime.weekday (MarketTime.skip_weekend 7 d) < 5)%Z.
Proof.
  unfold MarketTime.skip_weekend.
  repeat match goal with
         | |- context [(5 <=? MarketTime.weekday ?x)%Z] =>
             destruct (Z.leb_spec 5 (MarketTime.weekday x))
         end;
    unfold MarketTime.weekday in *;
    try lia; exfalso; Z.to_euclidean_division_equations; lia.
Qed.

Lemma skip_weekend_first (turns : nat) (d0 d : Z) :
  (d0 <= d)%Z -> (MarketTime.weekday d < 5)%Z ->
  (d0 <= MarketTime.skip_weekend turns d0 <= d)%Z.
Proof.
  revert d0. induction turns as [|turns IH]; intros d0 Hle Hwd; simpl; [lia|].
  destruct (Z.leb_spec 5 (MarketTime.weekday d0)) as [Hwe|Hwk]; [|lia].
  assert (d0 <> d) by (intros ->; lia).
  specialize (IH (d0 + 1)%Z ltac:(lia) Hwd). lia.
Qed.

Lemma skip_weekend_ge (turns : nat) (d0 : Z) :
  (d0 <= MarketTime.skip_weekend turns d0)%Z.
Proof.
  revert d0. induction turns as [|turns IH]; intros d0; simpl; [lia|].
  destruct (5 <=? MarketTime.weekday d0)%Z; [|lia].
  specialize (IH (d0 + 1)%Z). lia.
Qed.

(** X18 — [get_next_market_open_time] returns the first opening after the
    given time: its result is 09:00 on a weekday, a time at which
    [is_market_open] holds; it is strictly later than the given time, also
    when the market is open at that time; and no weekday 09:00 lies
    strictly between the two. *)
Theorem next_market_open_is_first_opening :
  forall current_time : MarketTime.datetime,
    let next := MarketTime.get_next_market_open_time current_time in
    MarketTime.clock next = MarketTime.at_time 9 0
    /\ (MarketTime.weekday (MarketTime.ordinal next) < 5)%Z
    /\ MarketTime.is_market_open next = true
    /\ MarketTime.datetime_ltb current_time next = true
    /\ (forall d : Z,
          (MarketTime.weekday d < 5)%Z ->
          MarketTime.datetime_ltb current_time (opening d) = true ->
          (MarketTime.ordinal next <= d)%Z).
Proof.
  intros current_time next. subst next.
  unfold MarketTime.get_next_market_open_time.
  set (d0 := if MarketTime.time_leb _ _ then _ else _).
  cbn [MarketTime.clock MarketTime.ordinal].
  pose proof (skip_weekend_lands_on_weekday d0) as Hwd.
  pose proof (skip_weekend_ge 7 d0) as Hge.
  split; [reflexivity|]. split; [exact Hwd|]. split.
  { unfold MarketTime.is_market_open. cbn [MarketTime.clock MarketTime.ordinal].
    destruct (Z.leb_spec 5 (MarketTime.weekday (MarketTime.skip_weekend 7 d0)));
      [lia|reflexivity]. }
  split.
  - unfold MarketTime.datetime_ltb.
    cbn [MarketTime.clock MarketTime.ordinal].
    subst d0.
    destruct (MarketTime.time_leb (MarketTime.at_time 9 0)
                (MarketTime.clock current_time)).
    + destruct (Z.ltb_spec (MarketTime.ordinal current_time)
                  (MarketTime.skip_weekend 7
                     (MarketTime.ordinal current_time + 1))); [reflexivity|lia].
    + destruct (Z.ltb_spec (MarketTime.ordinal current_time)
                  (MarketTime.skip_weekend 7 (MarketTime.ordinal current_time)));
        [reflexivity|].
      destruct (Z.ltb_spec (MarketTime.skip_weekend 7
                              (MarketTime.ordinal current_time))
                  (MarketTime.ordinal current_time)); [lia|reflexivity].
  - intros d Hd Hlt.
    apply (skip_weekend_first 7 d0 d); [|exact Hd].
    subst d0. unfold MarketTime.datetime_ltb, opening in Hlt.
    cbn [MarketTime.clock MarketTime.ordinal] in Hlt.
    destruct (Z.ltb_spec (MarketTime.ordinal current_time) d).
    + destruct (MarketTime.time_leb _ _); lia.
    + destruct (Z.ltb_spec d (MarketTime.ordinal current_time));
        [discriminate|].
      destruct (MarketTime.time_leb (MarketTime.at_time 9 0)
                  (MarketTime.clock current_time)); [discriminate|lia].
Qed.

(** ** MACD: the exponential average *)






(** ** Session: issuance and persistence *)

Lemma truthy_default (t : option string) :
  Py.truthy t = true -> t = Some (default ""%string t).
Proof.
  destruct t as [s|]; [reflexivity|discriminate].
Qed.

Lemma load_keeps_keys (now : Z) (disk : option KISClient.token_record)
    (self : KISClient.t) :
  KISClient.app_key (snd (KISClient._load_token_from_file now disk self))
  = KISClient.app_key self
  /\ KISClient.app_secret (snd (KISClient._load_token_from_file now disk self))
     = KISClient.app_secret self.
Proof.
  unfold KISClient._load_token_from_file.
  destruct disk as [rec|]; [|auto].
  destruct (KISClient.valid rec) as [| |d]; auto.
  destruct (now <? d)%Z; auto.
Qed.

(** What a successful [get_access_token] leaves: the token it returns is
    not empty and is the one in memory. *)
Lemma get_access_token_ok (now : Z) (resp : KISClient.http_outcome)
    (disk : option KISClient.token_record) (self : KISClient.t)
    (tok : string) :
  KISClient.result (KISClient.get_access_token now resp disk self) = Ok tok ->
  Py.truthy (Some tok) = true
  /\ Py.truthy (KISClient.access_token
                  (KISClient.client
                     (KISClient.get_access_token now resp disk self))) = true.
Proof.
  unfold KISClient.get_access_token.
  destruct (KISClient._load_token_from_file now disk self)
    as [saved self1] eqn:Hload.
  destruct (Py.truthy saved && KISClient.is_token_valid now self1) eqn:Hearly.
  { apply andb_true_iff in Hearly. destruct Hearly as [Hs Hv].
    cbn [KISClient.result KISClient.client KISClient.issuance_requests].
    intros [= <-]. rewrite <- (truthy_default _ Hs).
    split; [exact Hs|]. apply (is_token_valid_truthy now), Hv. }
  destruct (String.eqb _ _ || String.eqb _ _); [discriminate|].
  destruct resp as [e|status body|status k]; [discriminate| |].
  2:{ destruct (Nat.eqb status 403); [discriminate|].
      destruct (negb (KISClient.is_success status)); discriminate. }
  destruct (Nat.eqb status 403) eqn:H403.
  - destruct body as [b|]; [|discriminate].
    destruct (KISClient.is_rate_limit b).
    + destruct (KISClient._load_token_from_file now disk self1)
        as [saved2 self2].
      destruct (Py.truthy saved2) eqn:Hs2.
      * cbn [KISClient.result KISClient.client KISClient.issuance_requests
             KISClient.set_token KISClient.access_token].
        intros [= <-]. rewrite <- (truthy_default _ Hs2).
        split; assumption.
      * destruct (Py.truthy (KISClient.access_token self2)) eqn:Hm;
          [|discriminate].
        cbn [KISClient.result KISClient.client KISClient.issuance_requests].
        intros [= <-]. rewrite <- (truthy_default _ Hm).
        split; assumption.
    + apply Nat.eqb_eq in H403. subst status. discriminate.
  - destruct (negb (KISClient.is_success status)); [discriminate|].
    destruct body as [b|]; [|discriminate].
    destruct (Py.truthy (body_access_token b)) eqn:Hb; [|discriminate].
    cbn [negb KISClient.result KISClient.client KISClient.issuance_requests
         KISClient.set_token KISClient.access_token].
    intros [= <-]. rewrite <- (truthy_default _ Hb).
    split; assumption.
Qed.

Lemma issuance_requests_bound_get (now : Z) (resp : KISClient.http_outcome)
    (disk : option KISClient.token_record) (self : KISClient.t) :
  (KISClient.issuance_requests (KISClient.get_access_token now resp disk self)
   <= 1)%nat.
Proof.
  unfold KISClient.get_access_token.
  destruct (KISClient._load_token_from_file now disk self) as [saved self1].
  destruct (Py.truthy saved && _); [simpl; lia|].
  destruct (String.eqb _ _ || String.eqb _ _); [simpl; lia|].
  destruct resp as [e|status body|status k]; [simpl; lia| |].
  2:{ destruct (Nat.eqb status 403); [simpl; lia|].
      destruct (negb (KISClient.is_success status)); simpl; lia. }
  destruct (Nat.eqb status 403).
  - destruct body as [b|]; [|simpl; lia].
    destruct (KISClient.is_rate_limit b).
    + destruct (KISClient._load_token_from_file now disk self1)
        as [saved2 self2].
      destruct (Py.truthy saved2); [simpl; lia|].
      destruct (Py.truthy (KISClient.access_token self2)); simpl; lia.
    + destruct (negb (KISClient.is_success status)); [simpl; lia|].
      destruct (negb (Py.truthy (body_access_token b))); simpl; lia.
  - destruct (negb (KISClient.is_success status)); [simpl; lia|].
    destruct body as [b|]; [|simpl; lia].
    destruct (negb (Py.truthy (body_access_token b))); simpl; lia.
Qed.

Lemma issuance_requests_bound_ensure (now : Z) (resp : KISClient.http_outcome)
    (disk : option KISClient.token_record) (self : KISClient.t) :
  (KISClient.issuance_requests (KISClient.ensure_token now resp disk self)
   <= 1)%nat.
Proof.
  unfold KISClient.ensure_token.
  destruct (KISClient.is_token_valid now self && _); [simpl; lia|].
  destruct (KISClient._load_token_from_file now disk self) as [saved self1].
  destruct (Py.truthy saved && _); [simpl; lia|].
  destruct (Py.truthy (KISClient.access_token self1)); [simpl; lia|].
  unfold KISClient.refresh_token.
  pose proof (issuance_requests_bound_get now resp disk self1) as Hg.
  destruct (KISClient.result (KISClient.get_access_token now resp disk self1))
    as [t|e]; [simpl; exact Hg|].
  destruct e; try (simpl; exact Hg).
  destruct (KISClient.is_rate_limit_message msg); [|simpl; exact Hg].
  destruct (KISClient._load_token_from_file now _ _) as [saved2 self2].
  destruct (Py.truthy saved2); [simpl; exact Hg|].
  destruct (Py.truthy (KISClient.access_token self2)); simpl; exact Hg.
Qed.

(** X20 — A token that [ensure_token] returns is never empty: the call
    either raises or hands out a non-empty token, whatever is in memory,
    on disk and in the answer of the issuance endpoint. *)
Theorem ensure_token_is_never_empty :
  forall (now : Z) (resp : KISClient.http_outcome)
         (disk : option KISClient.token_record) (self : KISClient.t)
         (tok : option string),
    KISClient.result (KISClient.ensure_token now resp disk self) = Ok tok ->
    exists t : string, tok = Some t /\ t <> ""%string.
Proof.
  intros now resp disk self tok H.
  assert (Ht : Py.truthy tok = true).
  { revert H. unfold KISClient.ensure_token.
    destruct (KISClient.is_token_valid now self && _) eqn:H1.
    { apply andb_true_iff in H1. destruct H1 as [_ H1].
      cbn [KISClient.result]. intros [= <-]. exact H1. }
    destruct (KISClient._load_token_from_file now disk self)
      as [saved self1].
    destruct (Py.truthy saved && _) eqn:H2.
    { apply andb_true_iff in H2. destruct H2 as [H2 _].
      cbn [KISClient.result]. intros [= <-]. exact H2. }
    destruct (Py.truthy (KISClient.access_token self1)) eqn:H3.
    { cbn [KISClient.result]. intros [= <-]. exact H3. }
    unfold KISClient.refresh_token.
    pose proof (get_access_token_ok now resp disk self1) as Hok.
    destruct (KISClient.result (KISClient.get_access_token now resp disk self1))
      as [t|e].
    - cbn [KISClient.result]. intros [= <-].
      destruct (Hok t eq_refl) as (_ & Hm). exact Hm.
    - destruct e; try discriminate.
      destruct (KISClient.is_rate_limit_message msg); [|discriminate].
      destruct (KISClient._load_token_from_file now _ _) as [saved2 self2].
      destruct (Py.truthy saved2) eqn:H4.
      + cbn [KISClient.result]. intros [= <-]. exact H4.
      + destruct (Py.truthy (KISClient.access_token self2)) eqn:H5;
          [|discriminate].
        cbn [KISClient.result]. intros [= <-]. exact H5. }
  destruct tok as [[|c t]|]; try discriminate.
  eexists. split; [reflexivity|discriminate].
Qed.

(** Witness of X20. *)
Lemma ensure_token_issues_new :
  exists t : string, Some "NEW"%string = Some t /\ t <> ""%string.
Proof.
  apply (ensure_token_is_never_empty 200 (issued "NEW") None
           (client_with None None) (Some "NEW"%string)).
  reflexivity.
Defined.

(** X21 — [get_access_token] sends at most one request to the issuance
    endpoint, and none when the application key or secret is empty: the
    only error it then raises is the ValueError about the missing keys.
    The token file is left as it was unless a new token was issued, and
    is then rewritten with that token and an expiry. *)
Theorem issuance_requests_and_file :
  forall (now : Z) (resp : KISClient.http_outcome)
         (disk : option KISClient.token_record) (self : KISClient.t),
    let o := KISClient.get_access_token now resp disk self in
    (KISClient.issuance_requests o <= 1)%nat
    /\ (KISClient.issuance_requests o = 1%nat ->
        KISClient.app_key self <> ""%string
        /\ KISClient.app_secret self <> ""%string)
    /\ (KISClient.app_key self = ""%string
        \/ KISClient.app_secret self = ""%string ->
        KISClient.issuance_requests o = 0%nat
        /\ forall e, KISClient.result o = Raise e ->
                     e = ValueError KISClient.msg_no_keys)
    /\ (KISClient.file o = disk
        \/ exists tok d,
             KISClient.result o = Ok tok
             /\ KISClient.issuance_requests o = 1%nat
             /\ KISClient.file o
                = Some {| KISClient.token := tok; KISClient.valid := Date d |}).
Proof.
  intros now resp disk self o. subst o.
  unfold KISClient.get_access_token.
  pose proof (load_keeps_keys now disk self) as [Hk Hs].
  destruct (KISClient._load_token_from_file now disk self)
    as [saved self1] eqn:Hload.
  simpl in Hk, Hs. rewrite Hk, Hs.
  destruct (Py.truthy saved && KISClient.is_token_valid now self1).
  { cbn [KISClient.result KISClient.file KISClient.issuance_requests].
    split; [lia|]. split; [discriminate|]. split; [|auto].
    intros _. split; [reflexivity|]. discriminate. }
  destruct (String.eqb_spec (KISClient.app_key self) "") as [Hkey|Hkey].
  { cbn [orb KISClient.result KISClient.file KISClient.issuance_requests].
    split; [lia|]. split; [discriminate|]. split; [|auto].
    intros _. split; [reflexivity|]. intros e [= <-]. reflexivity. }
  destruct (String.eqb_spec (KISClient.app_secret self) "") as [Hsec|Hsec].
  { cbn [orb KISClient.result KISClient.file KISClient.issuance_requests].
    split; [lia|]. split; [discriminate|]. split; [|auto].
    intros _. split; [reflexivity|]. intros e [= <-]. reflexivity. }
  cbn [orb].
  assert (Hfile :
    forall o : KISClient.outcome string,
      KISClient.issuance_requests o = 1%nat ->
      (KISClient.file o = disk
       \/ exists tok d,
            KISClient.result o = Ok tok
            /\ KISClient.issuance_requests o = 1%nat
            /\ KISClient.file o
               = Some {| KISClient.token := tok; KISClient.valid := Date d |}) ->
      (KISClient.issuance_requests o <= 1)%nat
      /\ (KISClient.issuance_requests o = 1%nat ->
          KISClient.app_key self <> ""%string
          /\ KISClient.app_secret self <> ""%string)
      /\ (KISClient.app_key self = ""%string
          \/ KISClient.app_secret self = ""%string ->
          KISClient.issuance_requests o = 0%nat
          /\ forall e, KISClient.result o = Raise e ->
                       e = ValueError KISClient.msg_no_keys)
      /\ (KISClient.file o = disk
          \/ exists tok d,
               KISClient.result o = Ok tok
               /\ KISClient.issuance_requests o = 1%nat
               /\ KISClient.file o
                  = Some {| KISClient.token := tok;
                            KISClient.valid := Date d |})).
  { intros o Ho Hf. split; [lia|]. split; [auto|]. split; [|exact Hf].
    intros [H|H]; contradiction. }
  destruct resp as [e|status body|status k]; [apply Hfile; auto| |].
  2:{ destruct (Nat.eqb status 403); [apply Hfile; auto|].
      destruct (negb (KISClient.is_success status)); apply Hfile; auto. }
  destruct (Nat.eqb status 403).
  - destruct body as [b|]; [|apply Hfile; auto].
    destruct (KISClient.is_rate_limit b).
    + destruct (KISClient._load_token_from_file now disk self1)
        as [saved2 self2].
      destruct (Py.truthy saved2); [apply Hfile; auto|].
      destruct (Py.truthy (KISClient.access_token self2)); apply Hfile; auto.
    + destruct (negb (KISClient.is_success status)); [apply Hfile; auto|].
      destruct (negb (Py.truthy (body_access_token b))); apply Hfile; auto.
      right. eexists _, _. repeat split.
  - destruct (negb (KISClient.is_success status)); [apply Hfile; auto|].
    destruct body as [b|]; [|apply Hfile; auto].
    destruct (negb (Py.truthy (body_access_token b))); apply Hfile; auto.
    right. eexists _, _. repeat split.
Qed.

(** X22 — A token issued in one process is reused by the next: after
    [get_access_token] has obtained a new token, a fresh client that
    starts with the token file it wrote gets that same token from
    [ensure_token], as long as the stored expiry lies ahead, without any
    request to the issuance endpoint. *)
Theorem issued_token_survives_restart :
  forall (now now' : Z) (status : nat) (b : json_body)
         (resp' : KISClient.http_outcome)
         (disk : option KISClient.token_record) (self fresh : KISClient.t)
         (tok : string),
    let o := KISClient.get_access_token now
               (KISClient.Response status (Some b)) disk self in
    KISClient.is_success status = true ->
    KISClient.issuance_requests o = 1%nat ->
    KISClient.result o = Ok tok ->
    KISClient.access_token fresh = None ->
    let stored_until :=
      match access_token_token_expired b with
      | Date d => d
      | _ => (now + default 86400 (expires_in b))%Z
      end in
    KISClient.file o
    = Some {| KISClient.token := tok; KISClient.valid := Date stored_until |}
    /\ KISClient.access_token (KISClient.client o) = Some tok
    /\ ((now' < stored_until)%Z ->
        KISClient.result (KISClient.ensure_token now' resp' (KISClient.file o)
                            fresh) = Ok (Some tok)
        /\ KISClient.issuance_requests
             (KISClient.ensure_token now' resp' (KISClient.file o) fresh)
           = 0%nat).
Proof.
  intros now now' status b resp' disk self fresh tok o Hsucc Hsent Hres
         Hfresh stored_until.
  assert (Hfile : KISClient.file o
                  = Some {| KISClient.token := tok;
                            KISClient.valid := Date stored_until |}
                  /\ KISClient.access_token (KISClient.client o) = Some tok
                  /\ tok <> ""%string).
  { subst o stored_until. revert Hsent Hres.
    unfold KISClient.get_access_token.
    destruct (KISClient._load_token_from_file now disk self)
      as [saved self1].
    destruct (Py.truthy saved && _); [discriminate|].
    destruct (String.eqb _ _ || String.eqb _ _); [discriminate|].
    assert (H403 : Nat.eqb status 403 = false).
    { destruct (Nat.eqb_spec status 403) as [->|]; [discriminate|reflexivity]. }
    rewrite H403, Hsucc. cbn [negb].
    destruct (Py.truthy (body_access_token b)) eqn:Hb; [|discriminate].
    cbn [negb KISClient.result KISClient.file KISClient.client
         KISClient.issuance_requests KISClient.set_token
         KISClient.access_token KISClient._save_token_to_file].
    intros _ [= <-]. repeat split.
    destruct (body_access_token b) as [[|c t]|]; discriminate. }
  destruct Hfile as (Hf & Hm & Hne). split; [exact Hf|]. split; [exact Hm|].
  intros Hahead. rewrite Hf. unfold KISClient.ensure_token.
  assert (Hinv : KISClient.is_token_valid now' fresh = false).
  { unfold KISClient.is_token_valid. rewrite Hfresh. reflexivity. }
  rewrite Hinv. cbn [andb].
  destruct (load_valid_token now'
              {| KISClient.token := tok; KISClient.valid := Date stored_until |}
              fresh) as (self1 & -> & Hv1).
  { simpl. apply Z.ltb_lt, Hahead. }
  { exact Hne. }
  cbn [KISClient.token]. rewrite Hv1, (truthy_nonempty _ Hne).
  split; reflexivity.
Qed.

(** Witness of X22: a token issued at 200 for a day is reused at 300. *)
Lemma issued_token_reused_at_300 :
  KISClient.result
    (KISClient.ensure_token 300 (issued "OTHER")
       (KISClient.file (KISClient.get_access_token 200 (issued "NEW") None
                          (client_with None None)))
       (client_with None None))
  = Ok (Some "NEW"%string).
Proof.
  apply (proj2 (proj2 (issued_token_survives_restart 200 300 200
                         {| rt_cd := None; msg_cd := ""; msg1 := None;
                            error_code := ""; error_description := "";
                            body_access_token := Some "NEW"%string;
                            expires_in := Some 86400%Z;
                            access_token_token_expired := NoDate |}
                         (issued "OTHER") None (client_with None None)
                         (client_with None None) "NEW"
                         ltac:(reflexivity) ltac:(reflexivity)
                         ltac:(reflexivity) ltac:(reflexivity)))
           ltac:(reflexivity)).
Defined.

(** ** Request pipeline: success and retry *)

Lemma request_attempt_ok (o : KISClient.http_outcome) (r : json_body) :
  KISClient._request_attempt o = Ok (KISClient.Dict r) ->
  (rt_cd r = None \/ rt_cd r = Some "0"%string)
  /\ exists status, o = KISClient.Response status (Some r)
                    /\ KISClient.is_success status = true.
Proof.
  unfold KISClient._request_attempt.
  destruct o as [e|status body|status k]; [destruct e; discriminate| |].
  2:{ destruct (negb (KISClient.is_success status)); [discriminate|].
      destruct k as [|[|]]; discriminate. }
  destruct (KISClient.is_success status) eqn:Hs; [|discriminate].
  destruct body as [b|]; [|discriminate]. cbn [negb].
  destruct (rt_cd b) as [rt|] eqn:Hrt.
  - destruct (String.eqb_spec rt "0") as [->|]; [|discriminate].
    intros [= <-]. rewrite Hrt. eauto.
  - intros [= <-]. rewrite Hrt. eauto.
Qed.

Lemma request_attempt_other (o : KISClient.http_outcome) :
  KISClient._request_attempt o = Ok KISClient.NonDict ->
  exists status,
    o = KISClient.ResponseOther status (KISClient.Sequence false)
    /\ KISClient.is_success status = true.
Proof.
  unfold KISClient._request_attempt.
  destruct o as [e|status body|status k]; [destruct e; discriminate| |].
  - destruct (negb (KISClient.is_success status)); [discriminate|].
    destruct body as [b|]; [|discriminate].
    destruct (rt_cd b) as [rt|]; [|discriminate].
    destruct (negb (String.eqb rt "0")); discriminate.
  - destruct (KISClient.is_success status) eqn:Hs; [|discriminate].
    destruct k as [|[|]]; try discriminate. eauto.
Qed.

(** X23 — A data call returns a JSON object only on a 2xx answer whose
    envelope has no [rt_cd] or the [rt_cd] "0": a rejection of the
    brokerage is never returned as a result.  The result is the body of
    the first answer, or, when that answer was a 401, of the resubmitted
    call; a 401 to the resubmitted call is raised and not retried, and the
    whole call sends at most two requests to the issuance endpoint.  A
    result that is not a JSON object is the body of a 2xx answer that is a
    JSON string or array without ["rt_cd"] in it. *)
Theorem data_call_success_and_retry :
  forall (now : Z) (token_resp1 first token_resp2 second : KISClient.http_outcome)
         (disk : option KISClient.token_record) (self : KISClient.t),
    let o := KISClient.attempt now token_resp1 first token_resp2 second
               disk self in
    (forall r, KISClient.result o = Ok (KISClient.Dict r) ->
       (rt_cd r = None \/ rt_cd r = Some "0"%string)
       /\ ((exists status, first = KISClient.Response status (Some r)
                           /\ KISClient.is_success status = true)
           \/ (KISClient.status_of first = Some 401%nat
               /\ exists status, second = KISClient.Response status (Some r)
                                 /\ KISClient.is_success status = true)))
    /\ (KISClient.status_of first = Some 401%nat ->
        KISClient.status_of second = Some 401%nat ->
        exists e, KISClient.result o = Raise e)
    /\ (KISClient.issuance_requests o <= 2)%nat
    /\ (KISClient.result o = Ok KISClient.NonDict ->
        (exists status,
           first = KISClient.ResponseOther status (KISClient.Sequence false)
           /\ KISClient.is_success status = true)
        \/ (KISClient.status_of first = Some 401%nat
            /\ exists status,
                 second
                 = KISClient.ResponseOther status (KISClient.Sequence false)
                 /\ KISClient.is_success status = true)).
Proof.
  intros now token_resp1 first token_resp2 second disk self o. subst o.
  assert (H401 : forall x, KISClient.status_of x = Some 401%nat ->
                           exists e, KISClient._request_attempt x = Raise e).
  { intros x Hx. destruct x as [e|status body|status k]; try discriminate;
      injection Hx as ->; simpl; eauto. }
  unfold KISClient.attempt.
  pose proof (issuance_requests_bound_ensure now token_resp1 disk self) as He.
  destruct (KISClient.result (KISClient.ensure_token now token_resp1 disk self))
    as [t|e].
  2:{ cbn [KISClient.result KISClient.issuance_requests].
      split; [discriminate|]. split; [eauto|]. split; [lia|discriminate]. }
  cbn [KISClient.result KISClient.issuance_requests].
  set (o1 := KISClient.ensure_token now token_resp1 disk self) in *.
  unfold KISClient._request.
  destruct (KISClient.status_of first) as [status|] eqn:Hst.
  2:{ cbn [KISClient.result KISClient.issuance_requests].
      split; [|split; [discriminate|split; [lia|]]].
      - intros r Hr.
        destruct (request_attempt_ok _ _ Hr) as (Hrt & st & Hfst & Hsu).
        split; [exact Hrt|]. left. eauto.
      - intros Hr. left. apply request_attempt_other, Hr. }
  destruct (negb (KISClient.is_success status) && true
            && Nat.eqb status 401) eqn:Hretry.
  - apply andb_true_iff in Hretry. destruct Hretry as [_ Heq].
    apply Nat.eqb_eq in Heq. subst status.
    unfold KISClient.refresh_token.
    pose proof (issuance_requests_bound_get now token_resp2
                  (KISClient.file o1) (KISClient.client o1)) as Hg.
    destruct (KISClient.result
                (KISClient.get_access_token now token_resp2
                   (KISClient.file o1) (KISClient.client o1))) as [t2|e2];
      cbn [KISClient.result KISClient.issuance_requests].
    + split; [|split; [|split; [lia|]]].
      * intros r Hr.
        destruct (request_attempt_ok _ _ Hr) as (Hrt & st & Hsnd & Hsu).
        split; [exact Hrt|]. right. split; eauto.
      * intros _ Hs2. apply H401, Hs2.
      * intros Hr. right. split; [reflexivity|].
        apply request_attempt_other, Hr.
    + split; [discriminate|]. split; [eauto|]. split; [lia|discriminate].
  - cbn [KISClient.result KISClient.issuance_requests].
    split; [|split; [|split; [lia|]]].
    + intros r Hr.
      destruct (request_attempt_ok _ _ Hr) as (Hrt & st & Hfst & Hsu).
      split; [exact Hrt|]. left. eauto.
    + intros [= ->] _. apply H401, Hst.
    + intros Hr. left. apply request_attempt_other, Hr.
Qed.

(** ** MACD: evaluation *)

Lemma calculate_ema_ok (prices : list Q) (period : nat) :
  (0 < period)%nat -> exists ema, MACDStrategy.calculate_ema prices period = Ok ema.
Proof.
  intros Hp. unfold MACDStrategy.calculate_ema.
  destruct (Nat.ltb (length prices) period).
  - destruct prices as [|p0 rest]; [eauto|].
    rewrite div_ok by (apply Qnat_nonzero; simpl; lia). eauto.
  - rewrite (div_ok 2) by (apply Qnat_nonzero; lia). cbn [Py.bind].
    rewrite div_ok by (apply Qnat_nonzero; assumption). cbn [Py.bind]. eauto.
Qed.

Lemma append_bounded_last (bound : nat) (xs : list Q) (x : Q) :
  (0 < bound)%nat -> last (Py.append_bounded bound xs x) = Some x.
Proof.
  intros Hb. unfold Py.append_bounded.
  destruct (Nat.ltb bound (length (xs ++ [x]))) eqn:E.
  - apply Nat.ltb_lt in E. rewrite length_app in E. simpl in E.
    destruct xs as [|y ys]; [simpl in E; lia|].
    change (drop 1 ((y :: ys) ++ [x])) with (ys ++ [x]).
    apply last_snoc.
  - apply last_snoc.
Qed.

(** [calculate_macd] on enough prices: the MACD value is returned and
    appended to [macd_history]; nothing else changes. *)
Lemma calculate_macd_appends (prices : list Q) (self : MACDStrategy.t) :
  macd_periods_ok self ->
  (MACDStrategy.slow_period self <= length prices)%nat ->
  exists signal : option Q,
    MACDStrategy.calculate_macd prices self
    = (Ok (Some (macd_of self prices), signal),
       MACDStrategy.set_macd_history
         (Py.append_bounded (MACDStrategy.signal_period self * 2)
            (MACDStrategy.macd_history self) (macd_of self prices)) self).
Proof.
  intros (Hf & Hs & Hg) Hlen. unfold MACDStrategy.calculate_macd, macd_of.
  apply Nat.ltb_ge in Hlen. rewrite Hlen. clear Hlen.
  destruct (calculate_ema_ok prices _ Hf) as [fast_ema ->].
  destruct (calculate_ema_ok prices _ Hs) as [slow_ema ->].
  cbv zeta.
  destruct (Nat.ltb (length (MACDStrategy.macd_history _)) _); [eauto|].
  match goal with
  | |- context [MACDStrategy.calculate_ema ?h ?p] =>
      destruct (calculate_ema_ok h p) as [signal ->]; [exact Hg|]
  end.
  cbn [Py.bind]. eauto.
Qed.

(** X24 — The MACD strategy with positive periods raises nothing in
    [should_buy] and [should_sell].  Both record the MACD value of the
    price history in [macd_history]: when the engine evaluates the sell
    condition after a buy condition that did not fire, the value the buy
    evaluation has just recorded is recorded a second time. *)
Theorem macd_sell_records_value_again :
  forall (stock_code : string) (md : market_data) (self : MACDStrategy.t),
    macd_periods_ok self ->
    let s1 := snd (MACDStrategy.should_buy stock_code md self) in
    (exists b, fst (MACDStrategy.should_buy stock_code md self) = Ok b)
    /\ (exists b, fst (MACDStrategy.should_sell stock_code md self) = Ok b)
    /\ (0 < current_price md ->
        (MACDStrategy.slow_period self
         <= length (MACDStrategy.price_history s1))%nat ->
        let macd := macd_of s1 (MACDStrategy.price_history s1) in
        last (MACDStrategy.macd_history s1) = Some macd
        /\ MACDStrategy.macd_history
             (snd (MACDStrategy.should_sell stock_code md s1))
           = Py.append_bounded (MACDStrategy.signal_period self * 2)
               (MACDStrategy.macd_history s1) macd).
Proof.
  intros stock_code md self Hok s1.
  assert (Hsell : forall s, macd_periods_ok s ->
            (exists b, fst (MACDStrategy.should_sell stock_code md s) = Ok b)
            /\ (0 < current_price md ->
                (MACDStrategy.slow_period s
                 <= length (MACDStrategy.price_history s))%nat ->
                MACDStrategy.macd_history
                  (snd (MACDStrategy.should_sell stock_code md s))
                = Py.append_bounded (MACDStrategy.signal_period s * 2)
                    (MACDStrategy.macd_history s)
                    (macd_of s (MACDStrategy.price_history s)))).
  { intros s Hs. unfold MACDStrategy.should_sell.
    destruct (Py.leb (current_price md) 0) eqn:Hle.
    { split; [simpl; eauto|]. intros Hcp. apply Qle_bool_iff in Hle.
      exfalso. lra. }
    destruct (Nat.ltb _ _) eqn:Hlen.
    { split; [simpl; eauto|]. intros _ H. apply Nat.ltb_lt in Hlen. lia. }
    apply Nat.ltb_ge in Hlen.
    destruct (calculate_macd_appends (MACDStrategy.price_history s) s Hs Hlen)
      as [signal ->].
    destruct signal as [signal|]; [|split; [simpl; eauto|reflexivity]].
    set (s2 := MACDStrategy.set_macd_history _ s).
    destruct (Nat.ltb (length (MACDStrategy.macd_history s2)) 2) eqn:H2;
      [split; [simpl; eauto|reflexivity]|].
    apply Nat.ltb_ge in H2.
    destruct (nth_from_end_ok 2 (MACDStrategy.macd_history s2))
      as [prev ->]; [lia|exact H2|].
    split; [simpl; eauto|reflexivity]. }
  assert (Hbuy : (exists b, fst (MACDStrategy.should_buy stock_code md self)
                            = Ok b)
                 /\ macd_periods_ok s1
                 /\ MACDStrategy.signal_period s1
                    = MACDStrategy.signal_period self
                 /\ (0 < current_price md ->
                     (MACDStrategy.slow_period self
                      <= length (MACDStrategy.price_history s1))%nat ->
                     last (MACDStrategy.macd_history s1)
                     = Some (macd_of s1 (MACDStrategy.price_history s1)))).
  { subst s1. unfold MACDStrategy.should_buy.
    destruct (Py.leb (current_price md) 0) eqn:Hle.
    { cbn [fst snd]. split; [eauto|]. split; [exact Hok|].
      split; [reflexivity|]. intros Hcp. apply Qle_bool_iff in Hle.
      exfalso. lra. }
    set (s0 := MACDStrategy.set_price_history _ self).
    assert (Hok0 : macd_periods_ok s0) by exact Hok.
    destruct (Nat.ltb _ _) eqn:Hlen.
    { cbn [fst snd]. split; [eauto|]. split; [exact Hok0|].
      split; [reflexivity|]. intros _ H. apply Nat.ltb_lt in Hlen.
      change (MACDStrategy.slow_period s0)
        with (MACDStrategy.slow_period self) in Hlen. lia. }
    apply Nat.ltb_ge in Hlen.
    destruct (calculate_macd_appends (MACDStrategy.price_history s0) s0
                Hok0 Hlen) as [signal ->].
    set (s2 := MACDStrategy.set_macd_history _ s0).
    assert (Hlast : last (MACDStrategy.macd_history s2)
                    = Some (macd_of s0 (MACDStrategy.price_history s0))).
    { subst s2. cbn [MACDStrategy.macd_history MACDStrategy.set_macd_history].
      apply append_bounded_last. destruct Hok0 as (_ & _ & Hg). lia. }
    destruct signal as [signal|].
    2:{ cbn [fst snd]. split; [eauto|]. split; [exact Hok0|].
        split; [reflexivity|]. intros _ _. exact Hlast. }
    destruct (Nat.ltb (length (MACDStrategy.macd_history s2)) 2) eqn:H2.
    { cbn [fst snd]. split; [eauto|]. split; [exact Hok0|].
      split; [reflexivity|]. intros _ _. exact Hlast. }
    apply Nat.ltb_ge in H2.
    destruct (nth_from_end_ok 2 (MACDStrategy.macd_history s2))
      as [prev ->]; [lia|exact H2|].
    cbn [fst snd]. split; [eauto|]. split; [exact Hok0|].
    split; [reflexivity|]. intros _ _. exact Hlast. }
  destruct Hbuy as (Hb & Hok1 & Hsig & Hlast).
  split; [exact Hb|]. split; [apply Hsell, Hok|].
  intros Hcp Hlen macd. split; [apply Hlast; assumption|].
  rewrite <- Hsig. apply (Hsell s1 Hok1); [exact Hcp|].
  assert (MACDStrategy.slow_period s1 = MACDStrategy.slow_period self).
  { clear. subst s1. unfold MACDStrategy.should_buy.
    destruct (Py.leb _ _); [reflexivity|].
    destruct (Nat.ltb _ _); [reflexivity|].
    unfold MACDStrategy.calculate_macd.
    destruct (Nat.ltb _ _); [reflexivity|].
    destruct (MACDStrategy.calculate_ema _ _); [|reflexivity].
    destruct (MACDStrategy.calculate_ema _ _); [|reflexivity].
    cbv zeta. destruct (Nat.ltb _ _); [reflexivity|].
    destruct (MACDStrategy.calculate_ema _ _); cbn [Py.bind]; [|reflexivity].
    destruct (Nat.ltb _ _); [reflexivity|].
    destruct (Py.nth_from_end _ _); reflexivity. }
  lia.
Qed.

(** Witness of X24: the default MACD strategy on a first quote. *)
Lemma macd_first_quote :
  exists b,
    fst (MACDStrategy.should_buy "005930" (snapshot 80 1000)
           (MACDStrategy.init (None, None, None))) = Ok b.
Proof.
  apply (proj1 (macd_sell_records_value_again "005930" (snapshot 80 1000)
                  (MACDStrategy.init (None, None, None))
                  ltac:(repeat split; simpl; lia))).
Defined.

(** ** Token manager *)

(** X25 — After the token manager has refreshed its token, it hands out
    that token without calling the client for the next 22 hours and 55
    minutes, whatever the client would answer; from then on every call
    asks the client again, and a failure of the client is raised with the
    cache left as it was. *)
Theorem token_manager_reuses_cache :
  forall (now now' : Z) (tok : string) (issued' : exc string)
         (self : TokenManager.t),
    tok <> ""%string ->
    let s1 := snd (TokenManager.refresh_token now (Ok tok) self) in
    ((now' < now + 82500)%Z ->
     TokenManager.get_valid_token now' issued' s1 = (Ok (Some tok), s1, 0%nat))
    /\ ((now + 82500 <= now')%Z ->
        snd (TokenManager.get_valid_token now' issued' s1) = 1%nat
        /\ match issued' with
           | Ok tok' =>
               fst (fst (TokenManager.get_valid_token now' issued' s1))
               = Ok (Some tok')
           | Raise e =>
               fst (TokenManager.get_valid_token now' issued' s1)
               = (Raise e, s1)
           end).
Proof.
  intros now now' tok issued' self Htok s1. subst s1.
  unfold TokenManager.get_valid_token, TokenManager._is_token_valid.
  cbn [TokenManager.refresh_token snd TokenManager._token_cache
       TokenManager._token_expires_at].
  rewrite (truthy_nonempty _ Htok). cbn [negb orb]. split.
  - intros H. destruct (Z.ltb_spec now' (now + 82800 - 300)); [|lia].
    reflexivity.
  - intros H. destruct (Z.ltb_spec now' (now + 82800 - 300)); [lia|].
    cbn [negb]. destruct issued' as [tok'|e]; simpl; auto.
Qed.

(** Witness of X25. *)
Lemma token_manager_reuses_after_an_hour :
  TokenManager.get_valid_token 3600 (Raise ConnectionError)
    (snd (TokenManager.refresh_token 0 (Ok "NEW"%string) TokenManager.init))
  = (Ok (Some "NEW"%string),
     snd (TokenManager.refresh_token 0 (Ok "NEW"%string) TokenManager.init),
     0%nat).
Proof.
  apply (proj1 (token_manager_reuses_cache 0 3600 "NEW"
                  (Raise ConnectionError) TokenManager.init
                  ltac:(discriminate))).
  reflexivity.
Defined.

(** ** Sell signals *)

(** X26 — Every signal [on_sell_signal] returns is a SELL signal for the
    symbol asked, made for a positive holding, and its quantity is the
    smaller of the holding and the configured [max_sell_quantity] (the
    holding itself when none is configured): it never exceeds the
    holding. *)
Theorem on_sell_signal_shape :
  forall (o : BaseStrategy.t) (stock_code : string) (md : market_data)
         (holding_quantity : Z) (s : signal),
    fst (BaseStrategy.on_sell_signal o stock_code md holding_quantity)
    = Ok (Some s) ->
    sig_action s = SELL
    /\ sig_stock_code s = stock_code
    /\ (0 < holding_quantity)%Z
    /\ sig_quantity s
       = Z.min holding_quantity
           (default holding_quantity
              (cfg_max_sell_quantity (BaseStrategy.config o)))
    /\ (sig_quantity s <= holding_quantity)%Z.
Proof.
  intros o stock_code md holding_quantity s.
  unfold BaseStrategy.on_sell_signal.
  destruct (BaseStrategy.should_sell _ _ _ _) as [[[|]|e] s1]; simpl;
    try discriminate.
  destruct (holding_quantity <=? 0)%Z eqn:Hh; simpl; [discriminate|].
  apply Z.leb_gt in Hh.
  destruct (BaseStrategy.calculate_sell_price _ _ _ _) as [pr|e];
    simpl; [|discriminate].
  intros [= <-]. simpl. repeat split; try assumption. lia.
Qed.

(** Witness of X26: the crossover with periods 1 and 2 sells 10 shares
    held after the fall 2, 1. *)
Lemma crossover_sells_holding :
  sig_action
    {| sig_action := SELL; sig_stock_code := "005930"; sig_quantity := 10;
       sig_price := 1; sig_order_type := "00" |} = SELL
  /\ sig_stock_code
       {| sig_action := SELL; sig_stock_code := "005930"; sig_quantity := 10;
          sig_price := 1; sig_order_type := "00" |} = "005930"%string.
Proof.
  destruct (on_sell_signal_shape
              {| BaseStrategy.state := MovingAverageCrossoverStrategy.t;
                 BaseStrategy.class := MovingAverageCrossover_class;
                 BaseStrategy.self :=
                   MovingAverageCrossoverStrategy.set_price_history [2; 1]
                     (MovingAverageCrossoverStrategy.init
                        (crossover_config 1 2));
                 BaseStrategy.name := "A";
                 BaseStrategy.config := crossover_config 1 2;
                 BaseStrategy.is_active := true |}
              "005930" (snapshot 1 1000) 10
              {| sig_action := SELL; sig_stock_code := "005930";
                 sig_quantity := 10; sig_price := 1;
                 sig_order_type := "00" |}
              ltac:(vm_compute; reflexivity)) as (H1 & H2 & _).
  split; assumption.
Defined.
